(** * llm-knowledge-extractor: keyword extraction, confidence scoring,
      the LLM gateway, the analysis service and the batch coordinator

    A shallow embedding of the Python sources
    - [features/text_analyzer/utils/noun_extractor.py]
    - [features/text_analyzer/services/analysis_service.py]
    - [llm_clients/azure/azure_llm_client.py]
    - [features/text_analyzer/api/v1/text_analyzer_api.py]
    together with the properties stated about them.

    Conventions.
    - A Python [str] is a list of Unicode code points ([list N]).
    - A Python [int] is a [Z]; a Python [float] is a binary64 [float].
    - Python's own Unicode tables ([str.lower], the word characters of
      [re]), the JSON parser and pydantic are not code of this
      repository: they are the fields of the class [Runtime].
    - Code that raises returns an [outcome]; code that talks to the LLM
      endpoint or to storage threads a [world] explicitly. *)

From Stdlib Require Import ZArith NArith List Bool Lia Floats String Ascii Sorted.
From stdpp Require Import gmap strings.
Import ListNotations.

#[local] Set Warnings "-register-all,-inexact-float,-clear-no-such-hyp".

Local Open Scope nat_scope.

(* ===================================================================== *)
(** ** Python strings *)
(* ===================================================================== *)

Abbreviation char := N (only parsing).
Abbreviation str := (list N) (only parsing).

(** A literal of the source, as code points. *)
Definition py (s : string) : str :=
  map N_of_ascii (list_ascii_of_string s).

Definition is_ascii_upper (c : char) : bool := ((65 <=? c) && (c <=? 90))%N.
Definition is_ascii_lower (c : char) : bool := ((97 <=? c) && (c <=? 122))%N.
Definition is_ascii_digit (c : char) : bool := ((48 <=? c) && (c <=? 57))%N.

(** The character class [[a-zA-Z]]. *)
Definition is_ascii_letter (c : char) : bool :=
  is_ascii_upper c || is_ascii_lower c.

(** [str.isspace] on one code point: CPython's [_PyUnicode_IsWhitespace]. *)
Definition isspace (c : char) : bool :=
  (((9 <=? c) && (c <=? 13)) || ((28 <=? c) && (c <=? 32))
   || (c =? 133) || (c =? 160) || (c =? 5760)
   || ((8192 <=? c) && (c <=? 8202))
   || (c =? 8232) || (c =? 8233) || (c =? 8239) || (c =? 8287)
   || (c =? 12288))%N.

Fixpoint lstrip (s : str) : str :=
  match s with
  | [] => []
  | c :: rest => if isspace c then lstrip rest else s
  end.

Definition rstrip (s : str) : str := rev (lstrip (rev s)).

(** [s.strip()] *)
Definition strip (s : str) : str := rstrip (lstrip s).

(** [s[:n]] for [0 <= n]. *)
Definition str_prefix (n : nat) (s : str) : str := firstn n s.

(** [word.endswith(ending)] *)
Definition endswith (word ending : str) : bool :=
  bool_decide (ending `suffix_of` word).

(** [needle in haystack] on strings. *)
Fixpoint contains (haystack needle : str) : bool :=
  bool_decide (needle `prefix_of` haystack)
  || match haystack with
     | [] => false
     | _ :: rest => contains rest needle
     end.

(** [w in some_set] for the literal sets of the source. *)
Definition in_set (w : str) (s : list str) : bool := bool_decide (w ∈ s).

(* ===================================================================== *)
(** ** Errors *)
(* ===================================================================== *)

(** The exception classes that occur.  Only subclasses of [Exception] are
    modelled (what [except Exception] catches); interpreter signals that
    derive from [BaseException] alone are outside the model. *)
Inductive exn_class :=
| ValueError
| TypeError
| AttributeError
| IndexError
| KeyError
| UnboundLocalError
| AsyncioTimeoutError      (* asyncio.TimeoutError *)
| LLMTimeoutError          (* azure_llm_client.LLMTimeoutError *)
| JSONDecodeError
| ValidationError          (* pydantic *)
| PlainException           (* Exception(...) *)
| HTTPException (status_code : Z)
| ExternalError (tag : N). (* any other class raised by a collaborator *)

Record exn := Exn { exn_cls : exn_class; exn_msg : str }.

(** [str(e)] *)
Definition exn_str (e : exn) : str := exn_msg e.

Inductive outcome (A : Type) :=
| Ok (a : A)
| Raise (e : exn).
Arguments Ok {A} a.
Arguments Raise {A} e.

Definition is_ok {A} (o : outcome A) : bool :=
  match o with Ok _ => true | Raise _ => false end.

(** [try: body  except Exception as e: handler(e)] *)
Definition try_except {A} (body : outcome A) (handler : exn -> outcome A)
  : outcome A :=
  match body with
  | Ok a => Ok a
  | Raise e => handler e
  end.

#[global] Instance outcome_ret : MRet outcome := fun _ a => Ok a.

#[global] Instance outcome_bind : MBind outcome := fun _ _ k o =>
  match o with
  | Ok a => k a
  | Raise e => Raise e
  end.

#[global] Instance exn_class_eq_dec : EqDecision exn_class.
Proof. solve_decision. Defined.

#[global] Instance exn_eq_dec : EqDecision exn.
Proof. solve_decision. Defined.

(* ===================================================================== *)
(** ** Python values and the runtime outside the repository *)
(* ===================================================================== *)

(** What [json.loads] can return. *)
Inductive json :=
| JNull
| JBool (b : bool)
| JInt (z : Z)
| JFloat (f : float)
| JStr (s : str)
| JList (l : list json)
| JDict (d : list (str * json)).

(** Truth value of a Python object ([if v:]). *)
Definition truthy (v : json) : bool :=
  match v with
  | JNull => false
  | JBool b => b
  | JInt z => negb (z =? 0)%Z
  | JFloat f => negb (PrimFloat.eqb f 0)
  | JStr s => negb (bool_decide (s = []))
  | JList l => match l with [] => false | _ => true end
  | JDict d => match d with [] => false | _ => true end
  end.

(** Truth value of a [str]. *)
Definition truthy_str (s : str) : bool :=
  match s with [] => false | _ => true end.

Definition type_error (what : string) : exn := Exn TypeError (py what).
Definition attribute_error (what : string) : exn := Exn AttributeError (py what).

(** [len(v)] *)
Definition py_len (v : json) : outcome Z :=
  match v with
  | JStr s => Ok (Z.of_nat (length s))
  | JList l => Ok (Z.of_nat (length l))
  | JDict d => Ok (Z.of_nat (length d))
  | _ => Raise (type_error "object has no len()")
  end.

Fixpoint dict_lookup (key : str) (d : list (str * json)) : option json :=
  match d with
  | [] => None
  | (k, v) :: rest => if bool_decide (k = key) then Some v else dict_lookup key rest
  end.

(** [v.get(key, default)]; only a dict has a [get]. *)
Definition py_get (v : json) (key : str) (default : json) : outcome json :=
  match v with
  | JDict d => Ok (match dict_lookup key d with Some x => x | None => default end)
  | _ => Raise (attribute_error "object has no attribute 'get'")
  end.

(** [v[key]] for a string key. *)
Definition py_getitem (v : json) (key : str) : outcome json :=
  match v with
  | JDict d =>
      match dict_lookup key d with
      | Some x => Ok x
      | None => Raise (Exn KeyError key)
      end
  | _ => Raise (type_error "indices must be integers or slices, not str")
  end.

(** The Python runtime and the third-party libraries the code calls,
    as far as the repository does not fix their results: the Unicode
    database, the text of floats and of other values, the JSON parser
    and pydantic's validation of three field types. *)
Class Runtime := {
  (** [s.lower()] *)
  str_lower : str -> str;
  (** [c.isalnum()] for a code point from 128 on *)
  unicode_alnum : char -> bool;
  (** [str(x)] of a float *)
  float_str : float -> str;
  (** [str(v)] of a value that is not a [str] *)
  value_str : json -> str;
  (** [json.loads(s)] *)
  json_loads : str -> outcome json;
  (** validation of a field declared [str], [Optional[str]], [List[str]] *)
  field_str : json -> outcome str;
  field_opt_str : json -> outcome (option str);
  field_list_str : json -> outcome (list str)
}.

(** [str(v)] *)
Definition py_str `{Runtime} (v : json) : str :=
  match v with
  | JStr s => s
  | _ => value_str v
  end.

(* ===================================================================== *)
(** ** [NounExtractor] *)
(* ===================================================================== *)

Module NounExtractor.

(** [self.stop_words] *)
Definition stop_words : list str :=
  map py
    ["the"; "a"; "an"; "and"; "or"; "but"; "in"; "on"; "at"; "to"; "for";
     "of"; "with"; "by"; "from"; "this"; "that"; "these"; "those"; "is";
     "are"; "was"; "were"; "be"; "been"; "have"; "has"; "had"; "do"; "does";
     "will"; "would"; "could"; "should"; "can"; "may"; "might"; "must"]%string.

(** [self.verb_endings] *)
Definition verb_endings : list str := map py ["ing"; "ed"; "er"; "ly"]%string.

(** [self.articles] *)
Definition articles : list str := map py ["the"; "a"; "an"]%string.

(** [adj_endings] of [_looks_like_verb_or_adjective] *)
Definition adj_endings : list str :=
  map py ["ful"; "less"; "ous"; "ive"; "able"; "ible"; "al"]%string.

Definition _looks_like_verb_or_adjective (word : str) : bool :=
  if existsb (endswith word) verb_endings then true
  else if existsb (endswith word) adj_endings then true
  else false.

(** The separator class [[.!?]]. *)
Definition is_terminator (c : char) : bool :=
  ((c =? 46) || (c =? 33) || (c =? 63))%N.

(** [re.split(r'[.!?]+', text)]: [cur] is the piece being read, [in_run]
    says that the previous character belonged to a separator run. *)
Fixpoint split_from (cur : str) (in_run : bool) (s : str) : list str :=
  match s with
  | [] => [cur]
  | c :: rest =>
      if is_terminator c then
        if in_run then split_from [] true rest
        else cur :: split_from [] true rest
      else split_from (cur ++ [c]) false rest
  end.

Definition split_sentences (text : str) : list str := split_from [] false text.

(** [collections.Counter]: keys in order of first insertion. *)
Fixpoint counter_add (w : str) (c : list (str * nat)) : list (str * nat) :=
  match c with
  | [] => [(w, 1)]
  | (k, n) :: rest =>
      if bool_decide (k = w) then (k, S n) :: rest
      else (k, n) :: counter_add w rest
  end.

Definition Counter (l : list str) : list (str * nat) :=
  fold_left (fun c w => counter_add w c) l [].

(** [sorted(items, key=itemgetter(1), reverse=True)]: stable, so among
    equal counts the earlier item stays first. *)
Fixpoint insert_desc (x : str * nat) (l : list (str * nat)) : list (str * nat) :=
  match l with
  | [] => [x]
  | y :: ys => if snd x <? snd y then y :: insert_desc x ys else x :: y :: ys
  end.

Definition sorted_desc (l : list (str * nat)) : list (str * nat) :=
  fold_right insert_desc [] l.

(** [Counter.most_common(n)] for an integer [n]: [heapq.nlargest(n, items,
    key=count)], which is [sorted(items, key=count, reverse=True)[:n]] for
    [0 <= n] and the empty list for a negative [n]. *)
Definition most_common (n : Z) (c : list (str * nat)) : list (str * nat) :=
  firstn (Z.to_nat n) (sorted_desc c).

Section WithRuntime.
Context `{Runtime}.

(** A word character ([\w]) of [re] on a [str] pattern. *)
Definition is_word_char (c : char) : bool :=
  if (c <? 128)%N
  then is_ascii_letter c || is_ascii_digit c || (c =? 95)%N
  else unicode_alnum c.

(** What a finished run of letters contributes: a match when it is long
    enough ([+] asks for one letter, [{3,}] for three). *)
Definition emit (min_len : nat) (run : str) : list str :=
  if min_len <=? length run then [run] else [].

(** [re.findall(r'\b[a-zA-Z]+\b', s)] (with [min_len = 1]) and
    [re.findall(r'\b[a-zA-Z]{3,}\b', s)] (with [min_len = 3]), as one
    left-to-right scan.  [prev_word] says that the previous character is
    a word character; [run] is the run of letters read since a position
    where [\b] held.  A run followed by a word character that is not a
    letter has no [\b] at its end, and no position inside a run has a
    [\b] before it, so such a run yields no match. *)
Fixpoint findall_from (min_len : nat) (prev_word : bool) (run : option str)
  (s : str) : list str :=
  match s with
  | [] => match run with Some r => emit min_len r | None => [] end
  | c :: rest =>
      match run with
      | Some r =>
          if is_ascii_letter c
          then findall_from min_len true (Some (r ++ [c])) rest
          else if is_word_char c
          then findall_from min_len true None rest
          else emit min_len r ++ findall_from min_len false None rest
      | None =>
          if is_ascii_letter c && negb prev_word
          then findall_from min_len true (Some [c]) rest
          else findall_from min_len (is_word_char c) None rest
      end
  end.

Definition findall_words (s : str) : list str := findall_from 1 false None s.
Definition findall_words3 (s : str) : list str := findall_from 3 false None s.

(** [original[0].isupper()]; [original] matched [[a-zA-Z]+]. *)
Definition first_isupper (original : str) : bool :=
  match original with
  | c :: _ => is_ascii_upper c
  | [] => false
  end.

(** One turn of the inner loop: is [word] appended to [likely_nouns]? *)
Definition is_likely_noun (words : list str) (i : nat) (word original : str)
  : bool :=
  if (length word <? 3) || in_set word stop_words then false
  else if first_isupper original && (0 <? i) then true
  else if (0 <? i) && in_set (nth (i - 1) words []) articles then true
  else negb (_looks_like_verb_or_adjective word).

(** [enumerate(zip(words, original_words))] *)
Definition enumerate_zip (words original_words : list str)
  : list (nat * (str * str)) :=
  let z := combine words original_words in
  combine (seq 0 (length z)) z.

(** The nouns one sentence appends. *)
Definition sentence_nouns (sentence : str) : list str :=
  let words := findall_words (str_lower sentence) in
  let original_words := findall_words sentence in
  flat_map
    (fun '(i, (word, original)) =>
       if is_likely_noun words i word original then [word] else [])
    (enumerate_zip words original_words).

(** [likely_nouns] when the loop over the sentences has ended. *)
Definition likely_nouns (text : str) : list str :=
  flat_map sentence_nouns (split_sentences text).

(** The word list of the [if not likely_nouns:] branch. *)
Definition filtered_words (text : str) : list str :=
  List.filter (fun w => negb (in_set w stop_words))
    (findall_words3 (str_lower text)).

Definition extract_keywords (text : str) (top_k : Z) : list str :=
  let word_counts :=
    match likely_nouns text with
    | [] => Counter (filtered_words text)
    | nouns => Counter nouns
    end in
  map fst (most_common top_k word_counts).

End WithRuntime.

End NounExtractor.

(* ===================================================================== *)
(** ** Floats: [min], [max] and [round(x, 2)] *)
(* ===================================================================== *)

(** [min(a, b)]: the first argument unless the second is smaller. *)
Definition py_min (a b : float) : float := if PrimFloat.ltb b a then b else a.

(** [max(a, b)]: the first argument unless the second is larger. *)
Definition py_max (a b : float) : float := if PrimFloat.ltb a b then b else a.

(** Nearest integer to [num / den] for positive [den], ties to even. *)
Definition round_half_even (num den : Z) : Z :=
  let q := (num / den)%Z in
  let r := (num mod den)%Z in
  match (2 * r ?= den)%Z with
  | Lt => q
  | Gt => (q + 1)%Z
  | Eq => if Z.even q then q else (q + 1)%Z
  end.

(** The float nearest to [n / 100] for a natural number [n] below [2^53]:
    both operands are exact and the division rounds correctly. *)
Definition hundredths (n : Z) : float :=
  (PrimFloat.of_uint63 (Uint63.of_Z n) / 100)%float.

(** [round(x, 2)]: CPython rounds the exact binary value of [x] to two
    decimals (ties to even) and returns the float nearest to that
    decimal; zeros, infinities and NaN come back unchanged. *)
Definition py_round2 (x : float) : float :=
  match Prim2SF x with
  | S754_finite sign m e =>
      let n :=
        if (0 <=? e)%Z then (Z.pos m * 2 ^ e * 100)%Z
        else round_half_even (Z.pos m * 100) (2 ^ (- e)) in
      if sign then (- hundredths n)%float else hundredths n
  | _ => x
  end.

(* ===================================================================== *)
(** ** The world outside: the LLM endpoint and storage *)
(* ===================================================================== *)

Record message := { role : str; content : str }.

(** The keyword arguments handed to the SDK. *)
Record request_params := {
  rp_model : str;
  rp_messages : list message;
  rp_max_tokens : Z;
  rp_temperature : float;
  (** [Some "json_object"] stands for [{"type": "json_object"}] *)
  rp_response_format : option str
}.

(** What awaiting the SDK call under [asyncio.wait_for] gives: the
    contents of the response's choices, or an exception
    ([asyncio.TimeoutError] when the deadline passed), and whether the
    task is done at that moment. *)
Record reply := {
  reply_result : outcome (list (option str));
  reply_task_done : bool
}.

(** What [TextAnalysisCreate] holds. *)
Record TextAnalysisCreate := {
  original_text : str;
  summary : str;
  title : option str;
  topics : list str;
  sentiment : str;
  keywords : list str;
  confidence_score : float
}.

(** A row of [text_analysis]. *)
Record TextAnalysis := {
  row_id : Z;
  row_data : TextAnalysisCreate;
  row_created_at : Z
}.

Record TextAnalysisResponse := {
  resp_id : Z;
  resp_summary : str;
  resp_title : option str;
  resp_topics : list str;
  resp_sentiment : str;
  resp_keywords : list str;
  resp_confidence_score : float;
  resp_created_at : Z
}.

(** [llm_script n] is what the endpoint does at its [n]-th invocation,
    [db_script n] what storage does at the [n]-th commit (the id and
    timestamp it assigns, or a fault that stores nothing).  Quantifying
    over the scripts covers every behaviour of the two collaborators. *)
Record world := {
  llm_requests : list request_params;
  llm_cancels : nat;
  llm_script : nat -> reply;
  db_rows : list TextAnalysis;
  db_commits : nat;
  db_script : nat -> outcome (Z * Z)
}.

Definition log_request (req : request_params) (w : world) : world :=
  {| llm_requests := llm_requests w ++ [req];
     llm_cancels := llm_cancels w;
     llm_script := llm_script w;
     db_rows := db_rows w;
     db_commits := db_commits w;
     db_script := db_script w |}.

Definition log_cancel (w : world) : world :=
  {| llm_requests := llm_requests w;
     llm_cancels := S (llm_cancels w);
     llm_script := llm_script w;
     db_rows := db_rows w;
     db_commits := db_commits w;
     db_script := db_script w |}.

Definition log_commit (stored : list TextAnalysis) (w : world) : world :=
  {| llm_requests := llm_requests w;
     llm_cancels := llm_cancels w;
     llm_script := llm_script w;
     db_rows := db_rows w ++ stored;
     db_commits := S (db_commits w);
     db_script := db_script w |}.

(** Code that may raise and that acts on the world. *)
Definition io (A : Type) : Type := world -> outcome A * world.

#[global] Instance io_ret : MRet io := fun _ a w => (Ok a, w).

#[global] Instance io_bind : MBind io := fun _ _ k m w =>
  match m w with
  | (Ok a, w') => k a w'
  | (Raise e, w') => (Raise e, w')
  end.

(** A computation that only may raise. *)
Definition lift {A} (o : outcome A) : io A := fun w => (o, w).

(** [try: body  except Exception as e: handler(e)] on the world. *)
Definition io_try {A} (body : io A) (handler : exn -> io A) : io A :=
  fun w =>
    match body w with
    | (Ok a, w') => (Ok a, w')
    | (Raise e, w') => handler e w'
    end.

(** The result of one turn of a loop body. *)
Inductive flow (A : Type) :=
| Next              (* the body ran to its end: the loop goes on *)
| Return (a : A).   (* [return a] *)
Arguments Next {A}.
Arguments Return {A} a.

(** [for x in xs: body(x)]; a raise or a return inside ends the loop. *)
Fixpoint for_each {X A} (body : X -> io (flow A)) (xs : list X)
  : io (flow A) :=
  match xs with
  | [] => fun w => (Ok Next, w)
  | x :: rest => fun w =>
      match body x w with
      | (Ok Next, w') => for_each body rest w'
      | r => r
      end
  end.

(** [range(n)] *)
Definition range (n : Z) : list Z := map Z.of_nat (seq 0 (Z.to_nat n)).

(* ===================================================================== *)
(** ** [AzureLLMClient] *)
(* ===================================================================== *)

(** [core/config.py]: the one setting the modelled code reads.  The
    module builds a client when it is imported, so the settings are the
    ones a running process has. *)
Class Settings := {
  AZURE_OPENAI_GPT_4O_MODEL_NAME : str
}.

Module AzureLLMClient.

(** [api_type] of [MODEL_CONFIG]. *)
Inductive api := azure_openai | azure_ai_inference.

Record client := {
  api_type : api;
  model_name : str;
  default_timeout : float
}.

Section WithRuntime.
Context `{Runtime} `{Settings}.

(** [AzureLLMClient(model='gpt4o', default_timeout=120.0)] *)
Definition init : client :=
  {| api_type := azure_openai;
     model_name := AZURE_OPENAI_GPT_4O_MODEL_NAME;
     default_timeout := 120 |}.

Definition system_message (c : str) : message :=
  {| role := py "system"; content := c |}.
Definition user_message (c : str) : message :=
  {| role := py "user"; content := c |}.

Definition _build_messages_openai (prompt : str) (system_prompt : option str)
  : outcome (list message) :=
  match system_prompt with
  | Some sp =>
      if truthy_str sp then Ok [system_message sp; user_message prompt]
      else Raise (Exn ValueError
                    (py "System prompt is required for Azure OpenAI API calls"))
  | None => Raise (Exn ValueError
                     (py "System prompt is required for Azure OpenAI API calls"))
  end.

Definition _build_messages_ai_inference (prompt : str)
  (system_prompt : option str) : outcome (list message) :=
  match system_prompt with
  | Some sp =>
      if truthy_str sp then Ok [system_message sp; user_message prompt]
      else Raise (Exn ValueError
                    (py "System prompt is required for Azure AI Inference API calls"))
  | None => Raise (Exn ValueError
                     (py "System prompt is required for Azure AI Inference API calls"))
  end.

Definition timeout_error (timeout : float) : exn :=
  Exn LLMTimeoutError
    (py "LLM call timed out after " ++ float_str timeout ++ py " seconds").

(** The SDK call as a task awaited under [asyncio.wait_for]: the
    endpoint's next reply is consumed and the request is logged.  On
    [asyncio.TimeoutError] a task that is not done is cancelled (awaiting
    it then raises [CancelledError], which is swallowed), and
    [LLMTimeoutError] is raised. *)
Definition _call_openai_with_timeout (request_params : request_params)
  (timeout : float) : io (list (option str)) :=
  fun w =>
    let r := llm_script w (length (llm_requests w)) in
    let w1 := log_request request_params w in
    match reply_result r with
    | Ok response => (Ok response, w1)
    | Raise e =>
        if bool_decide (exn_cls e = AsyncioTimeoutError) then
          let w2 := if negb (reply_task_done r) then log_cancel w1 else w1 in
          (Raise (timeout_error timeout), w2)
        else (Raise e, w1)
    end.

(** The same wrapper around [self.client.complete]. *)
Definition _call_ai_inference_with_timeout (request_params : request_params)
  (timeout : float) : io (list (option str)) :=
  fun w =>
    let r := llm_script w (length (llm_requests w)) in
    let w1 := log_request request_params w in
    match reply_result r with
    | Ok response => (Ok response, w1)
    | Raise e =>
        if bool_decide (exn_cls e = AsyncioTimeoutError) then
          let w2 := if negb (reply_task_done r) then log_cancel w1 else w1 in
          (Raise (timeout_error timeout), w2)
        else (Raise e, w1)
    end.

(** [response.choices[0].message.content] *)
Definition first_content (response : list (option str))
  : outcome (option str) :=
  match response with
  | c :: _ => Ok c
  | [] => Raise (Exn IndexError (py "list index out of range"))
  end.

(** [content.strip()] *)
Definition content_strip (content : option str) : outcome str :=
  match content with
  | Some s => Ok (strip s)
  | None => Raise (attribute_error "'NoneType' object has no attribute 'strip'")
  end.

Definition is_json (response_format : option str) : bool :=
  bool_decide (response_format = Some (py "json")).

(** The statements inside [try:] of one turn of the loop. *)
Definition attempt (self : client) (prompt : str) (system_prompt : option str)
  (temperature : float) (max_tokens : Z) (response_format : option str)
  (timeout : float) : io (flow str) :=
  match api_type self with
  | azure_openai =>
      messages ← lift (_build_messages_openai prompt system_prompt);
      let request_params :=
        {| rp_model := model_name self;
           rp_messages := messages;
           rp_max_tokens := max_tokens;
           rp_temperature := temperature;
           rp_response_format :=
             if is_json response_format then Some (py "json_object")
             else None |} in
      response ← _call_openai_with_timeout request_params timeout;
      content ← lift (first_content response);
      stripped ← lift (content_strip content);
      mret (Return stripped)
  | azure_ai_inference =>
      messages ← lift (_build_messages_ai_inference prompt system_prompt);
      (* [request_params["messages"]] is the list that is updated below *)
      let messages :=
        if is_json response_format then
          match messages with
          | m0 :: rest =>
              if bool_decide (role m0 = py "system")
                 && negb (contains (content m0) (py "output JSON"))
              then system_message
                     (content m0 ++ py " Respond with a valid JSON object.")
                   :: rest
              else messages
          | [] => messages
          end
        else messages in
      let request_params :=
        {| rp_model := model_name self;
           rp_messages := messages;
           rp_max_tokens := max_tokens;
           rp_temperature := temperature;
           rp_response_format := None |} in
      response ← _call_ai_inference_with_timeout request_params timeout;
      content ← lift (first_content response);
      stripped ← lift (content_strip content);
      mret (Return stripped)
  end.

(** One turn of [for attempt in range(max_retries + 1)]:
    [try: ... return content.strip()  except Exception as e: raise e]. *)
Definition loop_body (self : client) (prompt : str) (system_prompt : option str)
  (temperature : float) (max_tokens : Z) (response_format : option str)
  (timeout : float) (attempt_no : Z) : io (flow str) :=
  io_try
    (attempt self prompt system_prompt temperature max_tokens response_format
       timeout)
    (fun e => lift (Raise e)).

(** [call_llm]; the result is [None] when the loop ends without a
    [return]. *)
Definition call_llm (self : client) (prompt : str) (system_prompt : option str)
  (temperature : float) (max_tokens : Z) (response_format : option str)
  (max_retries : Z) (timeout : option float) : io (option str) :=
  let timeout :=
    match timeout with
    | None => default_timeout self
    | Some t => t
    end in
  fun w =>
    match for_each
            (loop_body self prompt system_prompt temperature max_tokens
               response_format timeout)
            (range (max_retries + 1)) w with
    | (Ok (Return c), w') => (Ok (Some c), w')
    | (Ok Next, w') => (Ok None, w')
    | (Raise e, w') => (Raise e, w')
    end.

(** A call that makes one attempt and no loop: what the statements of
    the loop body do when run once. *)
Definition single_attempt (self : client) (prompt : str)
  (system_prompt : option str) (temperature : float) (max_tokens : Z)
  (response_format : option str) (timeout : option float) : io (option str) :=
  let timeout :=
    match timeout with
    | None => default_timeout self
    | Some t => t
    end in
  fun w =>
    match attempt self prompt system_prompt temperature max_tokens
            response_format timeout w with
    | (Ok (Return c), w') => (Ok (Some c), w')
    | (Ok Next, w') => (Ok None, w')
    | (Raise e, w') => (Raise e, w')
    end.

End WithRuntime.

End AzureLLMClient.

(* ===================================================================== *)
(** ** [prompts/text_analysis_prompt.py] *)
(* ===================================================================== *)

Module Prompts.

Definition dq : str := [34%N].
Definition nl : str := [10%N].

(** [text_analysis_prompt] up to its one field [{text}], with which it
    ends; the doubled braces of the template are single here. *)
Definition text_analysis_prompt_head : str :=
  concat
    [py "You are an expert text analyst. Analyze the provided text and return your analysis as valid JSON with exactly this structure:";
     nl;
     nl;
     py "{"; nl;
     py "    "; dq; py "summary"; dq; py ": "; dq;
     py "A concise 1-2 sentence summary capturing the main point"; dq; py ",";
     nl;
     py "    "; dq; py "title"; dq; py ": "; dq;
     py "A descriptive title for the text (or null if no clear title can be determined)";
     dq; py ","; nl;
     py "    "; dq; py "topics"; dq; py ": ["; dq; py "topic1"; dq; py ", ";
     dq; py "topic2"; dq; py ", "; dq; py "topic3"; dq; py "],"; nl;
     py "    "; dq; py "sentiment"; dq; py ": "; dq;
     py "positive|neutral|negative"; dq; py ","; nl;
     py "    "; dq; py "keywords"; dq; py ": ["; dq; py "keyword1"; dq;
     py ", "; dq; py "keyword2"; dq; py ", "; dq; py "keyword3"; dq; py "]";
     nl;
     py "}"; nl;
     nl;
     py "Requirements:"; nl;
     py "- summary: Must be 1-2 sentences maximum, capturing the core message";
     nl;
     py "- title: Extract existing title or create a descriptive one; use null if text is too fragmented";
     nl;
     py "- topics: Identify exactly 3 key themes, subjects, or topics discussed";
     nl;
     py "- sentiment: Classify overall emotional tone as "; dq; py "positive";
     dq; py ", "; dq; py "neutral"; dq; py ", or "; dq; py "negative"; dq; nl;
     py "- keywords: Extract exactly 3 most important/frequent nouns or key terms from the text";
     nl;
     nl;
     py "Return ONLY the JSON object with no additional text, explanations, or markdown formatting.";
     nl;
     nl;
     py "Text to analyze:"; nl]%string.

(** [text_analysis_prompt.format(text=text)] *)
Definition text_analysis_prompt_format (text : str) : str :=
  text_analysis_prompt_head ++ text.

Definition system_prompt : str :=
  py "You are a helpful text analysis assistant. Always respond with valid JSON only.".

End Prompts.

(* ===================================================================== *)
(** ** [AnalysisService] *)
(* ===================================================================== *)

Module AnalysisService.

Record service := { azure_llm_client : AzureLLMClient.client }.

Section WithRuntime.
Context `{Runtime} `{Settings}.

(** [AnalysisService(db)]: the client is [AzureLLMClient(model="gpt4o")];
    the database session is the [world]'s. *)
Definition init : service :=
  {| azure_llm_client := AzureLLMClient.init |}.

(** [len(text)] *)
Definition len (s : str) : Z := Z.of_nat (length s).

(** The statements inside [try:] of [_calculate_confidence_score]. *)
Definition score_body (text : str) (llm_result : json) (keywords : list str)
  : outcome float :=
  let score := 0%float in
  let score :=
    if (100 <? len text)%Z then (score + 0.25)%float
    else if (50 <? len text)%Z then (score + 0.15)%float
    else (score + 0.1)%float in
  got ← py_get llm_result (py "summary") JNull;
  score ← (if truthy got then
             v ← py_getitem llm_result (py "summary");
             mret (if (10 <? len (strip (py_str v)))%Z
                   then (score + 0.25)%float else score)
           else mret score);
  topics ← py_get llm_result (py "topics") (JList []);
  score ← (if truthy topics then
             n ← py_len topics;
             mret (if (0 <? n)%Z then (score + 0.25)%float else score)
           else mret score);
  let score :=
    if match keywords with [] => false | _ => true end
       && (0 <? Z.of_nat (length keywords))%Z
    then (score + 0.25)%float else score in
  mret (py_max 0 (py_min 1 score)).

Definition _calculate_confidence_score (text : str) (llm_result : json)
  (keywords : list str) : outcome float :=
  score ← try_except (score_body text llm_result keywords)
            (fun e => Ok 0.5%float);
  mret (py_round2 score).

(** [TextAnalysisCreate(...)]: pydantic validates the four values taken
    from the LLM result; the text, the keywords and the score already
    have the declared types. *)
Definition new_TextAnalysisCreate (text : str)
  (summary_v title_v topics_v sentiment_v : json) (keywords : list str)
  (confidence_score : float) : outcome TextAnalysisCreate :=
  summary ← field_str summary_v;
  title ← field_opt_str title_v;
  topics ← field_list_str topics_v;
  sentiment ← field_str sentiment_v;
  mret {| original_text := text;
          summary := summary;
          title := title;
          topics := topics;
          sentiment := sentiment;
          keywords := keywords;
          confidence_score := confidence_score |}.

(** [json.loads(response)]; [call_llm] gives [None] when it made no
    attempt. *)
Definition loads (response : option str) : outcome json :=
  match response with
  | Some s => json_loads s
  | None => Raise (type_error "the JSON object must be str, bytes or bytearray, not NoneType")
  end.

(** [analyze_text] from the prompt to the [TextAnalysisCreate] object:
    the record that is handed to storage. *)
Definition compose_record (self : service) (text : str)
  : io TextAnalysisCreate :=
  let text_analysis_prompt_formatted :=
    Prompts.text_analysis_prompt_format text in
  response ← AzureLLMClient.call_llm (azure_llm_client self)
               text_analysis_prompt_formatted (Some Prompts.system_prompt)
               0%float 4000%Z (Some (py "json")) 3%Z None;
  llm_result ← lift (loads response);
  let keywords := NounExtractor.extract_keywords text 3 in
  confidence_score ←
    lift (_calculate_confidence_score text llm_result keywords);
  summary_v ← lift (py_get llm_result (py "summary")
                      (JStr (py "No summary available")));
  title_v ← lift (py_get llm_result (py "title") JNull);
  topics_v ← lift (py_get llm_result (py "topics") (JList []));
  sentiment_v ← lift (py_get llm_result (py "sentiment")
                        (JStr (py "neutral")));
  lift (new_TextAnalysisCreate text summary_v title_v topics_v sentiment_v
          keywords confidence_score).

(** [AnalysisDAO.create_analysis]: one commit; a fault stores nothing. *)
Definition create_analysis (analysis_data : TextAnalysisCreate)
  : io TextAnalysis :=
  fun w =>
    match db_script w (db_commits w) with
    | Ok (id, created) =>
        let db_analysis :=
          {| row_id := id; row_data := analysis_data;
             row_created_at := created |} in
        (Ok db_analysis, log_commit [db_analysis] w)
    | Raise e => (Raise e, log_commit [] w)
    end.

(** [TextAnalysisResponse.from_orm] *)
Definition from_orm (r : TextAnalysis) : TextAnalysisResponse :=
  {| resp_id := row_id r;
     resp_summary := summary (row_data r);
     resp_title := title (row_data r);
     resp_topics := topics (row_data r);
     resp_sentiment := sentiment (row_data r);
     resp_keywords := keywords (row_data r);
     resp_confidence_score := confidence_score (row_data r);
     resp_created_at := row_created_at r |}.

Definition analysis_failed (e : exn) : exn :=
  Exn PlainException (py "Analysis failed: " ++ exn_str e).

Definition analyze_text (self : service) (text : str)
  : io TextAnalysisResponse :=
  fun w =>
    if negb (truthy_str text) || negb (truthy_str (strip text))
    then (Raise (Exn ValueError (py "Text cannot be empty")), w)
    else
      io_try
        (analysis_data ← compose_record self text;
         db_analysis ← create_analysis analysis_data;
         mret (from_orm db_analysis))
        (fun e => lift (Raise (analysis_failed e)))
        w.

End WithRuntime.

End AnalysisService.

(* ===================================================================== *)
(** ** [api/v1/text_analyzer_api.py]: the batch endpoints *)
(* ===================================================================== *)

Module TextAnalyzerApi.

(** One value of [batch_results]. *)
Record batch_job := {
  status : str;
  successful : list TextAnalysisResponse;
  failed : list str;
  total : Z;
  created_at : Z
}.

(** The process: the module-level [batch_results] and the world. *)
Record app := {
  batch_results : gmap str batch_job;
  env : world
}.

Record BatchSubmitResponse := {
  bs_batch_id : str;
  bs_message : str;
  bs_total_texts : Z
}.

Record BatchResult := {
  br_batch_id : str;
  br_status : str;
  br_successful : list TextAnalysisResponse;
  br_failed : list str;
  br_total : Z;
  br_success_count : Z;
  br_failure_count : Z
}.

Definition set_batch_results (m : gmap str batch_job) (a : app) : app :=
  {| batch_results := m; env := env a |}.

Definition set_env (w : world) (a : app) : app :=
  {| batch_results := batch_results a; env := w |}.

Definition key_error (batch_id : str) : exn := Exn KeyError batch_id.

(** [batch_results[batch_id]["failed"].append(msg)] *)
Definition append_failed (batch_id msg : str) (a : app) : outcome unit * app :=
  match batch_results a !! batch_id with
  | Some j =>
      (Ok tt,
       set_batch_results
         (<[batch_id :=
              {| status := status j; successful := successful j;
                 failed := failed j ++ [msg]; total := total j;
                 created_at := created_at j |}]> (batch_results a)) a)
  | None => (Raise (key_error batch_id), a)
  end.

(** [batch_results[batch_id]["successful"].append(result)] *)
Definition append_successful (batch_id : str) (result : TextAnalysisResponse)
  (a : app) : outcome unit * app :=
  match batch_results a !! batch_id with
  | Some j =>
      (Ok tt,
       set_batch_results
         (<[batch_id :=
              {| status := status j; successful := successful j ++ [result];
                 failed := failed j; total := total j;
                 created_at := created_at j |}]> (batch_results a)) a)
  | None => (Raise (key_error batch_id), a)
  end.

(** [batch_results[batch_id]["status"] = s] *)
Definition set_status (batch_id s : str) (a : app) : outcome unit * app :=
  match batch_results a !! batch_id with
  | Some j =>
      (Ok tt,
       set_batch_results
         (<[batch_id :=
              {| status := s; successful := successful j;
                 failed := failed j; total := total j;
                 created_at := created_at j |}]> (batch_results a)) a)
  | None => (Raise (key_error batch_id), a)
  end.

(** The body of [batch_analyze_texts]; [batch_id] is the fresh
    [uuid.uuid4()] and [now] is [datetime.utcnow()].  The background task
    it registers is [process_batch batch_id texts]. *)
Definition batch_analyze_texts (batch_id : str) (now : Z) (texts : list str)
  (a : app) : BatchSubmitResponse * app :=
  ({| bs_batch_id := batch_id;
      bs_message := py "Batch processing started";
      bs_total_texts := Z.of_nat (length texts) |},
   set_batch_results
     (<[batch_id :=
          {| status := py "processing"; successful := []; failed := [];
             total := Z.of_nat (length texts); created_at := now |}]>
        (batch_results a)) a).

(** [get_batch_results] *)
Definition get_batch_results (batch_id : str) (a : app) : outcome BatchResult :=
  match batch_results a !! batch_id with
  | None => Raise (Exn (HTTPException 404) (py "Batch not found"))
  | Some result =>
      Ok {| br_batch_id := batch_id;
            br_status := status result;
            br_successful := successful result;
            br_failed := failed result;
            br_total := total result;
            br_success_count := Z.of_nat (length (successful result));
            br_failure_count := Z.of_nat (length (failed result)) |}
  end.

Section WithRuntime.
Context `{Runtime} `{Settings}.

(** [f"Text '{text[:50]}...': {str(e)}"] *)
Definition failure_message (text : str) (e : exn) : str :=
  py "Text '" ++ str_prefix 50 text ++ py "...': " ++ exn_str e.

(** The statements inside [try:] of one turn of the loop of
    [process_batch]. *)
Definition process_try (service : AnalysisService.service) (batch_id : str)
  (text : str) (a : app) : outcome unit * app :=
  if negb (truthy_str (strip text)) then
    append_failed batch_id (py "Empty text") a
  else
    match AnalysisService.analyze_text service text (env a) with
    | (Ok result, w) => append_successful batch_id result (set_env w a)
    | (Raise e, w) => (Raise e, set_env w a)
    end.

(** One turn: [try: ...  except Exception as e: ...failed.append(...)]. *)
Definition process_text (service : AnalysisService.service) (batch_id : str)
  (text : str) (a : app) : outcome unit * app :=
  match process_try service batch_id text a with
  | (Ok u, a') => (Ok u, a')
  | (Raise e, a') => append_failed batch_id (failure_message text e) a'
  end.

(** [for text in texts: ...] *)
Fixpoint process_texts (service : AnalysisService.service) (batch_id : str)
  (texts : list str) (a : app) : outcome unit * app :=
  match texts with
  | [] => (Ok tt, a)
  | text :: rest =>
      match process_text service batch_id text a with
      | (Ok _, a') => process_texts service batch_id rest a'
      | (Raise e, a') => (Raise e, a')
      end
  end.

(** [process_batch]: the service is built, the texts are processed in
    order, and the status is set.  The pass is modelled as running alone:
    only it writes the entry of [batch_id], and what other requests do
    while it awaits is not part of the model. *)
Definition process_batch (batch_id : str) (texts : list str) (a : app)
  : outcome unit * app :=
  let service := AnalysisService.init in
  match process_texts service batch_id texts a with
  | (Ok _, a') => set_status batch_id (py "completed") a'
  | (Raise e, a') => (Raise e, a')
  end.

End WithRuntime.

End TextAnalyzerApi.

(* ===================================================================== *)
(** ** [azure_llm_client.py]: the constructor *)
(* ===================================================================== *)

Module ModelConfig.
Import AzureLLMClient.

(** [MODEL_CONFIG]: the api type of each model name. *)
Definition MODEL_CONFIG : list (str * api) := [(py "gpt4o", azure_openai)].

Fixpoint config_lookup (model : str) (config : list (str * api)) : option api :=
  match config with
  | [] => None
  | (k, v) :: rest =>
      if bool_decide (k = model) then Some v else config_lookup model rest
  end.

Section WithSettings.
Context `{Settings}.

(** [AzureLLMClient.__init__(model, default_timeout)].  [sdk] is what
    reading the settings and building the SDK client give: nothing, or
    an exception. *)
Definition __init__ (model : str) (default_timeout : float)
  (sdk : outcome unit) : outcome client :=
  match config_lookup model MODEL_CONFIG with
  | None =>
      Raise (Exn ValueError
               (py "Unsupported model: " ++ model
                ++ py ". Available models: ['gpt4o']"))
  | Some api_type =>
      _ ← sdk;
      mret {| api_type := api_type;
              model_name := AZURE_OPENAI_GPT_4O_MODEL_NAME;
              default_timeout := default_timeout |}
  end.

End WithSettings.

End ModelConfig.

(* ===================================================================== *)
(** ** The request schema, the reads of storage and the endpoints for
       one analysis *)
(* ===================================================================== *)

Module TextAnalysisRequest.

(** The validator of the field [text]: the value the request then holds,
    or [ValueError]. *)
Definition text_must_not_be_empty (v : str) : outcome str :=
  if negb (truthy_str v) || negb (truthy_str (strip v))
  then Raise (Exn ValueError (py "Text cannot be empty"))
  else Ok (strip v).

End TextAnalysisRequest.

Module AnalysisDAO.

(** [sqlalchemy.exc.MultipleResultsFound], one of the external classes. *)
Definition MultipleResultsFound : exn_class := ExternalError 1.

(** [get_analysis_by_id]: the rows whose id is [analysis_id], read by
    [scalar_one_or_none].  [fault] is what executing the query raises,
    when it raises. *)
Definition get_analysis_by_id (fault : option exn) (analysis_id : Z)
  (w : world) : outcome (option TextAnalysis) :=
  match fault with
  | Some e => Raise e
  | None =>
      match List.filter (λ r, (row_id r =? analysis_id)%Z) (db_rows w) with
      | [] => Ok None
      | [db_analysis] => Ok (Some db_analysis)
      | _ =>
          Raise (Exn MultipleResultsFound
                   (py "Multiple rows were found when one or none was required"))
      end
  end.

End AnalysisDAO.

Module AnalysisLookup.

(** [AnalysisService.get_analysis] *)
Definition get_analysis (fault : option exn) (analysis_id : Z) (w : world)
  : outcome (option TextAnalysisResponse) :=
  analysis ← AnalysisDAO.get_analysis_by_id fault analysis_id w;
  match analysis with
  | Some a => Ok (Some (AnalysisService.from_orm a))
  | None => Ok None
  end.

End AnalysisLookup.

Module AnalysisEndpoints.

(** [isinstance(e, ValueError)] on the classes of the model:
    [json.JSONDecodeError] and pydantic's [ValidationError] derive from
    [ValueError]; the external classes are taken not to. *)
Definition is_ValueError (e : exn) : bool :=
  match exn_cls e with
  | ValueError | JSONDecodeError | ValidationError => true
  | _ => false
  end.

Definition is_HTTPException (e : exn) : bool :=
  match exn_cls e with
  | HTTPException _ => true
  | _ => false
  end.

(** [HTTPException(status_code=..., detail=...)] *)
Definition http_error (status_code : Z) (detail : str) : exn :=
  Exn (HTTPException status_code) detail.

Section WithRuntime.
Context `{Runtime} `{Settings}.

(** [POST /analyze] on [request.text]. *)
Definition analyze_text (request_text : str) : io TextAnalysisResponse :=
  fun w =>
    match AnalysisService.analyze_text AnalysisService.init request_text w with
    | (Ok result, w') => (Ok result, w')
    | (Raise e, w') =>
        if is_ValueError e then (Raise (http_error 400 (exn_str e)), w')
        else (Raise (http_error 500 (exn_str e)), w')
    end.

End WithRuntime.

(** [GET /analysis/{analysis_id}] *)
Definition get_analysis (fault : option exn) (analysis_id : Z) (w : world)
  : outcome TextAnalysisResponse :=
  match
    (result ← AnalysisLookup.get_analysis fault analysis_id w;
     match result with
     | None => Raise (http_error 404 (py "Analysis not found"))
     | Some r => Ok r
     end)
  with
  | Ok r => Ok r
  | Raise e =>
      if is_HTTPException e then Raise e
      else Raise (http_error 500 (exn_str e))
  end.

End AnalysisEndpoints.

(* ===================================================================== *)
(** ** [api/dependencies/auth.py] *)
(* ===================================================================== *)

Module Auth.

(** [s.partition(" ")]: the text before the first space, the space, and
    the text after it; the whole text and two empty strings when [s] has
    no space. *)
Fixpoint partition_space (s : str) : str * str * str :=
  match s with
  | [] => ([], [], [])
  | c :: rest =>
      if (c =? 32)%N then ([], [c], rest)
      else
        let '(before, sep, after) := partition_space rest in
        (c :: before, sep, after)
  end.

(** [s.split('.')] *)
Fixpoint split_dot (s : str) : list str :=
  match s with
  | [] => [[]]
  | c :: rest =>
      if (c =? 46)%N then [] :: split_dot rest
      else
        match split_dot rest with
        | part :: parts => (c :: part) :: parts
        | [] => [[c]]
        end
  end.

(** [jose.JWTError] and its subclasses, among the external classes. *)
Definition JWTError : exn_class := ExternalError 2.

Definition is_JWTError (e : exn) : bool := bool_decide (exn_cls e = JWTError).

(** [HTTPException(status_code=401, detail=...)] *)
Definition unauthorized (detail : string) : exn :=
  Exn (HTTPException 401) (py detail).

(** [v.keys()] *)
Definition py_keys (v : json) : outcome (list str) :=
  match v with
  | JDict d => Ok (map fst d)
  | _ => Raise (attribute_error "object has no attribute 'keys'")
  end.

(** [if not token] for an [Optional[str]]. *)
Definition truthy_opt (token : option str) : bool :=
  match token with
  | Some t => truthy_str t
  | None => false
  end.

Section WithRuntime.
Context `{Runtime}.

(** [CustomOAuth2.__call__] on the value of the header
    [Authorization], if the request has one. *)
Definition __call__ (authorization : option str) : option str :=
  match authorization with
  | None => None
  | Some a =>
      if negb (truthy_str a) then None
      else
        let '(scheme, _, token) := partition_space a in
        if bool_decide (str_lower scheme ≠ py "bearer") then None
        else Some token
  end.

End WithRuntime.

Section WithJose.
(** [jwt.decode(token, settings.JWT_SECRET, algorithms=["HS256"])] and
    the constructor of [User], a class the module imports. *)
Context {User : Type}.
Variable decode : str → outcome json.
Variable new_User : json → json → json → outcome User.

Definition verify_token (token : str) : outcome json :=
  if negb (truthy_str token) then Raise (unauthorized "Token is missing")
  else
    match
      (let parts := split_dot token in
       if negb (length parts =? 3)
       then Raise (unauthorized "Invalid token format")
       else decode token)
    with
    | Ok payload => Ok payload
    | Raise e =>
        if is_JWTError e
        then Raise (unauthorized "Could not validate credentials")
        else Raise e
    end.

(** [a or b] on two values, the second computed only when needed. *)
Definition py_or (a : json) (b : outcome json) : outcome json :=
  if truthy a then Ok a else b.

(** [get_current_user] on what [oauth2_scheme] gave. *)
Definition get_current_user (token : option str) : outcome User :=
  match
    (if negb (truthy_opt token) then Raise (unauthorized "Not authenticated")
     else
       payload ← verify_token (default [] token);
       _ ← py_keys payload;
       sub ← py_get payload (py "sub") JNull;
       user_id ← py_or sub
                   (id ← py_get payload (py "id") JNull;
                    py_or id (py_get payload (py "userId") JNull));
       if negb (truthy user_id)
       then Raise (unauthorized "Invalid token: missing user identifier")
       else
         email ← py_get payload (py "email") JNull;
         name ← py_get payload (py "name") JNull;
         new_User user_id email name)
  with
  | Ok user => Ok user
  | Raise e =>
      if AnalysisEndpoints.is_HTTPException e then Raise e
      else Raise (Exn (HTTPException 500) (py "Authentication system error"))
  end.

End WithJose.

End Auth.

(* ===================================================================== *)
(** ** A runtime to run the code on ASCII texts *)
(* ===================================================================== *)

(** [str.lower] on ASCII text. *)
Definition ascii_lower (s : str) : str :=
  map (fun c => if is_ascii_upper c then (c + 32)%N else c) s.

(** [{"sentiment": "positive"}] *)
Definition positive_json : str :=
  py "{" ++ Prompts.dq ++ py "sentiment" ++ Prompts.dq ++ py ": "
  ++ Prompts.dq ++ py "positive" ++ Prompts.dq ++ py "}".

(** [json.loads] on the four documents the examples use. *)
Definition demo_json_loads (s : str) : outcome json :=
  if bool_decide (s = py "{}") then Ok (JDict [])
  else if bool_decide (s = py "[]") then Ok (JList [])
  else if bool_decide (s = py "null") then Ok JNull
  else if bool_decide (s = positive_json)
  then Ok (JDict [(py "sentiment", JStr (py "positive"))])
  else Raise (Exn JSONDecodeError (py "Expecting value")).

(** A [Runtime] that is right on ASCII text and on the values the
    examples use: no code point from 128 on is alphanumeric, and a field
    is accepted when the value has the declared type. *)
Definition ascii_runtime : Runtime := {|
  str_lower := ascii_lower;
  unicode_alnum := fun _ => false;
  float_str := fun _ => py "120.0";
  value_str := fun _ => py "None";
  json_loads := demo_json_loads;
  field_str := fun v =>
    match v with
    | JStr s => Ok s
    | _ => Raise (Exn ValidationError (py "Input should be a valid string"))
    end;
  field_opt_str := fun v =>
    match v with
    | JStr s => Ok (Some s)
    | JNull => Ok None
    | _ => Raise (Exn ValidationError (py "Input should be a valid string"))
    end;
  field_list_str := fun v =>
    match v with
    | JList [] => Ok []
    | _ => Raise (Exn ValidationError (py "Input should be a valid list"))
    end
|}.

Definition demo_settings : Settings := {|
  AZURE_OPENAI_GPT_4O_MODEL_NAME := py "gpt-4o"
|}.

(** An endpoint that answers every call with [{}] and a storage that
    numbers its rows from 1. *)
Definition demo_world : world :=
  {| llm_requests := [];
     llm_cancels := 0;
     llm_script := fun _ =>
       {| reply_result := Ok [Some (py "{}")]; reply_task_done := true |};
     db_rows := [];
     db_commits := 0;
     db_script := fun n => Ok (Z.of_nat (S n), 0%Z) |}.

(** An endpoint whose every call fails. *)
Definition failing_world : world :=
  {| llm_requests := [];
     llm_cancels := 0;
     llm_script := fun _ =>
       {| reply_result := Raise (Exn (ExternalError 0) (py "Connection error."));
          reply_task_done := true |};
     db_rows := [];
     db_commits := 0;
     db_script := fun n => Ok (Z.of_nat (S n), 0%Z) |}.

(** An endpoint that answers every call with [{"sentiment": "positive"}]. *)
Definition positive_world : world :=
  {| llm_requests := [];
     llm_cancels := 0;
     llm_script := fun _ =>
       {| reply_result := Ok [Some positive_json]; reply_task_done := true |};
     db_rows := [];
     db_commits := 0;
     db_script := fun n => Ok (Z.of_nat (S n), 0%Z) |}.

(* ===================================================================== *)
(** ** Further values for the examples *)
(* ===================================================================== *)

(** An endpoint whose every call runs into the deadline. *)
Definition timeout_world : world :=
  {| llm_requests := [];
     llm_cancels := 0;
     llm_script := fun _ =>
       {| reply_result := Raise (Exn AsyncioTimeoutError []);
          reply_task_done := false |};
     db_rows := [];
     db_commits := 0;
     db_script := fun n => Ok (Z.of_nat (S n), 0%Z) |}.

(** A client of the AI-inference backend. *)
Definition inference_client : AzureLLMClient.client :=
  {| AzureLLMClient.api_type := AzureLLMClient.azure_ai_inference;
     AzureLLMClient.model_name := py "phi";
     AzureLLMClient.default_timeout := 30 |}.

(** A decoder that knows one token. *)
Definition demo_decode (token : str) : outcome json :=
  if bool_decide (token = py "a.b.c")
  then Ok (JDict [(py "id", JStr (py "u1")); (py "sub", JStr [])])
  else Raise (Exn Auth.JWTError (py "Signature verification failed.")).

(** A [User] that is its id. *)
Definition demo_new_User (user_id email name : json) : outcome json :=
  Ok user_id.

(* ===================================================================== *)
(** * Properties *)
(* ===================================================================== *)

(* ===================================================================== *)
(** ** The keyword extractor *)
(* ===================================================================== *)

Section NounExtractorFacts.
Context `{Runtime}.
Import NounExtractor.

(** A keyword as the extractor may return it. *)
Definition keyword_shape (w : list N) : Prop :=
  3 ≤ length w ∧ Forall (λ c, is_ascii_lower c = true) w.

(** What the proofs use of [str.lower]: its result holds no capital
    ASCII letter. *)
Definition lower_has_no_capital : Prop :=
  ∀ s c, c ∈ str_lower s → is_ascii_upper c = false.

(** Number of occurrences of [w] in [l]. *)
Definition occurrences (w : list N) (l : list (list N)) : nat :=
  length (List.filter (λ x, bool_decide (x = w)) l).

(** The count a counter holds for [w]. *)
Definition count_of (w : list N) (c : list (list N * nat)) : nat :=
  list_sum (map snd (List.filter (λ e, bool_decide (fst e = w)) c)).

(** [a] is ranked no later than [b]: its count is at least as large. *)
Definition outranks (a b : list N * nat) : Prop := snd b ≤ snd a.

Lemma emit_spec m r w : w ∈ emit m r → w = r ∧ m ≤ length r.
Proof.
  unfold emit. destruct (m <=? length r) eqn:E.
  - intros ->%list_elem_of_singleton. apply Nat.leb_le in E. done.
  - intros []%elem_of_nil.
Qed.

Lemma findall_from_spec m s : ∀ pw run w,
  (∀ r, run = Some r → Forall (λ c, is_ascii_letter c = true) r) →
  w ∈ findall_from m pw run s →
  m ≤ length w ∧ Forall (λ c, is_ascii_letter c = true) w
  ∧ Forall (λ c, c ∈ default [] run ++ s) w.
Proof.
  induction s as [|c rest IH]; intros pw run w Hrun Hw; simpl in Hw.
  - destruct run as [r|]; [|by apply elem_of_nil in Hw].
    apply emit_spec in Hw as [-> ?]. split; [done|]. split; [eauto|].
    simpl. rewrite app_nil_r. apply Forall_forall. auto.
  - destruct run as [r|].
    + destruct (is_ascii_letter c) eqn:Hc.
      * apply IH in Hw as (? & ? & Hin).
        -- split; [done|]. split; [done|]. simpl in *.
           by rewrite <- app_assoc in Hin.
        -- intros r' [= <-]. apply Forall_app. split; eauto.
      * destruct (is_word_char c).
        -- apply IH in Hw as (? & ? & Hin); [|done].
           split; [done|]. split; [done|]. simpl in *.
           eapply Forall_impl; [exact Hin|]. intros x Hx. set_solver.
        -- apply elem_of_app in Hw as [Hw|Hw].
           ++ apply emit_spec in Hw as [-> ?]. split; [done|]. split; [eauto|].
              apply Forall_forall. intros x Hx. set_solver.
           ++ apply IH in Hw as (? & ? & Hin); [|done].
              split; [done|]. split; [done|]. simpl in *.
              eapply Forall_impl; [exact Hin|]. intros x Hx. set_solver.
    + destruct (is_ascii_letter c && negb pw) eqn:Hc.
      * apply IH in Hw as (? & ? & Hin).
        -- by simpl in *.
        -- intros r' [= <-]. apply andb_true_iff in Hc as [Hc _].
           by repeat constructor.
      * apply IH in Hw as (? & ? & Hin); [|done].
        split; [done|]. split; [done|]. simpl in *.
        eapply Forall_impl; [exact Hin|]. intros x Hx. set_solver.
Qed.

Lemma findall3_filter s : ∀ pw run,
  findall_from 3 pw run s
  = List.filter (λ w, 3 <=? length w) (findall_from 1 pw run s).
Proof.
  assert (Hemit : ∀ r, emit 3 r = List.filter (λ w, 3 <=? length w) (emit 1 r)).
  { intros r. unfold emit. destruct r as [|a [|b [|c r]]]; reflexivity. }
  induction s as [|c rest IH]; intros pw run; simpl.
  - destruct run; [apply Hemit|reflexivity].
  - destruct run as [r|].
    + destruct (is_ascii_letter c); [apply IH|].
      destruct (is_word_char c); [apply IH|].
      rewrite List.filter_app, <- IH, Hemit. reflexivity.
    + destruct (is_ascii_letter c && negb pw); apply IH.
Qed.

Lemma counter_add_keys w c x :
  x ∈ map fst (counter_add w c) ↔ x = w ∨ x ∈ map fst c.
Proof.
  induction c as [|[k n] rest IH]; simpl.
  - set_solver.
  - case_bool_decide; simpl; set_solver.
Qed.

Lemma counter_add_NoDup w c :
  NoDup (map fst c) → NoDup (map fst (counter_add w c)).
Proof.
  induction c as [|[k n] rest IH]; simpl; intros Hnd.
  - apply NoDup_cons. split; [set_solver|constructor].
  - apply NoDup_cons in Hnd as [Hk Hnd].
    case_bool_decide; simpl.
    + apply NoDup_cons. done.
    + apply NoDup_cons. split; [|auto].
      rewrite counter_add_keys. intros [->|?]; done.
Qed.

Lemma Counter_from_spec l : ∀ c,
  NoDup (map fst c) →
  NoDup (map fst (fold_left (λ c w, counter_add w c) l c))
  ∧ ∀ x, x ∈ map fst (fold_left (λ c w, counter_add w c) l c)
         ↔ x ∈ l ∨ x ∈ map fst c.
Proof.
  induction l as [|w l IH]; intros c Hc; simpl.
  - split; [done|]. set_solver.
  - destruct (IH (counter_add w c)) as [Hnd Hin];
      [by apply counter_add_NoDup|].
    split; [done|]. intros x. rewrite Hin, counter_add_keys. set_solver.
Qed.

Lemma Counter_NoDup l : NoDup (map fst (Counter l)).
Proof. apply Counter_from_spec. constructor. Qed.

Lemma Counter_keys l x : x ∈ map fst (Counter l) ↔ x ∈ l.
Proof.
  unfold Counter. destruct (Counter_from_spec l []) as [_ Hin]; [constructor|].
  rewrite Hin. set_solver.
Qed.

Lemma Counter_nil_inv l : Counter l = [] → l = [].
Proof.
  intros Hc. destruct l as [|w l]; [done|].
  assert (Hw : w ∈ map fst (Counter (w :: l))) by (apply Counter_keys; set_solver).
  rewrite Hc in Hw. by apply elem_of_nil in Hw.
Qed.

Lemma insert_desc_perm x l : insert_desc x l ≡ₚ x :: l.
Proof.
  induction l as [|y ys IH]; simpl; [done|].
  destruct (snd x <? snd y); [|done].
  rewrite IH. apply Permutation_swap.
Qed.

Lemma sorted_desc_perm l : sorted_desc l ≡ₚ l.
Proof.
  induction l as [|x l IH]; simpl; [done|].
  rewrite insert_desc_perm. by rewrite IH.
Qed.

Lemma most_common_length n c :
  (Z.of_nat (length (most_common n c)) ≤ Z.max 0 n)%Z.
Proof. unfold most_common. rewrite length_take. lia. Qed.

Lemma most_common_negative n c : (n < 0)%Z → most_common n c = [].
Proof. intros Hn. unfold most_common. by replace (Z.to_nat n) with 0 by lia. Qed.

Lemma most_common_NoDup n c :
  NoDup (map fst c) → NoDup (map fst (most_common n c)).
Proof.
  intros Hnd. unfold most_common.
  eapply (sublist_NoDup _ (fst <$> sorted_desc c));
    [|apply fmap_sublist, sublist_take].
  by rewrite (sorted_desc_perm c).
Qed.

Lemma most_common_keys n c x :
  x ∈ map fst (most_common n c) → x ∈ map fst c.
Proof.
  unfold most_common. intros Hx.
  assert (Hs : x ∈ fst <$> sorted_desc c).
  { eapply elem_of_sublist; [exact Hx|]. apply fmap_sublist, sublist_take. }
  by rewrite (sorted_desc_perm c) in Hs.
Qed.

Lemma lower_word_shape s w m :
  lower_has_no_capital →
  w ∈ findall_from m false None (str_lower s) →
  Forall (λ c, is_ascii_lower c = true) w.
Proof.
  intros Hlow Hw. apply findall_from_spec in Hw as (_ & Hlet & Hin); [|done].
  simpl in Hin. rewrite Forall_forall in Hlet, Hin. apply Forall_forall.
  intros c Hc. specialize (Hlet c Hc). specialize (Hin c Hc).
  apply Hlow in Hin. unfold is_ascii_letter in Hlet. rewrite Hin in Hlet.
  exact Hlet.
Qed.

Lemma sentence_nouns_shape sentence w :
  lower_has_no_capital → w ∈ sentence_nouns sentence → keyword_shape w.
Proof.
  intros Hlow Hw. unfold sentence_nouns in Hw.
  apply list_elem_of_In, in_flat_map in Hw as ([i [word original]] & Hin & Hw).
  destruct (is_likely_noun _ i word original) eqn:Hn; [|done].
  destruct Hw as [<-|[]].
  unfold enumerate_zip in Hin. apply in_combine_r, in_combine_l in Hin.
  apply list_elem_of_In in Hin. split.
  - unfold is_likely_noun in Hn.
    destruct (length word <? 3) eqn:Hl; [done|]. apply Nat.ltb_ge in Hl. done.
  - by eapply lower_word_shape.
Qed.

Lemma likely_nouns_shape text w :
  lower_has_no_capital → w ∈ likely_nouns text → keyword_shape w.
Proof.
  intros Hlow Hw. unfold likely_nouns in Hw.
  apply list_elem_of_In, in_flat_map in Hw as (s & _ & Hw).
  apply list_elem_of_In in Hw. by eapply sentence_nouns_shape.
Qed.

Lemma filtered_words_shape text w :
  lower_has_no_capital → w ∈ filtered_words text → keyword_shape w.
Proof.
  intros Hlow Hw. unfold filtered_words in Hw.
  apply list_elem_of_In, filter_In in Hw as [Hw _]. apply list_elem_of_In in Hw.
  unfold findall_words3 in Hw. split.
  - apply findall_from_spec in Hw; [tauto|done].
  - by eapply lower_word_shape.
Qed.

Lemma count_of_add x c w :
  count_of w (counter_add x c)
  = count_of w c + (if bool_decide (x = w) then 1 else 0).
Proof.
  unfold count_of. induction c as [|[k n] rest IH]; simpl.
  - repeat case_bool_decide; simpl; congruence || lia.
  - destruct (bool_decide (k = x)) eqn:Ekx; simpl.
    + apply bool_decide_eq_true in Ekx as ->.
      destruct (bool_decide (x = w)); simpl; lia.
    + destruct (bool_decide (k = w)); simpl; rewrite IH; lia.
Qed.

Lemma count_of_Counter_from l w : ∀ c,
  count_of w (fold_left (λ c x, counter_add x c) l c)
  = count_of w c + occurrences w l.
Proof.
  unfold occurrences.
  induction l as [|x l IH]; intros c; simpl; [lia|].
  rewrite IH, count_of_add. destruct (bool_decide (x = w)); simpl; lia.
Qed.

Lemma count_of_absent c w : w ∉ map fst c → count_of w c = 0.
Proof.
  unfold count_of. induction c as [|[k m] rest IH]; simpl; intros Hw; [done|].
  rewrite bool_decide_eq_false_2 by set_solver. apply IH. set_solver.
Qed.

Lemma count_of_entry c w n :
  NoDup (map fst c) → (w, n) ∈ c → count_of w c = n.
Proof.
  induction c as [|[k m] rest IH]; simpl; intros Hnd Hin.
  - by apply elem_of_nil in Hin.
  - apply NoDup_cons in Hnd as [Hk Hnd].
    apply elem_of_cons in Hin as [[= <- <-]|Hin].
    + unfold count_of. simpl. rewrite bool_decide_eq_true_2 by done. simpl.
      fold (count_of w rest). rewrite count_of_absent by done. lia.
    + assert (Hw : w ∈ map fst rest).
      { apply list_elem_of_fmap. by exists (w, n). }
      unfold count_of. simpl.
      rewrite bool_decide_eq_false_2 by (intros ->; done).
      by apply IH.
Qed.

Lemma Counter_counts l w n : (w, n) ∈ Counter l → n = occurrences w l.
Proof.
  intros Hin. rewrite <- (count_of_entry (Counter l) w n);
    [|apply Counter_NoDup|done].
  unfold Counter. by rewrite count_of_Counter_from.
Qed.

Lemma insert_desc_sorted x l :
  StronglySorted outranks l → StronglySorted outranks (insert_desc x l).
Proof.
  induction 1 as [|y ys Hs IH Hall]; simpl.
  - repeat constructor.
  - destruct (snd x <? snd y) eqn:E.
    + apply Nat.ltb_lt in E. constructor; [done|].
      rewrite (insert_desc_perm x ys). constructor; [unfold outranks; lia|done].
    + apply Nat.ltb_ge in E. constructor; [by constructor|].
      constructor; [done|].
      eapply Forall_impl; [exact Hall|]. unfold outranks. intros; lia.
Qed.

Lemma sorted_desc_sorted l : StronglySorted outranks (sorted_desc l).
Proof.
  induction l as [|x l IH]; simpl; [constructor|].
  by apply insert_desc_sorted.
Qed.

Lemma extract_keywords_keys text top_k w :
  w ∈ extract_keywords text top_k →
  w ∈ likely_nouns text ∨ w ∈ filtered_words text.
Proof.
  unfold extract_keywords. intros Hw. apply most_common_keys in Hw.
  destruct (likely_nouns text) as [|n ns] eqn:E;
    rewrite Counter_keys in Hw; [right|left]; exact Hw.
Qed.

Lemma extract_keywords_NoDup text top_k : NoDup (extract_keywords text top_k).
Proof.
  unfold extract_keywords. apply most_common_NoDup.
  destruct (likely_nouns text); apply Counter_NoDup.
Qed.

(** The words of the fallback as the specification words them: the
    lowercase alphabetic tokens of the text that have three letters or
    more and are no stop word. *)
Definition fallback_tokens (text : list N) : list (list N) :=
  List.filter (λ w, (3 <=? length w) && negb (in_set w stop_words))
    (findall_words (str_lower text)).

Lemma filter_filter_andb {A} (f g : A → bool) (l : list A) :
  List.filter f (List.filter g l) = List.filter (λ x, g x && f x) l.
Proof.
  induction l as [|a l IH]; [reflexivity|].
  cbn [List.filter]. destruct (g a); cbn [List.filter andb]; [|exact IH].
  destruct (f a); [f_equal|]; exact IH.
Qed.

Lemma filtered_words_fallback_tokens text :
  filtered_words text = fallback_tokens text.
Proof.
  unfold filtered_words, fallback_tokens, findall_words3, findall_words.
  rewrite findall3_filter. apply filter_filter_andb.
Qed.

(** C3 (as amended).  Whatever the text and [top_k], the keywords are at
    most [max(top_k, 0)] many (so at most [top_k] of them whenever
    [top_k] is not negative), pairwise distinct, made of lowercase ASCII
    letters only and at least three letters long; and the empty text has
    no keywords.  Used of Python: [str.lower] leaves no capital ASCII
    letter and maps the empty string to itself. *)
Theorem extract_keywords_shape (text : list N) (top_k : Z) :
  lower_has_no_capital →
  (Z.of_nat (length (extract_keywords text top_k)) ≤ Z.max 0 top_k)%Z
  ∧ NoDup (extract_keywords text top_k)
  ∧ Forall keyword_shape (extract_keywords text top_k)
  ∧ (str_lower [] = [] → extract_keywords [] 3 = []).
Proof.
  intros Hlow. split; [|split; [|split]].
  - unfold extract_keywords. rewrite length_map. apply most_common_length.
  - apply extract_keywords_NoDup.
  - apply Forall_forall. intros w Hw.
    apply extract_keywords_keys in Hw as [Hw|Hw].
    + by eapply likely_nouns_shape.
    + by eapply filtered_words_shape.
  - intros Hnil. unfold extract_keywords, likely_nouns, filtered_words,
      sentence_nouns. simpl. rewrite Hnil. reflexivity.
Qed.

(** C4.  When the noun heuristic yields no candidate, the keywords are the
    first [top_k] entries of a ranking by frequency of the fallback
    tokens: the ranking lists every distinct token once with its number
    of occurrences, in non-increasing order of that number; and when
    there is no fallback token either, there is no keyword. *)
Theorem extract_keywords_fallback (text : list N) (top_k : Z) :
  likely_nouns text = [] →
  (∃ ranking : list (list N * nat),
      extract_keywords text top_k = map fst (take (Z.to_nat top_k) ranking)
      ∧ ranking ≡ₚ Counter (fallback_tokens text)
      ∧ StronglySorted outranks ranking
      ∧ NoDup (map fst ranking)
      ∧ (∀ w, w ∈ map fst ranking ↔ w ∈ fallback_tokens text)
      ∧ (∀ w n, (w, n) ∈ ranking → n = occurrences w (fallback_tokens text)))
  ∧ (fallback_tokens text = [] → extract_keywords text top_k = []).
Proof.
  intros Hnone. unfold extract_keywords. rewrite Hnone.
  rewrite filtered_words_fallback_tokens. split.
  - exists (sorted_desc (Counter (fallback_tokens text))).
    split; [reflexivity|]. split; [apply sorted_desc_perm|].
    split; [apply sorted_desc_sorted|].
    split; [|split].
    + change (NoDup (fst <$> sorted_desc (Counter (fallback_tokens text)))).
      rewrite (sorted_desc_perm (Counter (fallback_tokens text))).
      apply Counter_NoDup.
    + intros w.
      change (w ∈ fst <$> sorted_desc (Counter (fallback_tokens text))
              ↔ w ∈ fallback_tokens text).
      rewrite (sorted_desc_perm (Counter (fallback_tokens text))).
      apply Counter_keys.
    + intros w n Hin.
      rewrite (sorted_desc_perm (Counter (fallback_tokens text))) in Hin.
      by apply Counter_counts.
  - intros ->. unfold most_common. simpl. by rewrite take_nil.
Qed.

End NounExtractorFacts.

(* ===================================================================== *)
(** ** The confidence score *)
(* ===================================================================== *)

Section ConfidenceScoreFacts.
Context `{Runtime}.
Import AnalysisService.

(** The four conditions of the score.  The text-length bracket is 2 for
    more than 100 characters, 1 for more than 50, else 0. *)
Definition length_bracket (text : list N) : nat :=
  if (100 <? len text)%Z then 2 else if (50 <? len text)%Z then 1 else 0.

(** The summary is present and longer than 10 characters once trimmed. *)
Definition summary_holds (llm_result : json) : bool :=
  match py_get llm_result (py "summary") JNull with
  | Ok v => truthy v && (10 <? len (strip (py_str v)))%Z
  | Raise _ => false
  end.

(** The topics are not empty. *)
Definition topics_hold (llm_result : json) : bool :=
  match py_get llm_result (py "topics") (JList []) with
  | Ok v => truthy v
  | Raise _ => false
  end.

(** The keywords are not empty. *)
Definition keywords_hold (keywords : list (list N)) : bool :=
  match keywords with [] => false | _ => true end.

(** The score as a function of the four conditions. *)
Definition score_of (bracket : nat) (s t k : bool) : float :=
  let score :=
    match bracket with
    | 0 => (0 + 0.1)%float
    | 1 => (0 + 0.15)%float
    | _ => (0 + 0.25)%float
    end in
  let score := if s then (score + 0.25)%float else score in
  let score := if t then (score + 0.25)%float else score in
  let score := if k then (score + 0.25)%float else score in
  py_max 0 (py_min 1 score).

Lemma dict_lookup_getitem d key v :
  dict_lookup key d = Some v → py_getitem (JDict d) key = Ok v.
Proof. intros E. simpl. by rewrite E. Qed.

Lemma score_body_conditions text llm_result keywords :
  is_ok (score_body text llm_result keywords) = true →
  score_body text llm_result keywords
  = Ok (score_of (length_bracket text) (summary_holds llm_result)
          (topics_hold llm_result) (keywords_hold keywords)).
Proof.
  destruct llm_result as [| | | | |l|d]; try discriminate.
  unfold score_body, summary_holds, topics_hold, length_bracket, score_of.
  assert (Hk : match keywords with [] => false | _ => true end
               && (0 <? Z.of_nat (length keywords))%Z = keywords_hold keywords).
  { destruct keywords; reflexivity. }
  rewrite Hk. clear Hk.
  cbv [py_get py_getitem mbind outcome_bind mret outcome_ret].
  destruct (dict_lookup (py "summary") d) as [sv|];
    destruct (dict_lookup (py "topics") d) as [[| | | |[|]|[|]|[|]]|];
    cbn [truthy py_len is_ok negb length];
    rewrite ?bool_decide_eq_true_2, ?bool_decide_eq_false_2 by done;
    cbn [negb];
    repeat match goal with
      | |- context [truthy ?v] => destruct (truthy v)
      | |- context [(10 <? ?n)%Z] => destruct (10 <? n)%Z
      | |- context [(100 <? ?n)%Z] => destruct (100 <? n)%Z
      | |- context [(50 <? ?n)%Z] => destruct (50 <? n)%Z
      | |- context [keywords_hold ?k] => destruct (keywords_hold k)
      | |- context [(?z =? 0)%Z] => destruct (z =? 0)%Z
      | |- context [PrimFloat.eqb ?f 0] => destruct (PrimFloat.eqb f 0)
      | b : bool |- _ => destruct b
      end;
    cbn [is_ok negb andb];
    try discriminate; try reflexivity.
Qed.

(** The values [len] accepts. *)
Definition has_len (v : json) : bool :=
  match v with
  | JStr _ | JList _ | JDict _ => true
  | _ => false
  end.

(** When the scoring statements run to their end: the LLM result is a
    mapping, and its topics, if truthy, have a length. *)
Lemma score_body_ok_iff text llm_result keywords :
  is_ok (score_body text llm_result keywords) = true
  ↔ ∃ d, llm_result = JDict d
         ∧ (truthy (default (JList []) (dict_lookup (py "topics") d)) = true →
            has_len (default (JList []) (dict_lookup (py "topics") d)) = true).
Proof.
  split.
  - destruct llm_result as [| | | | |l|d]; try discriminate.
    intros Hok. exists d. split; [done|]. revert Hok.
    unfold score_body. cbv [py_get py_getitem mbind outcome_bind mret outcome_ret].
    destruct (dict_lookup (py "summary") d) as [sv|];
      destruct (dict_lookup (py "topics") d) as [[| | | |[|]|[|]|[|]]|];
      cbn [truthy py_len is_ok negb length default from_option id has_len];
      repeat match goal with
        | |- context [truthy ?v] => destruct (truthy v)
        | |- context [(?z =? 0)%Z] => destruct (z =? 0)%Z
        | |- context [PrimFloat.eqb ?f 0] => destruct (PrimFloat.eqb f 0)
        | b : bool |- _ => destruct b
        end;
      cbn [is_ok negb]; try done.
  - intros (d & -> & Hlen).
    unfold score_body. cbv [py_get py_getitem mbind outcome_bind mret outcome_ret].
    revert Hlen.
    destruct (dict_lookup (py "summary") d) as [sv|];
      destruct (dict_lookup (py "topics") d) as [[| | | |[|]|[|]|[|]]|];
      cbn [truthy py_len is_ok negb length default from_option id has_len];
      repeat match goal with
        | |- context [truthy ?v] => destruct (truthy v)
        | |- context [(?z =? 0)%Z] => destruct (z =? 0)%Z
        | |- context [PrimFloat.eqb ?f 0] => destruct (PrimFloat.eqb f 0)
        | b : bool |- _ => destruct b
        end;
      cbn [is_ok negb]; intros Hlen; try done;
      try (by discriminate Hlen).
Qed.

Lemma round2_half : py_round2 0.5 = 0.5%float.
Proof. vm_compute. reflexivity. Qed.

Lemma calculate_cases text llm_result keywords :
  (is_ok (score_body text llm_result keywords) = false
   ∧ _calculate_confidence_score text llm_result keywords = Ok 0.5%float)
  ∨ (is_ok (score_body text llm_result keywords) = true
     ∧ _calculate_confidence_score text llm_result keywords
       = Ok (py_round2
               (score_of (length_bracket text) (summary_holds llm_result)
                  (topics_hold llm_result) (keywords_hold keywords)))).
Proof.
  unfold _calculate_confidence_score.
  destruct (score_body text llm_result keywords) as [v|e] eqn:E.
  - right. split; [done|].
    rewrite <- E, score_body_conditions by (by rewrite E). reflexivity.
  - left. split; [done|]. cbn. by rewrite round2_half.
Qed.

Lemma score_of_bounds b s t k :
  (0 <=? py_round2 (score_of b s t k))%float = true
  ∧ (py_round2 (score_of b s t k) <=? 1)%float = true
  ∧ (py_round2 (score_of b s t k) =? 0)%float = false.
Proof.
  destruct b as [|[|b]], s, t, k; vm_compute; auto.
Qed.

Lemma score_of_monotone b1 s1 t1 k1 b2 s2 t2 k2 :
  b1 ≤ b2 → (s1 = true → s2 = true) → (t1 = true → t2 = true) →
  (k1 = true → k2 = true) →
  (py_round2 (score_of b1 s1 t1 k1) <=? py_round2 (score_of b2 s2 t2 k2))%float
  = true.
Proof.
  intros Hb Hs Ht Hk.
  destruct b1 as [|[|b1]], b2 as [|[|b2]]; try lia;
    destruct s1, s2; try (by discriminate Hs);
    destruct t1, t2; try (by discriminate Ht);
    destruct k1, k2; try (by discriminate Hk);
    vm_compute; reflexivity.
Qed.

(** C5.  The confidence score is a number between 0 and 1 and is never
    zero; and between two inputs that are scored without an internal
    fault, when none of the four conditions (text-length bracket,
    summary, topics, keywords) gets worse, the score does not go
    down. *)
Theorem confidence_score_bounds_monotone :
  (∀ (text : list N) (llm_result : json) (keywords : list (list N)),
      ∃ v, _calculate_confidence_score text llm_result keywords = Ok v
           ∧ (0 <=? v)%float = true ∧ (v <=? 1)%float = true
           ∧ (v =? 0)%float = false)
  ∧ (∀ (text1 text2 : list N) (llm1 llm2 : json)
       (keywords1 keywords2 : list (list N)) (v1 v2 : float),
      is_ok (score_body text1 llm1 keywords1) = true →
      is_ok (score_body text2 llm2 keywords2) = true →
      length_bracket text1 ≤ length_bracket text2 →
      (summary_holds llm1 = true → summary_holds llm2 = true) →
      (topics_hold llm1 = true → topics_hold llm2 = true) →
      (keywords_hold keywords1 = true → keywords_hold keywords2 = true) →
      _calculate_confidence_score text1 llm1 keywords1 = Ok v1 →
      _calculate_confidence_score text2 llm2 keywords2 = Ok v2 →
      (v1 <=? v2)%float = true).
Proof.
  split.
  - intros text llm_result keywords.
    destruct (calculate_cases text llm_result keywords) as [[_ ->]|[_ ->]].
    + exists 0.5%float. split; [done|]. vm_compute. auto.
    + eexists. split; [reflexivity|]. apply score_of_bounds.
  - intros text1 text2 llm1 llm2 keywords1 keywords2 v1 v2
      Hok1 Hok2 Hb Hs Ht Hk Hv1 Hv2.
    destruct (calculate_cases text1 llm1 keywords1) as [[E1 _]|[_ E1]];
      [congruence|].
    destruct (calculate_cases text2 llm2 keywords2) as [[E2 _]|[_ E2]];
      [congruence|].
    rewrite E1 in Hv1. rewrite E2 in Hv2.
    injection Hv1 as <-. injection Hv2 as <-.
    by apply score_of_monotone.
Qed.

(** C6.  The scorer returns a value for every input, and when the scoring
    statements raise (as they do for an LLM result that is no mapping)
    that value is exactly 0.5. *)
Theorem confidence_score_never_raises (text : list N) (llm_result : json)
  (keywords : list (list N)) :
  ∃ v, _calculate_confidence_score text llm_result keywords = Ok v
       ∧ (∀ e, score_body text llm_result keywords = Raise e → v = 0.5%float)
       ∧ ((∀ d, llm_result ≠ JDict d) → v = 0.5%float).
Proof.
  destruct (calculate_cases text llm_result keywords) as [[E ->]|[E ->]].
  - exists 0.5%float. auto.
  - eexists. split; [reflexivity|]. split.
    + intros e He. rewrite He in E. discriminate.
    + intros Hnd. destruct llm_result; try discriminate E. by destruct (Hnd d).
Qed.

End ConfidenceScoreFacts.

(* ===================================================================== *)
(** ** The LLM gateway *)
(* ===================================================================== *)

Section GatewayFacts.
Context `{Runtime} `{Settings}.
Import AzureLLMClient.

(** What a computation leaves of the world other than the request log. *)
Definition same_storage (w w' : world) : Prop :=
  db_rows w' = db_rows w ∧ db_commits w' = db_commits w
  ∧ db_script w' = db_script w ∧ llm_script w' = llm_script w.

Lemma same_storage_refl w : same_storage w w.
Proof. by repeat split. Qed.

Lemma same_storage_trans w1 w2 w3 :
  same_storage w1 w2 → same_storage w2 w3 → same_storage w1 w3.
Proof. unfold same_storage. intros (?&?&?&?) (?&?&?&?). repeat split; congruence. Qed.

Lemma call_with_timeout_effect request_params timeout w :
  llm_requests (snd (_call_openai_with_timeout request_params timeout w))
  = llm_requests w ++ [request_params]
  ∧ same_storage w (snd (_call_openai_with_timeout request_params timeout w)).
Proof.
  unfold _call_openai_with_timeout.
  destruct (reply_result _) as [r|e]; [by repeat split|].
  case_bool_decide; [|by repeat split].
  destruct (negb _); by repeat split.
Qed.

(** The wrapper at the level of what the awaited task gives: on
    [asyncio.TimeoutError] the exception raised is [LLMTimeoutError], and a
    task that is not done is cancelled first; a response is returned as
    it is; any other exception passes unchanged.  When and whether the
    deadline passes is the event loop's matter and not modelled. *)
Lemma timeout_wrapper_outcomes request_params timeout w :
  let r := llm_script w (length (llm_requests w)) in
  let res := _call_openai_with_timeout request_params timeout w in
  (∀ e, reply_result r = Raise e → exn_cls e = AsyncioTimeoutError →
     fst res = Raise (timeout_error timeout)
     ∧ exn_cls (timeout_error timeout) = LLMTimeoutError
     ∧ llm_cancels (snd res)
       = if reply_task_done r then llm_cancels w else S (llm_cancels w))
  ∧ (∀ response, reply_result r = Ok response → fst res = Ok response)
  ∧ (∀ e, reply_result r = Raise e → exn_cls e ≠ AsyncioTimeoutError →
       fst res = Raise e).
Proof.
  unfold _call_openai_with_timeout. cbv zeta. split; [|split].
  - intros e -> He. rewrite bool_decide_eq_true_2 by done.
    destruct (reply_task_done _); by repeat split.
  - by intros response ->.
  - intros e -> He. by rewrite bool_decide_eq_false_2.
Qed.

Lemma call_ai_inference_with_timeout_eq request_params timeout w :
  _call_ai_inference_with_timeout request_params timeout w
  = _call_openai_with_timeout request_params timeout w.
Proof. reflexivity. Qed.

(** One attempt invokes the endpoint at most once, and never ends
    without a [return] or a raise. *)
Lemma attempt_effect self prompt system_prompt temperature max_tokens
    response_format timeout w :
  (∃ c w', attempt self prompt system_prompt temperature max_tokens
             response_format timeout w = (Ok (Return c), w')
           ∨ ∃ e, attempt self prompt system_prompt temperature max_tokens
                    response_format timeout w = (Raise e, w'))
  ∧ (llm_requests (snd (attempt self prompt system_prompt temperature
                          max_tokens response_format timeout w))
     = llm_requests w
     ∨ ∃ req, llm_requests (snd (attempt self prompt system_prompt temperature
                                   max_tokens response_format timeout w))
              = llm_requests w ++ [req])
  ∧ same_storage w (snd (attempt self prompt system_prompt temperature
                           max_tokens response_format timeout w)).
Proof.
  unfold attempt. destruct (api_type self).
  - cbv [mbind io_bind lift mret io_ret].
    destruct (_build_messages_openai prompt system_prompt) as [messages|e].
    2:{ split; [exists [], w; right; by exists e|].
        split; [by left|apply same_storage_refl]. }
    match goal with |- context [_call_openai_with_timeout ?r ?t w] =>
      pose proof (call_with_timeout_effect r t w) as [Hlog Hst];
      destruct (_call_openai_with_timeout r t w) as [[response|e] w1] eqn:Ecall
    end; simpl in Hlog, Hst.
    2:{ split; [exists [], w1; right; by exists e|]. split; [right; eauto|done]. }
    destruct (first_content response) as [content|e].
    2:{ split; [exists [], w1; right; by exists e|]. split; [right; eauto|done]. }
    destruct (content_strip content) as [stripped|e].
    2:{ split; [exists [], w1; right; by exists e|]. split; [right; eauto|done]. }
    split; [exists stripped, w1; by left|]. split; [right; eauto|done].
  - cbv [mbind io_bind lift mret io_ret].
    destruct (_build_messages_ai_inference prompt system_prompt) as [messages|e].
    2:{ split; [exists [], w; right; by exists e|].
        split; [by left|apply same_storage_refl]. }
    rewrite call_ai_inference_with_timeout_eq.
    match goal with |- context [_call_openai_with_timeout ?r ?t w] =>
      pose proof (call_with_timeout_effect r t w) as [Hlog Hst];
      destruct (_call_openai_with_timeout r t w) as [[response|e] w1] eqn:Ecall
    end; simpl in Hlog, Hst.
    2:{ split; [exists [], w1; right; by exists e|]. split; [right; eauto|done]. }
    destruct (first_content response) as [content|e].
    2:{ split; [exists [], w1; right; by exists e|]. split; [right; eauto|done]. }
    destruct (content_strip content) as [stripped|e].
    2:{ split; [exists [], w1; right; by exists e|]. split; [right; eauto|done]. }
    split; [exists stripped, w1; by left|]. split; [right; eauto|done].
Qed.

(** The timeout in force: the argument, or the client's default. *)
Definition effective_timeout (self : client) (timeout : option float) : float :=
  match timeout with
  | None => default_timeout self
  | Some t => t
  end.

Lemma range_positive n : (0 < n)%Z → ∃ rest, range n = 0%Z :: rest.
Proof.
  intros Hn. unfold range. destruct (Z.to_nat n) as [|m] eqn:E; [lia|].
  simpl. eauto.
Qed.

Lemma range_nonpositive n : (n ≤ 0)%Z → range n = [].
Proof. intros Hn. unfold range. by replace (Z.to_nat n) with 0 by lia. Qed.

(** With [max_retries >= 0] the loop is its first turn. *)
Lemma call_llm_one_attempt (self : client) (prompt : list N)
  (system_prompt : option (list N)) (temperature : float) (max_tokens : Z)
  (response_format : option (list N)) (max_retries : Z)
  (timeout : option float) (w : world) :
  (0 ≤ max_retries)%Z →
  call_llm self prompt system_prompt temperature max_tokens
    response_format max_retries timeout w
  = single_attempt self prompt system_prompt temperature max_tokens
      response_format timeout w.
Proof.
  intros Hn. destruct (range_positive (max_retries + 1)) as [rest Hr]; [lia|].
  unfold call_llm, single_attempt. rewrite Hr. cbn [for_each].
  unfold loop_body, io_try, lift.
  destruct (attempt_effect self prompt system_prompt temperature max_tokens
              response_format (effective_timeout self timeout) w)
    as [(c & w' & [E|[e E]]) _]; unfold effective_timeout in E;
    rewrite E; reflexivity.
Qed.

(** C1 (as amended).  For [max_retries >= 0] the loop of [call_llm] is one
    attempt: the call equals a call that makes a single attempt, an
    exception of the first attempt is raised again as it is, with the
    world as that attempt left it, and the endpoint is invoked at most
    once.  For a negative [max_retries] there is no attempt at all: the
    call returns [None] and leaves the world untouched. *)
Theorem call_llm_single_attempt (self : client) (prompt : list N)
  (system_prompt : option (list N)) (temperature : float) (max_tokens : Z)
  (response_format : option (list N)) (max_retries : Z)
  (timeout : option float) (w : world) :
  ((0 ≤ max_retries)%Z →
     call_llm self prompt system_prompt temperature max_tokens
       response_format max_retries timeout w
     = single_attempt self prompt system_prompt temperature max_tokens
         response_format timeout w
     ∧ (∀ e w',
          attempt self prompt system_prompt temperature max_tokens
            response_format (effective_timeout self timeout) w = (Raise e, w') →
          call_llm self prompt system_prompt temperature max_tokens
            response_format max_retries timeout w = (Raise e, w'))
     ∧ length (llm_requests
                 (snd (call_llm self prompt system_prompt temperature
                         max_tokens response_format max_retries timeout w)))
       ≤ S (length (llm_requests w)))
  ∧ ((max_retries < 0)%Z →
       call_llm self prompt system_prompt temperature max_tokens
         response_format max_retries timeout w = (Ok None, w)).
Proof.
  split.
  - intros Hn.
    pose proof (call_llm_one_attempt self prompt system_prompt temperature
                  max_tokens response_format max_retries timeout w Hn) as Heq.
    split; [exact Heq|]. split.
    + intros e w' E. rewrite Heq. unfold single_attempt.
      unfold effective_timeout in E. by rewrite E.
    + rewrite Heq. unfold single_attempt.
      destruct (attempt_effect self prompt system_prompt temperature max_tokens
                  response_format (effective_timeout self timeout) w)
        as (_ & Hlog & _). unfold effective_timeout in Hlog.
      destruct (attempt _ _ _ _ _ _ _ w) as [[[|c]|e] w'];
        simpl in *; destruct Hlog as [->|[req ->]];
        rewrite ?length_app; simpl; lia.
  - intros Hn. unfold call_llm. rewrite range_nonpositive by lia. reflexivity.
Qed.

End GatewayFacts.

(* ===================================================================== *)
(** ** The analysis service *)
(* ===================================================================== *)

Section StringFacts.

Lemma lstrip_nil_iff s : lstrip s = [] ↔ forallb isspace s = true.
Proof.
  induction s as [|c s IH]; simpl; [done|].
  destruct (isspace c); simpl; [exact IH|]. split; discriminate.
Qed.

Lemma lstrip_snoc_nonspace s c : isspace c = false → lstrip (s ++ [c]) ≠ [].
Proof.
  intros Hc. induction s as [|a s IH]; simpl.
  - by rewrite Hc.
  - destruct (isspace a); [exact IH|discriminate].
Qed.

Lemma lstrip_head s c rest : lstrip s = c :: rest → isspace c = false.
Proof.
  induction s as [|a s IH]; simpl; [discriminate|].
  destruct (isspace a) eqn:Ha; [exact IH|]. by intros [= <- _].
Qed.

(** [s.strip()] is empty exactly when [s] is empty or all whitespace. *)
Lemma strip_nil_iff s : strip s = [] ↔ forallb isspace s = true.
Proof.
  rewrite <- lstrip_nil_iff. unfold strip, rstrip. split.
  - intros Hs. destruct (lstrip s) as [|c rest] eqn:E; [done|].
    apply lstrip_head in E. simpl in Hs.
    apply (f_equal (@rev _)) in Hs. rewrite rev_involutive in Hs. simpl in Hs.
    by apply lstrip_snoc_nonspace in Hs.
  - by intros ->.
Qed.

Lemma truthy_str_nil_iff s : truthy_str s = false ↔ s = [].
Proof. by destruct s. Qed.

End StringFacts.

Section AnalysisFacts.
Context `{Runtime} `{Settings}.
Import AnalysisService.

(** Empty or made of whitespace only. *)
Definition blank (text : list N) : bool := forallb isspace text.

Lemma new_TextAnalysisCreate_fields text sv tv pv nv kws score r :
  new_TextAnalysisCreate text sv tv pv nv kws score = Ok r →
  original_text r = text ∧ keywords r = kws ∧ confidence_score r = score.
Proof.
  unfold new_TextAnalysisCreate. cbv [mbind outcome_bind mret outcome_ret].
  destruct (field_str sv); [|discriminate].
  destruct (field_opt_str tv); [|discriminate].
  destruct (field_list_str pv); [|discriminate].
  destruct (field_str nv); [|discriminate].
  by intros [= <-].
Qed.

Lemma compose_record_keywords self text w r w' :
  compose_record self text w = (Ok r, w') →
  keywords r = NounExtractor.extract_keywords text 3 ∧ original_text r = text.
Proof.
  unfold compose_record. cbv [mbind io_bind lift mret io_ret].
  destruct (AzureLLMClient.call_llm _ _ _ _ _ _ _ _ w) as [[response|e] w1];
    [|discriminate].
  destruct (loads response) as [llm_result|e]; [|discriminate].
  destruct (_calculate_confidence_score _ _ _) as [score|e]; [|discriminate].
  destruct (py_get llm_result (py "summary") _) as [sv|e]; [|discriminate].
  destruct (py_get llm_result (py "title") _) as [tv|e]; [|discriminate].
  destruct (py_get llm_result (py "topics") _) as [pv|e]; [|discriminate].
  destruct (py_get llm_result (py "sentiment") _) as [nv|e]; [|discriminate].
  destruct (new_TextAnalysisCreate _ _ _ _ _ _ _) as [r'|e] eqn:E; [|discriminate].
  intros [= <- <-]. apply new_TextAnalysisCreate_fields in E. tauto.
Qed.

(** The request [analyze_text] sends for [text]. *)
Definition analysis_request (text : list N) : request_params :=
  {| rp_model := AZURE_OPENAI_GPT_4O_MODEL_NAME;
     rp_messages :=
       [AzureLLMClient.system_message Prompts.system_prompt;
        AzureLLMClient.user_message (Prompts.text_analysis_prompt_format text)];
     rp_max_tokens := 4000;
     rp_temperature := 0;
     rp_response_format := Some (py "json_object") |}.

(** What the call of [analyze_text] to the gateway amounts to: one
    invocation of the endpoint under the default timeout. *)
Lemma call_llm_analysis text w :
  AzureLLMClient.call_llm (azure_llm_client init)
    (Prompts.text_analysis_prompt_format text) (Some Prompts.system_prompt)
    0%float 4000%Z (Some (py "json")) 3%Z None w
  = match AzureLLMClient._call_openai_with_timeout (analysis_request text)
            120%float w with
    | (Ok response, w1) =>
        (content ← AzureLLMClient.first_content response;
         stripped ← AzureLLMClient.content_strip content;
         Ok (Some stripped), w1)
    | (Raise e, w1) => (Raise e, w1)
    end.
Proof.
  unfold AzureLLMClient.call_llm.
  change (range (3 + 1)) with [0%Z; 1%Z; 2%Z; 3%Z]. cbn [for_each].
  unfold AzureLLMClient.loop_body, io_try, AzureLLMClient.attempt.
  cbn [azure_llm_client init AzureLLMClient.init AzureLLMClient.api_type
       AzureLLMClient.model_name AzureLLMClient.default_timeout].
  change (AzureLLMClient._build_messages_openai
            (Prompts.text_analysis_prompt_format text)
            (Some Prompts.system_prompt))
    with (Ok [AzureLLMClient.system_message Prompts.system_prompt;
              AzureLLMClient.user_message
                (Prompts.text_analysis_prompt_format text)]).
  change (AzureLLMClient.is_json (Some (py "json"))) with true.
  cbv [mbind io_bind lift mret io_ret]. fold (analysis_request text).
  destruct (AzureLLMClient._call_openai_with_timeout _ _ w)
    as [[response|e] w1]; [|reflexivity].
  cbv [mbind outcome_bind].
  destruct (AzureLLMClient.first_content response) as [content|e];
    [|reflexivity].
  destruct (AzureLLMClient.content_strip content); reflexivity.
Qed.

(** [compose_record] invokes the endpoint once and leaves storage alone. *)
Lemma compose_record_effect text w :
  llm_requests (snd (compose_record init text w))
  = llm_requests w ++ [analysis_request text]
  ∧ same_storage w (snd (compose_record init text w)).
Proof.
  unfold compose_record. cbv [mbind io_bind]. rewrite call_llm_analysis.
  pose proof (call_with_timeout_effect (analysis_request text) 120%float w)
    as [Hlog Hst].
  destruct (AzureLLMClient._call_openai_with_timeout _ _ w)
    as [[response|e] w1]; simpl in Hlog, Hst; [|done].
  destruct (_ ≫= _) as [c|e]; [|done].
  unfold lift.
  repeat match goal with
    | |- context [match ?x with (_, _) => _ end] => destruct x as [[?|?] ?]
    | |- context [let (_, _) := ?x in _] => destruct x as [[?|?] ?]
    | |- context [match ?x with Ok _ => _ | Raise _ => _ end] => destruct x
    end; done.
Qed.

(** [create_analysis] leaves the endpoint alone. *)
Lemma create_analysis_effect data w :
  llm_requests (snd (create_analysis data w)) = llm_requests w
  ∧ llm_script (snd (create_analysis data w)) = llm_script w
  ∧ db_script (snd (create_analysis data w)) = db_script w.
Proof. unfold create_analysis. by destruct (db_script w _) as [[? ?]|?]. Qed.

Lemma analyze_text_blank self text w :
  blank text = true →
  analyze_text self text w
  = (Raise (Exn ValueError (py "Text cannot be empty")), w).
Proof.
  intros Hb. unfold analyze_text.
  apply strip_nil_iff in Hb. rewrite Hb. simpl. by rewrite orb_true_r.
Qed.

Lemma blank_false_strip text : blank text = false → strip text ≠ [].
Proof. intros Hb Hs. apply strip_nil_iff in Hs. unfold blank in Hb. congruence. Qed.

Lemma blank_false_truthy text :
  blank text = false →
  negb (truthy_str text) || negb (truthy_str (strip text)) = false.
Proof.
  intros Hb. pose proof (blank_false_strip text Hb) as Hs.
  destruct text; [done|]. destruct (strip _); done.
Qed.

(** A text that is not blank reaches the endpoint exactly once, whatever
    the analysis then does. *)
Lemma analyze_text_effect text w :
  blank text = false →
  llm_requests (snd (analyze_text init text w))
  = llm_requests w ++ [analysis_request text]
  ∧ llm_script (snd (analyze_text init text w)) = llm_script w
  ∧ db_script (snd (analyze_text init text w)) = db_script w.
Proof.
  intros Hb. unfold analyze_text. rewrite (blank_false_truthy text Hb).
  unfold io_try. cbv [mbind io_bind mret io_ret lift].
  pose proof (compose_record_effect text w) as (Hlog & _ & _ & Hdb & Hllm).
  destruct (compose_record init text w) as [[data|e] w1]; simpl in *;
    [|done].
  pose proof (create_analysis_effect data w1) as (Hlog2 & Hllm2 & Hdb2).
  destruct (create_analysis data w1) as [[row|e] w2]; simpl in *;
    repeat split; congruence.
Qed.

Lemma compose_record_storage self text w :
  same_storage w (snd (compose_record self text w)).
Proof.
  unfold compose_record. cbv [mbind io_bind].
  rewrite (call_llm_one_attempt (azure_llm_client self)
             (Prompts.text_analysis_prompt_format text)
             (Some Prompts.system_prompt) 0%float 4000%Z (Some (py "json"))
             3%Z None w) by lia.
  unfold AzureLLMClient.single_attempt.
  pose proof (attempt_effect (azure_llm_client self)
                (Prompts.text_analysis_prompt_format text)
                (Some Prompts.system_prompt) 0%float 4000%Z (Some (py "json"))
                (AzureLLMClient.default_timeout (azure_llm_client self)) w)
    as (_ & _ & Hst).
  destruct (AzureLLMClient.attempt _ _ _ _ _ _ _ w) as [[[|c]|e] w1];
    simpl in Hst; [done| |done].
  unfold lift.
  repeat match goal with
    | |- context [match ?x with (_, _) => _ end] => destruct x as [[?|?] ?]
    | |- context [let (_, _) := ?x in _] => destruct x as [[?|?] ?]
    | |- context [match ?x with Ok _ => _ | Raise _ => _ end] => destruct x
    end; done.
Qed.

(** C7.  On a text that is empty or all whitespace [analyze_text] raises
    [ValueError] (not the [Exception] that reports a failed analysis) and
    leaves the world as it was: the LLM is not called and nothing is
    stored. *)
Theorem analyze_text_rejects_blank (self : service) (text : list N)
  (w : world) :
  blank text = true →
  analyze_text self text w
  = (Raise (Exn ValueError (py "Text cannot be empty")), w)
  ∧ llm_requests (snd (analyze_text self text w)) = llm_requests w
  ∧ db_commits (snd (analyze_text self text w)) = db_commits w
  ∧ db_rows (snd (analyze_text self text w)) = db_rows w.
Proof.
  intros Hb. rewrite (analyze_text_blank self text w Hb). by repeat split.
Qed.

(** C8.  The keywords of the record composed for a text are
    [extract_keywords] of that text, whatever the LLM answers: two runs
    on the same text in any two worlds compose records with the same
    keywords, and a run that succeeds stores and returns them. *)
Theorem keywords_from_text_only (self : service) (text : list N) :
  (∀ (w1 w2 w1' w2' : world) (r1 r2 : TextAnalysisCreate),
      compose_record self text w1 = (Ok r1, w1') →
      compose_record self text w2 = (Ok r2, w2') →
      keywords r1 = keywords r2
      ∧ keywords r1 = NounExtractor.extract_keywords text 3)
  ∧ (∀ (w w' : world) (response : TextAnalysisResponse),
      analyze_text self text w = (Ok response, w') →
      resp_keywords response = NounExtractor.extract_keywords text 3
      ∧ ∃ row, db_rows w' = db_rows w ++ [row]
               ∧ original_text (row_data row) = text
               ∧ keywords (row_data row)
                 = NounExtractor.extract_keywords text 3).
Proof.
  split.
  - intros w1 w2 w1' w2' r1 r2 E1 E2.
    apply compose_record_keywords in E1 as [E1 _].
    apply compose_record_keywords in E2 as [E2 _]. split; congruence.
  - intros w w' response. unfold analyze_text.
    destruct (negb (truthy_str text) || negb (truthy_str (strip text)));
      [discriminate|].
    unfold io_try. cbv [mbind io_bind mret io_ret lift].
    pose proof (compose_record_storage self text w) as (Hrows & _).
    destruct (compose_record self text w) as [[data|e] w1] eqn:Ec;
      [|discriminate].
    apply compose_record_keywords in Ec as [Hk Ht]. simpl in Hrows.
    unfold create_analysis.
    destruct (db_script w1 (db_commits w1)) as [[id created]|e];
      [|discriminate].
    intros [= <- <-]. split; [exact Hk|].
    eexists. split; [simpl; by rewrite Hrows|]. by split.
Qed.

End AnalysisFacts.

(* ===================================================================== *)
(** ** The batch coordinator *)
(* ===================================================================== *)

Section BatchFacts.
Context `{Runtime} `{Settings}.
Import TextAnalyzerApi.

(** What one text of a batch ends as. *)
Inductive item_result :=
| Succeeded (result : TextAnalysisResponse)
| Failed (msg : list N).

Definition successes (rs : list item_result) : list TextAnalysisResponse :=
  flat_map (λ r, match r with Succeeded x => [x] | Failed _ => [] end) rs.

Definition failures (rs : list item_result) : list (list N) :=
  flat_map (λ r, match r with Succeeded _ => [] | Failed m => [m] end) rs.

(** The entry [j] after the items [rs] were appended to its two lists. *)
Definition with_results (j : batch_job) (rs : list item_result) : batch_job :=
  {| status := status j;
     successful := successful j ++ successes rs;
     failed := failed j ++ failures rs;
     total := total j;
     created_at := created_at j |}.

(** A blank text ends as the failure "Empty text". *)
Definition item_of (text : list N) (r : item_result) : Prop :=
  blank text = true → r = Failed (py "Empty text").

(** The map [m'] differs from [m] at most in the lists and the status
    of the entry of [batch_id]. *)
Definition entry_frame (batch_id : list N) (m m' : gmap (list N) batch_job)
  : Prop :=
  (∀ other, other ≠ batch_id → m' !! other = m !! other)
  ∧ (∀ j, m !! batch_id = Some j →
       ∃ j', m' !! batch_id = Some j'
             ∧ total j' = total j ∧ created_at j' = created_at j)
  ∧ (m !! batch_id = None → m' !! batch_id = None).

Lemma successes_failures_length rs :
  length (successes rs) + length (failures rs) = length rs.
Proof.
  induction rs as [|[x|m] rs IH]; simpl; lia.
Qed.

Lemma with_results_nil j : with_results j [] = j.
Proof.
  destruct j. unfold with_results. simpl. by rewrite !app_nil_r.
Qed.

Lemma with_results_cons j r rs :
  with_results (with_results j [r]) rs = with_results j (r :: rs).
Proof.
  unfold with_results. simpl. f_equal.
  - destruct r; simpl; by rewrite <- app_assoc.
  - destruct r; simpl; by rewrite <- app_assoc.
Qed.

Lemma entry_frame_refl batch_id m : entry_frame batch_id m m.
Proof. split; [done|]. split; [eauto|done]. Qed.

Lemma entry_frame_trans batch_id m1 m2 m3 :
  entry_frame batch_id m1 m2 → entry_frame batch_id m2 m3 →
  entry_frame batch_id m1 m3.
Proof.
  intros (Ho1 & He1 & Hn1) (Ho2 & He2 & Hn2). split; [|split].
  - intros other Hne. rewrite Ho2, Ho1; done.
  - intros j Hj. destruct (He1 j Hj) as (j1 & Hj1 & Ht1 & Hc1).
    destruct (He2 j1 Hj1) as (j2 & Hj2 & Ht2 & Hc2).
    exists j2. repeat split; congruence.
  - auto.
Qed.

Lemma entry_frame_insert batch_id m j j' :
  m !! batch_id = Some j → total j' = total j → created_at j' = created_at j →
  entry_frame batch_id m (<[batch_id := j']> m).
Proof.
  intros Hj Ht Hc. split; [|split].
  - intros other Hne. by rewrite lookup_insert_ne.
  - intros j0 Hj0. exists j'. rewrite lookup_insert_eq.
    repeat split; congruence.
  - congruence.
Qed.

Lemma append_failed_frame batch_id msg a :
  entry_frame batch_id (batch_results a)
    (batch_results (snd (append_failed batch_id msg a)))
  ∧ env (snd (append_failed batch_id msg a)) = env a.
Proof.
  unfold append_failed. destruct (batch_results a !! batch_id) as [j|] eqn:E.
  - split; [|done]. by apply (entry_frame_insert _ _ j).
  - split; [apply entry_frame_refl|done].
Qed.

Lemma append_successful_frame batch_id result a :
  entry_frame batch_id (batch_results a)
    (batch_results (snd (append_successful batch_id result a)))
  ∧ env (snd (append_successful batch_id result a)) = env a.
Proof.
  unfold append_successful.
  destruct (batch_results a !! batch_id) as [j|] eqn:E.
  - split; [|done]. by apply (entry_frame_insert _ _ j).
  - split; [apply entry_frame_refl|done].
Qed.

Lemma set_status_frame batch_id s a :
  entry_frame batch_id (batch_results a)
    (batch_results (snd (set_status batch_id s a))).
Proof.
  unfold set_status. destruct (batch_results a !! batch_id) as [j|] eqn:E.
  - by apply (entry_frame_insert _ _ j).
  - apply entry_frame_refl.
Qed.

Lemma process_try_frame service batch_id text a :
  entry_frame batch_id (batch_results a)
    (batch_results (snd (process_try service batch_id text a))).
Proof.
  unfold process_try. destruct (negb _).
  - apply append_failed_frame.
  - destruct (AnalysisService.analyze_text service text (env a))
      as [[result|e] w].
    + apply (append_successful_frame batch_id result (set_env w a)).
    + apply entry_frame_refl.
Qed.

Lemma process_text_frame service batch_id text a :
  entry_frame batch_id (batch_results a)
    (batch_results (snd (process_text service batch_id text a))).
Proof.
  unfold process_text.
  pose proof (process_try_frame service batch_id text a) as Htry.
  destruct (process_try service batch_id text a) as [[u|e] a1]; [done|].
  eapply entry_frame_trans; [exact Htry|]. apply append_failed_frame.
Qed.

Lemma process_texts_frame service batch_id texts : ∀ a,
  entry_frame batch_id (batch_results a)
    (batch_results (snd (process_texts service batch_id texts a))).
Proof.
  induction texts as [|text rest IH]; intros a; simpl.
  - apply entry_frame_refl.
  - pose proof (process_text_frame service batch_id text a) as Hone.
    destruct (process_text service batch_id text a) as [[u|e] a1]; [|done].
    eapply entry_frame_trans; [exact Hone|apply IH].
Qed.

Lemma process_batch_frame batch_id texts a :
  entry_frame batch_id (batch_results a)
    (batch_results (snd (process_batch batch_id texts a))).
Proof.
  unfold process_batch.
  pose proof (process_texts_frame AnalysisService.init batch_id texts a) as Hl.
  destruct (process_texts _ batch_id texts a) as [[u|e] a1]; [|done].
  eapply entry_frame_trans; [exact Hl|apply set_status_frame].
Qed.

(** One turn of the loop on an entry that exists: it ends without an
    exception, appends one item, and calls the endpoint exactly when the
    text is not blank. *)
Lemma process_text_step batch_id text a j :
  batch_results a !! batch_id = Some j →
  ∃ r a',
    process_text AnalysisService.init batch_id text a = (Ok tt, a')
    ∧ item_of text r
    ∧ batch_results a' = <[batch_id := with_results j [r]]> (batch_results a)
    ∧ llm_requests (env a')
      = llm_requests (env a)
        ++ (if blank text then [] else [analysis_request text]).
Proof.
  intros Hj. unfold process_text, process_try.
  destruct (blank text) eqn:Hb.
  - pose proof Hb as Hs. apply strip_nil_iff in Hs. rewrite Hs. simpl.
    unfold append_failed. rewrite Hj.
    exists (Failed (py "Empty text")). eexists. split; [reflexivity|].
    split; [done|]. split; [|by rewrite app_nil_r].
    simpl. unfold with_results. simpl. by rewrite app_nil_r.
  - pose proof (blank_false_strip text Hb) as Hs.
    destruct (strip text) as [|c rest] eqn:Es; [done|]. simpl.
    pose proof (analyze_text_effect text (env a) Hb) as (Hlog & _).
    destruct (AnalysisService.analyze_text AnalysisService.init text (env a))
      as [[result|e] w]; simpl in Hlog.
    + unfold append_successful. simpl. rewrite Hj.
      exists (Succeeded result). eexists. split; [reflexivity|].
      split; [intros ?; congruence|]. split; [|done].
      simpl. unfold with_results. simpl. by rewrite app_nil_r.
    + unfold append_failed. simpl. rewrite Hj.
      exists (Failed (failure_message text e)). eexists.
      split; [reflexivity|].
      split; [intros ?; congruence|]. split; [|done].
      simpl. unfold with_results. simpl. by rewrite app_nil_r.
Qed.

Lemma process_texts_run batch_id texts : ∀ a j,
  batch_results a !! batch_id = Some j →
  ∃ rs a',
    process_texts AnalysisService.init batch_id texts a = (Ok tt, a')
    ∧ Forall2 item_of texts rs
    ∧ batch_results a' = <[batch_id := with_results j rs]> (batch_results a)
    ∧ llm_requests (env a')
      = llm_requests (env a)
        ++ map analysis_request (List.filter (λ t, negb (blank t)) texts).
Proof.
  induction texts as [|text rest IH]; intros a j Hj; simpl.
  - exists [], a. split; [done|]. split; [constructor|].
    split; [|by rewrite app_nil_r].
    rewrite with_results_nil. by rewrite insert_id.
  - destruct (process_text_step batch_id text a j Hj)
      as (r & a1 & -> & Hr & Hm1 & Hl1).
    destruct (IH a1 (with_results j [r])) as (rs & a2 & -> & Hrs & Hm2 & Hl2).
    { rewrite Hm1. apply lookup_insert_eq. }
    exists (r :: rs), a2. split; [done|]. split; [by constructor|]. split.
    + rewrite Hm2, Hm1, insert_insert_eq. by rewrite with_results_cons.
    + rewrite Hl2, Hl1. destruct (blank text); simpl;
        by rewrite <- app_assoc.
Qed.

(** C9.  A batch that was submitted and then processed: the pass ends
    without an exception; the entry is "completed"; its two lists hold
    one item for each submitted text, so the two counts add up to
    [total], the number of texts; a blank text is the failure
    "Empty text"; and every text that is not blank was sent to the LLM
    endpoint, in order, whatever happened to the texts before it. *)
Theorem batch_pass_completes (batch_id : list N) (now : Z)
  (texts : list (list N)) (a : app) :
  ∃ (rs : list item_result) (a' : app) (polled : BatchResult),
    process_batch batch_id texts
      (snd (batch_analyze_texts batch_id now texts a)) = (Ok tt, a')
    ∧ Forall2 item_of texts rs
    ∧ batch_results a' !! batch_id
      = Some {| status := py "completed";
                successful := successes rs;
                failed := failures rs;
                total := Z.of_nat (length texts);
                created_at := now |}
    ∧ length (successes rs) + length (failures rs) = length texts
    ∧ get_batch_results batch_id a' = Ok polled
    ∧ br_status polled = py "completed"
    ∧ br_total polled = Z.of_nat (length texts)
    ∧ (br_success_count polled + br_failure_count polled)%Z = br_total polled
    ∧ llm_requests (env a')
      = llm_requests (env a)
        ++ map analysis_request (List.filter (λ t, negb (blank t)) texts).
Proof.
  unfold process_batch, batch_analyze_texts. simpl.
  match goal with |- context [process_texts _ _ _ ?a1] =>
    destruct (process_texts_run batch_id texts a1
                {| status := py "processing"; successful := []; failed := [];
                   total := Z.of_nat (length texts); created_at := now |})
      as (rs & a2 & -> & Hrs & Hm & Hl)
  end.
  { apply lookup_insert_eq. }
  simpl in Hm, Hl. unfold set_status. rewrite Hm, lookup_insert_eq.
  pose proof (successes_failures_length rs) as Hlen.
  rewrite <- (Forall2_length _ _ _ Hrs) in Hlen.
  exists rs. eexists. eexists. split; [reflexivity|]. split; [exact Hrs|].
  split; [simpl; by rewrite lookup_insert_eq|]. split; [exact Hlen|].
  split; [unfold get_batch_results; simpl; by rewrite lookup_insert_eq|].
  simpl. split; [done|]. split; [done|]. split; [lia|exact Hl].
Qed.

(** C10.  The pass of [process_batch] for [batch_id] leaves every other
    entry of [batch_results] as it was and keeps the [total] and the
    [created_at] of its own entry, which are the number of submitted
    texts and the submission time. *)
Theorem batch_pass_frame (batch_id : list N) (texts : list (list N))
  (a : app) :
  (∀ other, other ≠ batch_id →
     batch_results (snd (process_batch batch_id texts a)) !! other
     = batch_results a !! other)
  ∧ (∀ j, batch_results a !! batch_id = Some j →
       ∃ j', batch_results (snd (process_batch batch_id texts a)) !! batch_id
             = Some j'
             ∧ total j' = total j ∧ created_at j' = created_at j)
  ∧ (∀ now a0, a = snd (batch_analyze_texts batch_id now texts a0) →
       (∀ other, other ≠ batch_id →
          batch_results a !! other = batch_results a0 !! other)
       ∧ ∃ j', batch_results (snd (process_batch batch_id texts a)) !! batch_id
               = Some j'
               ∧ total j' = Z.of_nat (length texts) ∧ created_at j' = now).
Proof.
  destruct (process_batch_frame batch_id texts a) as (Hother & Hentry & _).
  split; [exact Hother|]. split; [exact Hentry|].
  intros now a0 ->. split.
  - intros other Hne. simpl. by rewrite lookup_insert_ne.
  - destruct (Hentry {| status := py "processing"; successful := [];
                        failed := []; total := Z.of_nat (length texts);
                        created_at := now |}) as (j' & Hj' & Ht & Hc).
    { simpl. apply lookup_insert_eq. }
    exists j'. by repeat split.
Qed.

End BatchFacts.

(* ===================================================================== *)
(** ** The properties at concrete inputs *)
(* ===================================================================== *)

Section Examples.
#[local] Existing Instance ascii_runtime.
#[local] Existing Instance demo_settings.
Import NounExtractor AzureLLMClient AnalysisService TextAnalyzerApi.

Lemma ascii_lower_no_capital : lower_has_no_capital.
Proof.
  intros s c Hc. cbn [str_lower ascii_runtime] in Hc. unfold ascii_lower in Hc.
  apply list_elem_of_fmap in Hc as (c' & -> & _).
  unfold is_ascii_upper. destruct ((65 <=? c')%N && (c' <=? 90)%N) eqn:E.
  - apply andb_true_iff in E as [E1 E2].
    apply N.leb_le in E1, E2. apply andb_false_iff. right.
    apply N.leb_gt. lia.
  - exact E.
Qed.

(** The claim of C1 as it is stated fails for [max_retries = -1]: the
    loop makes no attempt and the call returns [None], where a single
    attempt returns the stripped answer of the endpoint. *)
Lemma call_llm_negative_retries :
  fst (call_llm AzureLLMClient.init (py "hello") (Some (py "be brief"))
         0%float 4000%Z None (-1)%Z None demo_world) = Ok None
  ∧ fst (single_attempt AzureLLMClient.init (py "hello") (Some (py "be brief"))
           0%float 4000%Z None None demo_world) = Ok (Some (py "{}"))
  ∧ call_llm AzureLLMClient.init (py "hello") (Some (py "be brief"))
      0%float 4000%Z None (-1)%Z None demo_world
    ≠ single_attempt AzureLLMClient.init (py "hello") (Some (py "be brief"))
        0%float 4000%Z None None demo_world.
Proof.
  split; [reflexivity|]. split; [reflexivity|].
  intros E. apply (f_equal fst) in E. vm_compute in E. discriminate E.
Qed.

Lemma call_llm_single_attempt_witness :
  (0 ≤ 3)%Z
  ∧ call_llm AzureLLMClient.init (py "hello") (Some (py "be brief"))
      0%float 4000%Z None 3%Z None failing_world
    = single_attempt AzureLLMClient.init (py "hello") (Some (py "be brief"))
        0%float 4000%Z None None failing_world
  ∧ length (llm_requests
              (snd (call_llm AzureLLMClient.init (py "hello")
                      (Some (py "be brief")) 0%float 4000%Z None 3%Z None
                      failing_world)))
    ≤ 1.
Proof.
  assert (Hn : (0 ≤ 3)%Z) by lia.
  split; [exact Hn|].
  destruct (proj1 (call_llm_single_attempt AzureLLMClient.init (py "hello")
                     (Some (py "be brief")) 0%float 4000%Z None 3%Z None
                     failing_world) Hn) as (Heq & _ & Hlen).
  split; [exact Heq|exact Hlen].
Defined.

(** The extractor on the text of the repository's unit test. *)
Example extract_keywords_test_text :
  extract_keywords
    (py "The system processes a database using an algorithm. Data flows through the server network efficiently.")
    3
  = [py "system"; py "processes"; py "database"].
Proof. vm_compute. reflexivity. Qed.

(** The claim of C3 as it is stated fails for [top_k = -1]: the result is
    empty, and its length 0 is not at most -1. *)
Lemma extract_keywords_negative_top_k :
  extract_keywords (py "Paris is nice") (-1) = []
  ∧ ¬ (Z.of_nat (length (extract_keywords (py "Paris is nice") (-1))) ≤ -1)%Z.
Proof. split; [reflexivity|]. vm_compute. intros Hle. by apply Hle. Qed.

Lemma extract_keywords_shape_witness :
  lower_has_no_capital
  ∧ (Z.of_nat (length (extract_keywords (py "The cat saw Paris. Paris!") 2))
     ≤ Z.max 0 2)%Z
  ∧ NoDup (extract_keywords (py "The cat saw Paris. Paris!") 2)
  ∧ Forall keyword_shape (extract_keywords (py "The cat saw Paris. Paris!") 2)
  ∧ extract_keywords [] 3 = [].
Proof.
  split; [exact ascii_lower_no_capital|].
  destruct (extract_keywords_shape (py "The cat saw Paris. Paris!") 2
              ascii_lower_no_capital) as (Hlen & Hnd & Hshape & Hnil).
  split; [exact Hlen|]. split; [exact Hnd|]. split; [exact Hshape|].
  apply Hnil. reflexivity.
Defined.

Lemma extract_keywords_fallback_witness :
  likely_nouns (py "running quickly") = []
  ∧ extract_keywords (py "running quickly") 3 = [py "running"; py "quickly"]
  ∧ fallback_tokens (py "running quickly") = [py "running"; py "quickly"]
  ∧ ∃ ranking : list (list N * nat),
      extract_keywords (py "running quickly") 3
      = map fst (take (Z.to_nat 3) ranking)
      ∧ ranking ≡ₚ Counter (fallback_tokens (py "running quickly")).
Proof.
  assert (Hnone : likely_nouns (py "running quickly") = [])
    by (vm_compute; reflexivity).
  split; [exact Hnone|]. split; [vm_compute; reflexivity|].
  split; [vm_compute; reflexivity|].
  destruct (extract_keywords_fallback (py "running quickly") 3 Hnone)
    as [(ranking & Heq & Hperm & _) _].
  exists ranking. split; [exact Heq|exact Hperm].
Defined.

(** The claim of C5 as it is stated fails where scoring falls back to
    0.5: a result that is no mapping and the empty mapping satisfy the
    same conditions (none), yet score 0.5 and 0.1; and with keywords
    added to the latter the score is 0.35, below 0.5. *)
Lemma confidence_score_fallback_not_monotone :
  summary_holds (JList []) = summary_holds (JDict [])
  ∧ topics_hold (JList []) = topics_hold (JDict [])
  ∧ keywords_hold [] = false ∧ keywords_hold [py "word"] = true
  ∧ _calculate_confidence_score (py "hi") (JList []) [] = Ok 0.5%float
  ∧ _calculate_confidence_score (py "hi") (JDict []) [] = Ok 0.1%float
  ∧ _calculate_confidence_score (py "hi") (JDict []) [py "word"]
    = Ok 0.35%float
  ∧ (0.5 <=? 0.1)%float = false ∧ (0.5 <=? 0.35)%float = false.
Proof. repeat split; vm_compute; reflexivity. Qed.

Lemma confidence_score_bounds_monotone_witness :
  is_ok (score_body (py "hi") (JDict []) []) = true
  ∧ is_ok (score_body (py "hi") (JDict []) [py "word"]) = true
  ∧ (keywords_hold [] = true → keywords_hold [py "word"] = true)
  ∧ _calculate_confidence_score (py "hi") (JDict []) [] = Ok 0.1%float
  ∧ _calculate_confidence_score (py "hi") (JDict []) [py "word"]
    = Ok 0.35%float
  ∧ (0.1 <=? 0.35)%float = true.
Proof.
  assert (H1 : is_ok (score_body (py "hi") (JDict []) []) = true)
    by reflexivity.
  assert (H2 : is_ok (score_body (py "hi") (JDict []) [py "word"]) = true)
    by reflexivity.
  assert (Hk : keywords_hold [] = true → keywords_hold [py "word"] = true)
    by (intros _; reflexivity).
  assert (E1 : _calculate_confidence_score (py "hi") (JDict []) []
               = Ok 0.1%float) by (vm_compute; reflexivity).
  assert (E2 : _calculate_confidence_score (py "hi") (JDict []) [py "word"]
               = Ok 0.35%float) by (vm_compute; reflexivity).
  split; [exact H1|]. split; [exact H2|]. split; [exact Hk|].
  split; [exact E1|]. split; [exact E2|].
  exact (proj2 confidence_score_bounds_monotone (py "hi") (py "hi")
           (JDict []) (JDict []) [] [py "word"] 0.1%float 0.35%float
           H1 H2 (le_n _) (λ e, e) (λ e, e) Hk E1 E2).
Defined.

Lemma confidence_score_never_raises_witness :
  ∃ v, _calculate_confidence_score (py "hi") (JList []) [] = Ok v
       ∧ v = 0.5%float.
Proof.
  destruct (confidence_score_never_raises (py "hi") (JList []) [])
    as (v & Hv & _ & Hhalf).
  exists v. split; [exact Hv|]. apply Hhalf. intros d. discriminate.
Defined.

Lemma analyze_text_rejects_blank_witness :
  blank (py "   ") = true
  ∧ analyze_text AnalysisService.init (py "   ") demo_world
    = (Raise (Exn ValueError (py "Text cannot be empty")), demo_world)
  ∧ llm_requests (snd (analyze_text AnalysisService.init (py "   ")
                         demo_world)) = [].
Proof.
  assert (Hb : blank (py "   ") = true) by reflexivity.
  split; [exact Hb|].
  destruct (analyze_text_rejects_blank AnalysisService.init (py "   ")
              demo_world Hb) as (Heq & Hlog & _).
  split; [exact Heq|exact Hlog].
Defined.

Lemma keywords_from_text_only_witness :
  ∃ r1 r2 w1 w2,
    compose_record AnalysisService.init (py "The cat sat on a mat.") demo_world
    = (Ok r1, w1)
    ∧ compose_record AnalysisService.init (py "The cat sat on a mat.")
        positive_world = (Ok r2, w2)
    ∧ sentiment r1 = py "neutral" ∧ sentiment r2 = py "positive"
    ∧ keywords r1 = keywords r2
    ∧ keywords r1 = extract_keywords (py "The cat sat on a mat.") 3.
Proof.
  eexists _, _, _, _.
  assert (E1 : compose_record AnalysisService.init (py "The cat sat on a mat.")
                 demo_world = _) by (vm_compute; reflexivity).
  assert (E2 : compose_record AnalysisService.init (py "The cat sat on a mat.")
                 positive_world = _) by (vm_compute; reflexivity).
  split; [exact E1|]. split; [exact E2|].
  split; [reflexivity|]. split; [reflexivity|].
  exact (proj1 (keywords_from_text_only AnalysisService.init
                  (py "The cat sat on a mat.")) _ _ _ _ _ _ E1 E2).
Defined.

(** The batch of the specification's scenario: two texts succeed, the
    empty one fails. *)
Example batch_scenario :
  ∃ polled,
    get_batch_results (py "b1")
      (snd (process_batch (py "b1") [py "good text"; py ""; py "also good"]
              (snd (batch_analyze_texts (py "b1") 7
                      [py "good text"; py ""; py "also good"]
                      {| batch_results := ∅; env := demo_world |}))))
    = Ok polled
    ∧ br_status polled = py "completed" ∧ br_total polled = 3%Z
    ∧ br_success_count polled = 2%Z ∧ br_failure_count polled = 1%Z
    ∧ br_failed polled = [py "Empty text"].
Proof. eexists. split; [vm_compute; reflexivity|]. by repeat split. Qed.

Lemma batch_pass_frame_witness :
  py "b2" ≠ py "b1"
  ∧ batch_results
      (snd (process_batch (py "b1") [py "good text"; py ""]
              (snd (batch_analyze_texts (py "b1") 7 [py "good text"; py ""]
                      (snd (batch_analyze_texts (py "b2") 5 [py "other"]
                              {| batch_results := ∅; env := demo_world |}))))))
    !! py "b2"
    = Some {| status := py "processing"; successful := []; failed := [];
              total := 1; created_at := 5 |}.
Proof.
  assert (Hne : py "b2" ≠ py "b1") by discriminate.
  split; [exact Hne|].
  rewrite (proj1 (batch_pass_frame (py "b1") [py "good text"; py ""] _)
             (py "b2") Hne).
  simpl. rewrite lookup_insert_ne by (intros E; by apply Hne).
  by rewrite lookup_insert_eq.
Defined.

End Examples.

(* ===================================================================== *)
(** * Further properties *)
(* ===================================================================== *)

(* ===================================================================== *)
(** ** The ranking of the keywords *)
(* ===================================================================== *)

Section KeywordRanking.
Context `{Runtime}.
Import NounExtractor.

(** The words that are counted: the likely nouns, or, when there are
    none, the words of the fallback. *)
Definition candidates (text : list N) : list (list N) :=
  match likely_nouns text with
  | [] => filtered_words text
  | nouns => nouns
  end.

(** The distinct elements of a list in the order of their first
    occurrences. *)
Fixpoint first_occurrences (l : list (list N)) : list (list N) :=
  match l with
  | [] => []
  | x :: rest =>
      x :: List.filter (λ y, negb (bool_decide (y = x))) (first_occurrences rest)
  end.

(** [a] occurs in [l], and [b] does not occur before the first [a]. *)
Definition first_before (a b : list N) (l : list (list N)) : Prop :=
  ∃ l1 l2, l = l1 ++ (a :: l2) ∧ (a ∉ l1) ∧ (b ∉ l1).

Lemma extract_keywords_candidates text top_k :
  extract_keywords text top_k
  = map fst (most_common top_k (Counter (candidates text))).
Proof. unfold extract_keywords, candidates. by destruct (likely_nouns text). Qed.

Lemma is_likely_noun_no_stop_word words i word original :
  is_likely_noun words i word original = true → in_set word stop_words = false.
Proof.
  unfold is_likely_noun. destruct (length word <? 3); [done|].
  by destruct (in_set word stop_words).
Qed.

Lemma candidates_no_stop_word text w :
  w ∈ candidates text → in_set w stop_words = false.
Proof.
  unfold candidates. intros Hw.
  assert (Hcase : w ∈ likely_nouns text ∨ w ∈ filtered_words text).
  { destruct (likely_nouns text); auto. }
  destruct Hcase as [Hn|Hf].
  - unfold likely_nouns in Hn.
    apply list_elem_of_In, in_flat_map in Hn as (s & _ & Hn).
    unfold sentence_nouns in Hn.
    apply in_flat_map in Hn as ([i [word original]] & _ & Hn).
    destruct (is_likely_noun _ i word original) eqn:E; [|done].
    destruct Hn as [<-|[]]. by eapply is_likely_noun_no_stop_word.
  - unfold filtered_words in Hf.
    apply list_elem_of_In, filter_In in Hf as [_ Hf].
    by apply negb_true_iff in Hf.
Qed.

Lemma list_filter_sublist {A} (f : A → bool) (l : list A) :
  List.filter f l `sublist_of` l.
Proof.
  induction l as [|x l IH]; simpl; [constructor|].
  destruct (f x); by constructor.
Qed.

Lemma list_filter_sublist_mono {A} (f : A → bool) (l k : list A) :
  l `sublist_of` k → List.filter f l `sublist_of` List.filter f k.
Proof.
  induction 1 as [|x l k _ IH|x l k _ IH]; simpl; [constructor| |].
  - destruct (f x); [by constructor|done].
  - destruct (f x); [by constructor|done].
Qed.

Lemma sublist_map_inv {A B} (f : A → B) (l : list B) (k : list A) :
  l `sublist_of` map f k → ∃ l', l = map f l' ∧ l' `sublist_of` k.
Proof.
  revert l. induction k as [|x k IH]; intros l Hl; simpl in Hl.
  - apply sublist_nil_r in Hl as ->. by exists [].
  - apply sublist_cons_r in Hl as [Hl|(l0 & -> & Hl)].
    + destruct (IH l Hl) as (l' & -> & Hs). exists l'. split; [done|].
      by constructor.
    + destruct (IH l0 Hl) as (l' & -> & Hs). exists (x :: l'). split; [done|].
      by constructor.
Qed.

Lemma counter_add_keys_order x c :
  map fst (counter_add x c)
  = if bool_decide (x ∈ map fst c) then map fst c else map fst c ++ [x].
Proof.
  induction c as [|[k n] rest IH]; simpl; [done|].
  destruct (bool_decide (k = x)) eqn:Ek.
  - apply bool_decide_eq_true in Ek as ->. simpl.
    rewrite bool_decide_eq_true_2 by set_solver. done.
  - apply bool_decide_eq_false in Ek. simpl. rewrite IH.
    case_bool_decide as Hin.
    + by rewrite bool_decide_eq_true_2 by set_solver.
    + by rewrite bool_decide_eq_false_2 by set_solver.
Qed.

Lemma list_filter_ext_in {A} (f g : A → bool) (l : list A) :
  (∀ x, x ∈ l → f x = g x) → List.filter f l = List.filter g l.
Proof.
  intros Hfg. apply filter_ext_in. intros x Hx. apply Hfg.
  by apply list_elem_of_In.
Qed.

Lemma Counter_from_keys l : ∀ c,
  map fst (fold_left (λ c w, counter_add w c) l c)
  = map fst c
    ++ List.filter (λ y, negb (bool_decide (y ∈ map fst c)))
         (first_occurrences l).
Proof.
  induction l as [|x l IH]; intros c; simpl.
  - by rewrite app_nil_r.
  - rewrite IH, counter_add_keys_order. case_bool_decide as Hin; simpl.
    + f_equal. rewrite filter_filter_andb. apply list_filter_ext_in.
      intros y _. destruct (bool_decide (y = x)) eqn:E; simpl; [|done].
      apply bool_decide_eq_true in E as ->.
      by rewrite bool_decide_eq_true_2.
    + rewrite <- app_assoc. simpl. f_equal. f_equal.
      rewrite filter_filter_andb. apply list_filter_ext_in.
      intros y _.
      destruct (bool_decide (y = x)) eqn:E; simpl.
      * apply bool_decide_eq_true in E as ->.
        rewrite bool_decide_eq_true_2 by set_solver. done.
      * apply bool_decide_eq_false in E.
        destruct (bool_decide (y ∈ map fst c)) eqn:E2.
        -- apply bool_decide_eq_true in E2.
           by rewrite bool_decide_eq_true_2 by set_solver.
        -- apply bool_decide_eq_false in E2.
           by rewrite bool_decide_eq_false_2 by set_solver.
Qed.

(** The keys of a counter stand in the order of first occurrence. *)
Lemma Counter_keys_order l : map fst (Counter l) = first_occurrences l.
Proof.
  unfold Counter. rewrite Counter_from_keys. cbn [map app].
  rewrite (list_filter_ext_in _ (λ _, true)).
  - induction (first_occurrences l) as [|y k IH]; simpl; [done|]. by f_equal.
  - intros y _. by rewrite bool_decide_eq_false_2 by set_solver.
Qed.

Lemma first_occurrences_before a b l :
  [a; b] `sublist_of` first_occurrences l → first_before a b l.
Proof.
  induction l as [|x l IH]; simpl; intros Hs.
  - by apply sublist_nil_r in Hs.
  - apply sublist_cons_r in Hs as [Hs|(l0 & [= <- <-] & Hs)].
    + assert (Hl : [a; b] `sublist_of` first_occurrences l).
      { etrans; [exact Hs|apply list_filter_sublist]. }
      assert (Ha : a ≠ x ∧ b ≠ x).
      { assert (Hin : ∀ y, y ∈ [a; b] → y ≠ x).
        { intros y Hy. eapply elem_of_sublist in Hy; [|exact Hs].
          apply list_elem_of_In, filter_In in Hy as [_ Hy].
          apply negb_true_iff, bool_decide_eq_false in Hy. done. }
        split; apply Hin; set_solver. }
      destruct (IH Hl) as (l1 & l2 & -> & Hna & Hnb).
      exists (x :: l1), l2. split; [done|]. destruct Ha. set_solver.
    + exists [], l. split; [done|]. set_solver.
Qed.

Lemma insert_desc_filter n x l :
  List.filter (λ e : list N * nat, snd e =? n) (insert_desc x l)
  = List.filter (λ e : list N * nat, snd e =? n) (x :: l).
Proof.
  induction l as [|y ys IH]; [done|].
  cbn [insert_desc]. destruct (snd x <? snd y) eqn:E; [|done].
  apply Nat.ltb_lt in E. cbn [List.filter]. rewrite IH. cbn [List.filter].
  destruct (snd x =? n) eqn:Ex; [|done].
  apply Nat.eqb_eq in Ex. destruct (snd y =? n) eqn:Ey; [|done].
  apply Nat.eqb_eq in Ey. lia.
Qed.

(** The sort is stable: entries with one count keep their order. *)
Lemma sorted_desc_filter n l :
  List.filter (λ e : list N * nat, snd e =? n) (sorted_desc l)
  = List.filter (λ e : list N * nat, snd e =? n) l.
Proof.
  induction l as [|x l IH]; [done|]. cbn [sorted_desc fold_right].
  fold (sorted_desc l). rewrite insert_desc_filter. cbn [List.filter].
  by rewrite IH.
Qed.

Lemma sorted_desc_stable a b n l :
  [(a, n); (b, n)] `sublist_of` sorted_desc l → [(a, n); (b, n)] `sublist_of` l.
Proof.
  intros Hs.
  apply (list_filter_sublist_mono (λ e : list N * nat, snd e =? n)) in Hs.
  rewrite sorted_desc_filter in Hs. cbn [List.filter snd] in Hs.
  rewrite Nat.eqb_refl in Hs. etrans; [exact Hs|apply list_filter_sublist].
Qed.

Lemma sorted_pair_outranks x y l :
  StronglySorted outranks l → [x; y] `sublist_of` l → outranks x y.
Proof.
  induction 1 as [|z l Hs IH Hall]; intros Hsub.
  - by apply sublist_nil_r in Hsub.
  - apply sublist_cons_r in Hsub as [Hsub|(l0 & [= <- <-] & Hsub)]; [auto|].
    apply singleton_sublist_l in Hsub.
    rewrite Forall_forall in Hall. by apply Hall.
Qed.

(** X1.  No keyword is a stop word, whatever the text and [top_k]. *)
Theorem extract_keywords_no_stop_word (text : list N) (top_k : Z) :
  Forall (λ w, w ∉ stop_words) (extract_keywords text top_k).
Proof.
  apply Forall_forall. intros w Hw.
  rewrite extract_keywords_candidates in Hw.
  apply most_common_keys in Hw. rewrite Counter_keys in Hw.
  apply candidates_no_stop_word in Hw.
  unfold in_set in Hw. by apply bool_decide_eq_false in Hw.
Qed.

(** X2.  The keywords are ranked by frequency among the counted words,
    and the ranking is stable: a keyword listed before another occurs at
    least as often, and when both occur equally often the first
    occurrence of the earlier one comes first. *)
Theorem extract_keywords_ranked (text : list N) (top_k : Z) (a b : list N) :
  [a; b] `sublist_of` extract_keywords text top_k →
  occurrences b (candidates text) ≤ occurrences a (candidates text)
  ∧ (occurrences a (candidates text) = occurrences b (candidates text) →
     first_before a b (candidates text)).
Proof.
  rewrite extract_keywords_candidates. unfold most_common. intros Hs.
  apply sublist_map_inv in Hs as (l' & Hl' & Hs).
  destruct l' as [|[a' na] [|[b' nb] [|? ?]]]; try discriminate.
  injection Hl' as <- <-.
  assert (Hsub : [(a, na); (b, nb)]
                 `sublist_of` sorted_desc (Counter (candidates text))).
  { etrans; [exact Hs|apply sublist_take]. }
  assert (Hin : ∀ e, e ∈ [(a, na); (b, nb)] → e ∈ Counter (candidates text)).
  { intros e He. eapply elem_of_sublist in He; [|exact Hsub].
    by rewrite (sorted_desc_perm (Counter (candidates text))) in He. }
  assert (Hna : na = occurrences a (candidates text)).
  { apply Counter_counts, Hin. set_solver. }
  assert (Hnb : nb = occurrences b (candidates text)).
  { apply Counter_counts, Hin. set_solver. }
  split.
  - pose proof (sorted_pair_outranks _ _ _
                  (sorted_desc_sorted (Counter (candidates text))) Hsub) as Ho.
    unfold outranks in Ho. simpl in Ho. lia.
  - intros Heq. apply first_occurrences_before.
    rewrite <- Counter_keys_order.
    assert (Hn : nb = na) by lia. clear Hna Hnb Heq. subst nb.
    apply sorted_desc_stable in Hsub.
    apply (fmap_sublist fst) in Hsub. exact Hsub.
Qed.

(** X3.  A smaller [top_k] gives a prefix of what a larger one gives. *)
Theorem extract_keywords_prefix (text : list N) (k k' : Z) :
  (k ≤ k')%Z →
  extract_keywords text k = take (Z.to_nat k) (extract_keywords text k').
Proof.
  intros Hk. rewrite !extract_keywords_candidates. unfold most_common.
  change (map fst) with (fmap (M:=list) (@fst (list N) nat)).
  rewrite <- fmap_take, take_take. f_equal. f_equal. lia.
Qed.

(** X4.  The number of keywords is [top_k] or the number of distinct
    counted words, whichever is smaller (none for a negative [top_k]). *)
Theorem extract_keywords_length (text : list N) (top_k : Z) :
  length (extract_keywords text top_k)
  = Z.to_nat top_k `min` length (first_occurrences (candidates text)).
Proof.
  rewrite extract_keywords_candidates. unfold most_common.
  rewrite length_map, length_take.
  rewrite (Permutation_length (sorted_desc_perm (Counter (candidates text)))).
  rewrite <- Counter_keys_order, length_map. done.
Qed.

End KeywordRanking.

(* ===================================================================== *)
(** ** [strip] *)
(* ===================================================================== *)

Section StripFacts.

Lemma lstrip_suffix s : ∃ p, s = p ++ lstrip s ∧ forallb isspace p = true.
Proof.
  induction s as [|c s (p & Hs & Hp)]; simpl.
  - by exists [].
  - destruct (isspace c) eqn:Hc.
    + exists (c :: p). simpl. rewrite Hc, Hp. split; [by f_equal|done].
    + by exists [].
Qed.

Lemma lstrip_fixed c s : isspace c = false → lstrip (c :: s) = c :: s.
Proof. intros Hc. simpl. by rewrite Hc. Qed.

(** The two ends of [s.strip()] are no whitespace. *)
Lemma strip_ends s x :
  head (strip s) = Some x ∨ last (strip s) = Some x → isspace x = false.
Proof.
  unfold strip, rstrip.
  destruct (lstrip s) as [|h t] eqn:Et; [by intros [|]|].
  pose proof (lstrip_head _ _ _ Et) as Hh.
  destruct (lstrip_suffix (rev (h :: t))) as (p & Hp & _).
  destruct (lstrip (rev (h :: t))) as [|u us] eqn:Eu.
  { cbn [rev] in Eu. by apply lstrip_snoc_nonspace in Eu. }
  pose proof (lstrip_head _ _ _ Eu) as Hu.
  apply (f_equal (@rev _)) in Hp.
  rewrite rev_involutive, rev_app_distr in Hp.
  intros [Hx|Hx].
  - destruct (rev (u :: us)) as [|y ys] eqn:Er.
    + apply (f_equal (@length _)) in Er. rewrite length_rev in Er. done.
    + cbn [head] in Hx. injection Hx as ->.
      cbn [app] in Hp. by injection Hp as -> _.
  - cbn [rev] in Hx. rewrite last_snoc in Hx. by injection Hx as ->.
Qed.

Lemma strip_fixed s :
  (∀ x, head s = Some x ∨ last s = Some x → isspace x = false) →
  strip s = s.
Proof.
  intros Hs. unfold strip, rstrip. destruct s as [|c s]; [done|].
  rewrite lstrip_fixed by (apply Hs; by left).
  destruct (rev (c :: s)) as [|y ys] eqn:Er.
  { apply (f_equal (@length _)) in Er. rewrite length_rev in Er. done. }
  assert (Hy : last (c :: s) = Some y).
  { rewrite <- (rev_involutive (c :: s)), Er. simpl. by rewrite last_snoc. }
  rewrite lstrip_fixed by (apply Hs; by right).
  by rewrite <- Er, rev_involutive.
Qed.

(** [strip] is idempotent. *)
Lemma strip_idemp s : strip (strip s) = strip s.
Proof. apply strip_fixed. apply strip_ends. Qed.

End StripFacts.

(* ===================================================================== *)
(** ** The gateway: requests and replies *)
(* ===================================================================== *)

Section GatewayMore.
Context `{Runtime} `{Settings}.
Import AzureLLMClient ModelConfig.

(** The system message the gateway sends: on the AI-inference backend a
    JSON request gets an instruction appended unless the prompt already
    holds the words "output JSON". *)
Definition sent_system_prompt (self : client) (system_prompt : list N)
  (response_format : option (list N)) : list N :=
  match api_type self with
  | azure_openai => system_prompt
  | azure_ai_inference =>
      if is_json response_format
         && negb (contains system_prompt (py "output JSON"))
      then system_prompt ++ py " Respond with a valid JSON object."
      else system_prompt
  end.

(** The request one attempt sends. *)
Definition sent_request (self : client) (prompt system_prompt : list N)
  (temperature : float) (max_tokens : Z) (response_format : option (list N))
  : request_params :=
  {| rp_model := model_name self;
     rp_messages :=
       [system_message (sent_system_prompt self system_prompt response_format);
        user_message prompt];
     rp_max_tokens := max_tokens;
     rp_temperature := temperature;
     rp_response_format :=
       match api_type self with
       | azure_openai =>
           if is_json response_format then Some (py "json_object") else None
       | azure_ai_inference => None
       end |}.

(** What the gateway makes of a reply of the endpoint. *)
Definition outcome_of_reply (timeout : float) (r : reply)
  : outcome (option (list N)) :=
  match reply_result r with
  | Ok response =>
      content ← first_content response;
      stripped ← content_strip content;
      Ok (Some stripped)
  | Raise e =>
      if bool_decide (exn_cls e = AsyncioTimeoutError)
      then Raise (timeout_error timeout)
      else Raise e
  end.

Lemma build_messages_openai_ok prompt sp :
  sp ≠ [] →
  _build_messages_openai prompt (Some sp)
  = Ok [system_message sp; user_message prompt].
Proof. intros Hsp. unfold _build_messages_openai. by destruct sp. Qed.

Lemma build_messages_ai_inference_ok prompt sp :
  sp ≠ [] →
  _build_messages_ai_inference prompt (Some sp)
  = Ok [system_message sp; user_message prompt].
Proof. intros Hsp. unfold _build_messages_ai_inference. by destruct sp. Qed.

(** With a system prompt and [max_retries >= 0], [call_llm] sends one
    request and its outcome is read off the reply to it. *)
Lemma call_llm_with_prompt self prompt sp temperature max_tokens
    response_format max_retries timeout w :
  sp ≠ [] → (0 ≤ max_retries)%Z →
  fst (call_llm self prompt (Some sp) temperature max_tokens response_format
         max_retries timeout w)
  = outcome_of_reply (effective_timeout self timeout)
      (llm_script w (length (llm_requests w)))
  ∧ llm_requests
      (snd (call_llm self prompt (Some sp) temperature max_tokens
              response_format max_retries timeout w))
    = llm_requests w
      ++ [sent_request self prompt sp temperature max_tokens response_format].
Proof.
  intros Hsp Hn. rewrite call_llm_one_attempt by done.
  unfold single_attempt, attempt, outcome_of_reply, sent_request,
    sent_system_prompt. fold (effective_timeout self timeout).
  destruct (api_type self).
  - rewrite build_messages_openai_ok by done.
    cbv [mbind io_bind lift mret io_ret].
    unfold _call_openai_with_timeout.
    destruct (reply_result _) as [response|e]; cbn [fst snd].
    + destruct (first_content response) as [content|e]; [|done].
      cbv [mbind outcome_bind]. by destruct (content_strip content).
    + destruct (bool_decide (exn_cls e = AsyncioTimeoutError)); [|done].
      by destruct (reply_task_done _).
  - rewrite build_messages_ai_inference_ok by done.
    cbv [mbind io_bind lift mret io_ret].
    rewrite call_ai_inference_with_timeout_eq.
    assert (Hrole : bool_decide (role (system_message sp) = py "system") = true)
      by (by apply bool_decide_eq_true_2).
    rewrite Hrole. cbn [andb content system_message].
    assert (Hmsgs :
      (if is_json response_format
       then if negb (contains sp (py "output JSON"))
            then system_message (sp ++ py " Respond with a valid JSON object.")
                 :: [user_message prompt]
            else [system_message sp; user_message prompt]
       else [system_message sp; user_message prompt])
      = [system_message
           (if is_json response_format
               && negb (contains sp (py "output JSON"))
            then sp ++ py " Respond with a valid JSON object." else sp);
         user_message prompt]).
    { destruct (is_json response_format), (contains sp (py "output JSON"));
        reflexivity. }
    rewrite Hmsgs. unfold _call_openai_with_timeout.
    destruct (reply_result _) as [response|e]; cbn [fst snd].
    + destruct (first_content response) as [content|e]; [|done].
      cbv [mbind outcome_bind]. by destruct (content_strip content).
    + destruct (bool_decide (exn_cls e = AsyncioTimeoutError)); [|done].
      by destruct (reply_task_done _).
Qed.

Lemma call_llm_without_prompt self prompt system_prompt temperature
    max_tokens response_format max_retries timeout w :
  system_prompt = None ∨ system_prompt = Some [] → (0 ≤ max_retries)%Z →
  ∃ msg, call_llm self prompt system_prompt temperature max_tokens
           response_format max_retries timeout w
         = (Raise (Exn ValueError msg), w).
Proof.
  intros Hsp Hn. rewrite call_llm_one_attempt by done.
  unfold single_attempt, attempt.
  destruct (api_type self), Hsp as [->| ->]; cbv; eauto.
Qed.

(** X5.  Without a system prompt ([None] or the empty string) and with
    [max_retries >= 0], [call_llm] raises [ValueError] and leaves the
    world as it was: the endpoint is not invoked. *)
Theorem call_llm_requires_system_prompt (self : client) (prompt : list N)
  (system_prompt : option (list N)) (temperature : float) (max_tokens : Z)
  (response_format : option (list N)) (max_retries : Z)
  (timeout : option float) (w : world) :
  system_prompt = None ∨ system_prompt = Some [] → (0 ≤ max_retries)%Z →
  ∃ msg, call_llm self prompt system_prompt temperature max_tokens
           response_format max_retries timeout w
         = (Raise (Exn ValueError msg), w).
Proof. apply call_llm_without_prompt. Qed.

(** X6.  The constructor accepts the model name "gpt4o" only, and a
    client it has built sends, with a system prompt and
    [max_retries >= 0], exactly one request: the system message first and
    unchanged, then the user message holding the prompt unchanged, with
    the response format [json_object] exactly for a "json" request. *)
Theorem constructed_client_request (model : list N) (timeout0 : float)
  (sdk : outcome unit) (self : client) (prompt sp : list N)
  (temperature : float) (max_tokens : Z) (response_format : option (list N))
  (max_retries : Z) (timeout : option float) (w : world) :
  __init__ model timeout0 sdk = Ok self → sp ≠ [] → (0 ≤ max_retries)%Z →
  model = py "gpt4o" ∧ default_timeout self = timeout0
  ∧ llm_requests
      (snd (call_llm self prompt (Some sp) temperature max_tokens
              response_format max_retries timeout w))
    = llm_requests w
      ++ [{| rp_model := AZURE_OPENAI_GPT_4O_MODEL_NAME;
             rp_messages := [system_message sp; user_message prompt];
             rp_max_tokens := max_tokens;
             rp_temperature := temperature;
             rp_response_format :=
               if bool_decide (response_format = Some (py "json"))
               then Some (py "json_object") else None |}].
Proof.
  intros Hinit Hsp Hn. unfold __init__, MODEL_CONFIG in Hinit.
  cbn [config_lookup] in Hinit.
  case_bool_decide as Hm; [|discriminate]. destruct sdk; [|discriminate].
  injection Hinit as <-. split; [done|]. split; [done|].
  by destruct (call_llm_with_prompt
                 {| api_type := azure_openai;
                    model_name := AZURE_OPENAI_GPT_4O_MODEL_NAME;
                    default_timeout := timeout0 |}
                 prompt sp temperature max_tokens response_format max_retries
                 timeout w Hsp Hn) as [_ ->].
Qed.

Lemma contains_prefix haystack needle :
  needle `prefix_of` haystack → contains haystack needle = true.
Proof.
  intros Hp. destruct haystack; simpl; by rewrite bool_decide_eq_true_2.
Qed.

(** X7.  On the AI-inference backend the request carries no response
    format.  The system message sent begins with the caller's system
    prompt; for a "json" request it holds the words "output JSON" or ends
    with the appended instruction, and otherwise it is the prompt
    itself. *)
Theorem ai_inference_json_instruction (self : client) (prompt sp : list N)
  (temperature : float) (max_tokens : Z) (response_format : option (list N))
  (max_retries : Z) (timeout : option float) (w : world) :
  api_type self = azure_ai_inference → sp ≠ [] → (0 ≤ max_retries)%Z →
  ∃ sent,
    llm_requests
      (snd (call_llm self prompt (Some sp) temperature max_tokens
              response_format max_retries timeout w))
    = llm_requests w
      ++ [{| rp_model := model_name self;
             rp_messages := [system_message sent; user_message prompt];
             rp_max_tokens := max_tokens;
             rp_temperature := temperature;
             rp_response_format := None |}]
    ∧ sp `prefix_of` sent
    ∧ (response_format = Some (py "json") →
       contains sent (py "output JSON") = true
       ∨ py " Respond with a valid JSON object." `suffix_of` sent)
    ∧ (response_format ≠ Some (py "json") → sent = sp).
Proof.
  intros Hapi Hsp Hn.
  destruct (call_llm_with_prompt self prompt sp temperature max_tokens
              response_format max_retries timeout w Hsp Hn) as [_ Hlog].
  unfold sent_request, sent_system_prompt in Hlog. rewrite Hapi in Hlog.
  eexists. split; [exact Hlog|]. unfold is_json. split; [|split].
  - destruct (_ && _); [by apply prefix_app_r|done].
  - intros ->. rewrite bool_decide_eq_true_2 by done. simpl.
    destruct (contains sp (py "output JSON")) eqn:Ec; simpl; [by left|].
    right. by apply suffix_app_r.
  - intros Hne. by rewrite bool_decide_eq_false_2.
Qed.

(** X8.  What [call_llm] returns is stripped: stripping it again changes
    nothing, and neither of its ends is whitespace. *)
Theorem call_llm_result_stripped (self : client) (prompt : list N)
  (system_prompt : option (list N)) (temperature : float) (max_tokens : Z)
  (response_format : option (list N)) (max_retries : Z)
  (timeout : option float) (w w' : world) (c : list N) :
  call_llm self prompt system_prompt temperature max_tokens response_format
    max_retries timeout w = (Ok (Some c), w') →
  strip c = c
  ∧ ∀ x, head c = Some x ∨ last c = Some x → isspace x = false.
Proof.
  intros Hcall.
  assert (Hn : (0 ≤ max_retries)%Z).
  { destruct (Z.lt_ge_cases max_retries 0) as [Hneg|]; [|done].
    unfold call_llm in Hcall. rewrite range_nonpositive in Hcall by lia.
    discriminate. }
  assert (Hc : ∃ s, c = strip s).
  { destruct system_prompt as [[|a sp]|].
    - destruct (call_llm_without_prompt self prompt (Some []) temperature
                  max_tokens response_format max_retries timeout w)
        as [msg Hr]; [by right|done|congruence].
    - destruct (call_llm_with_prompt self prompt (a :: sp) temperature
                  max_tokens response_format max_retries timeout w)
        as [Hout _]; [done|done|].
      rewrite Hcall in Hout. simpl in Hout. unfold outcome_of_reply in Hout.
      destruct (reply_result _) as [response|e].
      + destruct response as [|[s|] rest]; try discriminate.
        injection Hout as ->. by exists s.
      + by case_bool_decide.
    - destruct (call_llm_without_prompt self prompt None temperature
                  max_tokens response_format max_retries timeout w)
        as [msg Hr]; [by left|done|congruence]. }
  destruct Hc as [s ->]. split; [apply strip_idemp|apply strip_ends].
Qed.

(** X9.  With a system prompt and [max_retries >= 0]: a response without
    choices makes [call_llm] raise [IndexError], one whose first choice
    has no content makes it raise [AttributeError], and otherwise the
    stripped content of the first choice is returned, whatever the other
    choices are. *)
Theorem call_llm_reads_first_choice (self : client) (prompt sp : list N)
  (temperature : float) (max_tokens : Z) (response_format : option (list N))
  (max_retries : Z) (timeout : option float) (w : world)
  (response : list (option (list N))) :
  sp ≠ [] → (0 ≤ max_retries)%Z →
  reply_result (llm_script w (length (llm_requests w))) = Ok response →
  fst (call_llm self prompt (Some sp) temperature max_tokens response_format
         max_retries timeout w)
  = match response with
    | [] => Raise (Exn IndexError (py "list index out of range"))
    | None :: _ =>
        Raise (Exn AttributeError
                 (py "'NoneType' object has no attribute 'strip'"))
    | Some s :: _ => Ok (Some (strip s))
    end.
Proof.
  intros Hsp Hn Hr.
  destruct (call_llm_with_prompt self prompt sp temperature max_tokens
              response_format max_retries timeout w Hsp Hn) as [-> _].
  unfold outcome_of_reply. rewrite Hr. by destruct response as [|[s|] rest].
Qed.

(** X10.  With a system prompt and [max_retries >= 0]: when awaiting the
    first call gives [asyncio.TimeoutError], [call_llm] raises
    [LLMTimeoutError] whose message names the timeout in force, the
    argument or else the client's default. *)
Theorem call_llm_timeout_error (self : client) (prompt sp : list N)
  (temperature : float) (max_tokens : Z) (response_format : option (list N))
  (max_retries : Z) (timeout : option float) (w : world) (e : exn) :
  sp ≠ [] → (0 ≤ max_retries)%Z →
  reply_result (llm_script w (length (llm_requests w))) = Raise e →
  exn_cls e = AsyncioTimeoutError →
  fst (call_llm self prompt (Some sp) temperature max_tokens response_format
         max_retries timeout w)
  = Raise (Exn LLMTimeoutError
             (py "LLM call timed out after "
              ++ float_str (match timeout with
                            | Some t => t
                            | None => default_timeout self
                            end)
              ++ py " seconds")).
Proof.
  intros Hsp Hn Hr He.
  destruct (call_llm_with_prompt self prompt sp temperature max_tokens
              response_format max_retries timeout w Hsp Hn) as [-> _].
  unfold outcome_of_reply. rewrite Hr, bool_decide_eq_true_2 by done.
  unfold timeout_error, effective_timeout. by destruct timeout.
Qed.

End GatewayMore.

(* ===================================================================== *)
(** ** The service, the reads and the endpoints *)
(* ===================================================================== *)

Section ServiceMore.
Context `{Runtime} `{Settings}.
Import AnalysisService.

(** What [analyze_text] does on a text that is not blank. *)
Lemma analyze_text_unfold self text w :
  blank text = false →
  analyze_text self text w
  = match compose_record self text w with
    | (Ok data, w1) =>
        match create_analysis data w1 with
        | (Ok db_analysis, w2) => (Ok (from_orm db_analysis), w2)
        | (Raise e, w2) => (Raise (analysis_failed e), w2)
        end
    | (Raise e, w1) => (Raise (analysis_failed e), w1)
    end.
Proof.
  intros Hb. unfold analyze_text. rewrite (blank_false_truthy text Hb).
  unfold io_try. cbv [mbind io_bind mret io_ret lift].
  destruct (compose_record self text w) as [[data|e] w1]; [|done].
  by destruct (create_analysis data w1) as [[row|e] w2].
Qed.

(** X11.  On a text that is not blank, whatever goes wrong in
    [analyze_text] is raised as a plain [Exception] whose message is
    "Analysis failed: " followed by the text of the cause: the class of
    the cause is not kept. *)
Theorem analyze_text_wraps_failures (self : service) (text : list N)
  (w : world) (err : exn) :
  blank text = false →
  fst (analyze_text self text w) = Raise err →
  ∃ cause, err = Exn PlainException (py "Analysis failed: " ++ exn_str cause).
Proof.
  intros Hb. rewrite analyze_text_unfold by done.
  destruct (compose_record self text w) as [[data|e] w1]; simpl.
  - destruct (create_analysis data w1) as [[row|e] w2]; simpl; [done|].
    intros [= <-]. by exists e.
  - intros [= <-]. by exists e.
Qed.

(** X12.  When the LLM call of [analyze_text] times out, the caller gets
    a plain [Exception] with the message "Analysis failed: LLM call timed
    out after <120.0> seconds" (not an [LLMTimeoutError]), and nothing is
    committed or stored. *)
Theorem analyze_text_timeout (text : list N) (w : world) (e : exn) :
  blank text = false →
  reply_result (llm_script w (length (llm_requests w))) = Raise e →
  exn_cls e = AsyncioTimeoutError →
  fst (analyze_text init text w)
  = Raise (Exn PlainException
             (py "Analysis failed: LLM call timed out after "
              ++ float_str 120 ++ py " seconds"))
  ∧ db_rows (snd (analyze_text init text w)) = db_rows w
  ∧ db_commits (snd (analyze_text init text w)) = db_commits w.
Proof.
  intros Hb Hr He. rewrite analyze_text_unfold by done.
  unfold compose_record. cbv [mbind io_bind]. rewrite call_llm_analysis.
  unfold AzureLLMClient._call_openai_with_timeout. rewrite Hr.
  rewrite bool_decide_eq_true_2 by done.
  destruct (reply_task_done _); by repeat split.
Qed.

(** A call that returns has appended the row its response is read
    from. *)
Lemma analyze_text_returns self text w response w' :
  analyze_text self text w = (Ok response, w') →
  ∃ row, db_rows w' = db_rows w ++ [row]
         ∧ response = from_orm row
         ∧ original_text (row_data row) = text.
Proof.
  destruct (blank text) eqn:Hb.
  { by rewrite analyze_text_blank. }
  rewrite analyze_text_unfold by done.
  pose proof (compose_record_storage self text w) as (Hrows & _).
  destruct (compose_record self text w) as [[data|e] w1] eqn:Ec;
    [|discriminate]. simpl in Hrows.
  apply compose_record_keywords in Ec as [_ Ht].
  unfold create_analysis.
  destruct (db_script w1 (db_commits w1)) as [[id created]|e];
    [|discriminate].
  intros [= <- <-]. eexists. split; [simpl; by rewrite Hrows|]. by split.
Qed.


(** pydantic accepts a value of the declared type as it is. *)
Definition accepts_declared_types : Prop :=
  (∀ x, field_str (JStr x) = Ok x)
  ∧ (∀ x, field_opt_str (JStr x) = Ok (Some x))
  ∧ field_opt_str JNull = Ok None
  ∧ field_list_str (JList []) = Ok [].

Definition field_or (default : json) (key : list N)
  (d : list (list N * json)) : json :=
  match dict_lookup key d with Some x => x | None => default end.

(** The four fields of a composed record are the validated values of
    the reply's JSON object, or of the defaults. *)
Lemma compose_record_fields text w r w' s rest d :
  compose_record init text w = (Ok r, w') →
  reply_result (llm_script w (length (llm_requests w))) = Ok (Some s :: rest) →
  json_loads (strip s) = Ok (JDict d) →
  field_str (field_or (JStr (py "No summary available")) (py "summary") d)
  = Ok (summary r)
  ∧ field_opt_str (field_or JNull (py "title") d) = Ok (title r)
  ∧ field_list_str (field_or (JList []) (py "topics") d) = Ok (topics r)
  ∧ field_str (field_or (JStr (py "neutral")) (py "sentiment") d)
    = Ok (sentiment r).
Proof.
  intros Hc Hr Hj. revert Hc.
  unfold compose_record. cbv [mbind io_bind]. rewrite call_llm_analysis.
  unfold AzureLLMClient._call_openai_with_timeout. rewrite Hr.
  cbn [AzureLLMClient.first_content AzureLLMClient.content_strip
       mbind outcome_bind lift loads]. rewrite Hj.
  cbv [lift mbind io_bind outcome_bind mret io_ret outcome_ret].
  destruct (_calculate_confidence_score _ _ _) as [score|e]; [|discriminate].
  cbn [py_get]. fold (field_or (JStr (py "No summary available")) (py "summary") d).
  fold (field_or JNull (py "title") d).
  fold (field_or (JList []) (py "topics") d).
  fold (field_or (JStr (py "neutral")) (py "sentiment") d).
  unfold new_TextAnalysisCreate.
  cbv [mbind outcome_bind mret outcome_ret].
  destruct (field_str (field_or _ (py "summary") d)); [|discriminate].
  destruct (field_opt_str _); [|discriminate].
  destruct (field_list_str _); [|discriminate].
  destruct (field_str (field_or _ (py "sentiment") d)); [|discriminate].
  by intros [= <- <-].
Qed.

(** X14.  The record composed from a reply that is a JSON object takes
    [summary], [title] and [sentiment] from the object where it has them
    as strings, and uses "No summary available", [None], [[]] and
    "neutral" for the keys the object lacks; a [title] that is [null]
    stays [None]. *)
Theorem compose_record_defaults (text : list N) (w w' : world)
  (r : TextAnalysisCreate) (s : list N) (rest : list (option (list N)))
  (d : list (list N * json)) :
  accepts_declared_types →
  compose_record init text w = (Ok r, w') →
  reply_result (llm_script w (length (llm_requests w))) = Ok (Some s :: rest) →
  json_loads (strip s) = Ok (JDict d) →
  (dict_lookup (py "summary") d = None →
     summary r = py "No summary available")
  ∧ (∀ x, dict_lookup (py "summary") d = Some (JStr x) → summary r = x)
  ∧ (dict_lookup (py "title") d = None → title r = None)
  ∧ (dict_lookup (py "title") d = Some JNull → title r = None)
  ∧ (∀ x, dict_lookup (py "title") d = Some (JStr x) → title r = Some x)
  ∧ (dict_lookup (py "topics") d = None → topics r = [])
  ∧ (dict_lookup (py "sentiment") d = None → sentiment r = py "neutral")
  ∧ (∀ x, dict_lookup (py "sentiment") d = Some (JStr x) → sentiment r = x).
Proof.
  intros (Hs & Hos & Hon & Hl) Hc Hr Hj.
  destruct (compose_record_fields text w r w' s rest d Hc Hr Hj)
    as (Fs & Ft & Fp & Fn).
  unfold field_or in *.
  repeat split.
  - intros E. rewrite E, Hs in Fs. by injection Fs.
  - intros x E. rewrite E, Hs in Fs. by injection Fs.
  - intros E. rewrite E, Hon in Ft. by injection Ft.
  - intros E. rewrite E, Hon in Ft. by injection Ft.
  - intros x E. rewrite E, Hos in Ft. by injection Ft.
  - intros E. rewrite E, Hl in Fp. by injection Fp.
  - intros E. rewrite E, Hs in Fn. by injection Fn.
  - intros x E. rewrite E, Hs in Fn. by injection Fn.
Qed.

End ServiceMore.

Section LookupFacts.
Context `{Runtime} `{Settings}.
Import AnalysisService.

Lemma list_filter_none {A} (f : A → bool) (l : list A) :
  (∀ x, x ∈ l → f x = false) → List.filter f l = [].
Proof.
  induction l as [|a l IH]; intros Hl; simpl; [done|].
  rewrite (Hl a) by left. apply IH. intros x Hx. apply Hl. by right.
Qed.

Lemma get_analysis_by_id_fresh w row :
  (∀ r, r ∈ db_rows w → row_id r ≠ row_id row) →
  ∀ w', db_rows w' = db_rows w ++ [row] →
  AnalysisDAO.get_analysis_by_id None (row_id row) w' = Ok (Some row).
Proof.
  intros Hfresh w' Hrows. unfold AnalysisDAO.get_analysis_by_id.
  rewrite Hrows, List.filter_app, list_filter_none.
  - simpl. by rewrite Z.eqb_refl.
  - intros r Hr. apply Z.eqb_neq. by apply Hfresh.
Qed.

(** X15.  Round trip of storing and reading: when [analyze_text] returns
    a response and no earlier row has the id storage assigned, reading
    that id back (DAO, service and [GET /analysis/{id}]) gives the row
    and the very response that was returned. *)
Theorem analysis_read_back (self : service) (text : list N)
  (w w' : world) (response : TextAnalysisResponse) :
  analyze_text self text w = (Ok response, w') →
  (∀ r, r ∈ db_rows w → row_id r ≠ resp_id response) →
  (∃ row, AnalysisDAO.get_analysis_by_id None (resp_id response) w'
          = Ok (Some row)
          ∧ original_text (row_data row) = text)
  ∧ AnalysisLookup.get_analysis None (resp_id response) w'
    = Ok (Some response)
  ∧ AnalysisEndpoints.get_analysis None (resp_id response) w' = Ok response.
Proof.
  intros Ha Hfresh.
  destruct (analyze_text_returns self text w response w' Ha)
    as (row & Hrows & -> & Ht).
  cbn [from_orm resp_id] in *.
  pose proof (get_analysis_by_id_fresh w row Hfresh w' Hrows) as Hget.
  split; [by exists row|].
  unfold AnalysisEndpoints.get_analysis, AnalysisLookup.get_analysis.
  by rewrite Hget.
Qed.

(** X16.  [GET /analysis/{id}] answers a missing id with 404 "Analysis not
    found"; when the query itself fails with an exception that is no
    [HTTPException], and when several rows have the id, it answers 500
    with the text of the exception; it raises nothing else. *)
Theorem get_analysis_status (fault : option exn) (analysis_id : Z)
  (w : world) :
  (fault = None → (∀ r, r ∈ db_rows w → row_id r ≠ analysis_id) →
     AnalysisEndpoints.get_analysis fault analysis_id w
     = Raise (AnalysisEndpoints.http_error 404 (py "Analysis not found")))
  ∧ (∀ cause, fault = Some cause →
       AnalysisEndpoints.is_HTTPException cause = false →
       AnalysisEndpoints.get_analysis fault analysis_id w
       = Raise (AnalysisEndpoints.http_error 500 (exn_str cause)))
  ∧ (∀ e, (∀ cause, fault = Some cause →
             AnalysisEndpoints.is_HTTPException cause = false) →
       AnalysisEndpoints.get_analysis fault analysis_id w = Raise e →
       exn_cls e = HTTPException 404 ∨ exn_cls e = HTTPException 500).
Proof.
  unfold AnalysisEndpoints.get_analysis, AnalysisLookup.get_analysis,
    AnalysisDAO.get_analysis_by_id.
  split; [|split].
  - intros -> Hno. rewrite list_filter_none; [done|].
    intros r Hr. apply Z.eqb_neq. by apply Hno.
  - intros cause -> Hc. cbn [mbind outcome_bind]. by rewrite Hc.
  - intros e Hf. destruct fault as [cause|].
    + cbn [mbind outcome_bind]. rewrite (Hf cause eq_refl).
      intros [= <-]. by right.
    + destruct (List.filter _ _) as [|a [|b l]]; cbn.
      * intros [= <-]. by left.
      * discriminate.
      * intros [= <-]. by right.
Qed.

End LookupFacts.

Section RequestFacts.
Context `{Runtime} `{Settings}.
Import TextAnalysisRequest.

Lemma blank_strip text : blank (strip text) = blank text.
Proof.
  destruct (blank text) eqn:Hb.
  - apply strip_nil_iff in Hb. by rewrite Hb.
  - destruct (blank (strip text)) eqn:Hs; [|done].
    apply strip_nil_iff in Hs. rewrite strip_idemp in Hs.
    apply strip_nil_iff in Hs. unfold blank in Hb. congruence.
Qed.

Lemma text_must_not_be_empty_cases v :
  text_must_not_be_empty v
  = if blank v then Raise (Exn ValueError (py "Text cannot be empty"))
    else Ok (strip v).
Proof.
  unfold text_must_not_be_empty. destruct (blank v) eqn:Hb.
  - apply strip_nil_iff in Hb. rewrite Hb. simpl. by rewrite orb_true_r.
  - by rewrite blank_false_truthy.
Qed.

(** X17.  The validator of [TextAnalysisRequest.text] rejects exactly the
    texts that are empty or all whitespace, with [ValueError]("Text
    cannot be empty"); an accepted text is replaced by its [strip()],
    which is not empty, has no whitespace at either end, and is accepted
    unchanged when validated again. *)
Theorem text_validator_normalizes (v : list N) :
  (blank v = true →
     text_must_not_be_empty v
     = Raise (Exn ValueError (py "Text cannot be empty")))
  ∧ (blank v = false →
       ∃ t, text_must_not_be_empty v = Ok t
            ∧ t = strip v
            ∧ t ≠ []
            ∧ (∀ x, head t = Some x ∨ last t = Some x → isspace x = false)
            ∧ text_must_not_be_empty t = Ok t).
Proof.
  rewrite text_must_not_be_empty_cases. split; intros Hb; rewrite Hb; [done|].
  exists (strip v). split; [done|]. split; [done|].
  split; [by apply blank_false_strip|]. split; [apply strip_ends|].
  rewrite text_must_not_be_empty_cases, blank_strip, Hb.
  by rewrite strip_idemp.
Qed.

(** X18.  [POST /analyze] on a validated request never answers 400: the
    service's own check cannot fire on a validated text, and every other
    failure reaches the endpoint as the plain [Exception] of
    [analyze_text], so the answer is 500 with the detail
    "Analysis failed: ...".  A blank text handed to the endpoint without
    validation is answered 400 "Text cannot be empty" and the world is
    left as it was. *)
Theorem analyze_endpoint_status (v : list N) (w : world) :
  (∀ t e, text_must_not_be_empty v = Ok t →
     fst (AnalysisEndpoints.analyze_text t w) = Raise e →
     ∃ cause,
       e = AnalysisEndpoints.http_error 500
             (py "Analysis failed: " ++ exn_str cause))
  ∧ (∀ t response, text_must_not_be_empty v = Ok t →
       fst (AnalysisEndpoints.analyze_text t w) = Ok response ↔
       fst (AnalysisService.analyze_text AnalysisService.init t w)
       = Ok response)
  ∧ (blank v = true →
       AnalysisEndpoints.analyze_text v w
       = (Raise (AnalysisEndpoints.http_error 400 (py "Text cannot be empty")),
          w)).
Proof.
  split; [|split].
  - intros t e Hv. rewrite text_must_not_be_empty_cases in Hv.
    destruct (blank v) eqn:Hb; [discriminate|]. injection Hv as <-.
    unfold AnalysisEndpoints.analyze_text.
    rewrite analyze_text_unfold by (by rewrite blank_strip).
    destruct (AnalysisService.compose_record _ _ w) as [[data|c] w1]; simpl.
    + destruct (AnalysisService.create_analysis data w1) as [[row|c] w2];
        simpl; [done|]. intros [= <-]. by exists c.
    + intros [= <-]. by exists c.
  - intros t response _. unfold AnalysisEndpoints.analyze_text.
    destruct (AnalysisService.analyze_text _ t w) as [[result|c] w1]; simpl;
      [done|]. destruct (AnalysisEndpoints.is_ValueError c); simpl;
      split; discriminate.
  - intros Hb. unfold AnalysisEndpoints.analyze_text.
    by rewrite analyze_text_blank.
Qed.

End RequestFacts.

(* ===================================================================== *)
(** ** The values of the confidence score *)
(* ===================================================================== *)

Section ScoreValues.
Context `{Runtime} `{Settings}.
Import AnalysisService.

(** The values the score can take. *)
Definition score_grid : list float :=
  [0.1; 0.15; 0.25; 0.35; 0.4; 0.5; 0.6; 0.65; 0.75; 0.85; 0.9; 1]%float.

Lemma score_of_grid b s t k :
  py_round2 (score_of b s t k) ∈ score_grid
  ∧ (py_round2 (score_of b s t k) = 1%float
     ↔ 2 ≤ b ∧ s = true ∧ t = true ∧ k = true).
Proof.
  assert (Hne : ∀ x : float, PrimFloat.eqb x 1 = false → x ≠ 1%float).
  { intros x Hx ->. vm_compute in Hx. discriminate Hx. }
  destruct b as [|[|b]], s, t, k;
    (split;
     [vm_compute; repeat (first [by left | right])
     |split;
      [intros E; exfalso; revert E; apply Hne; vm_compute; reflexivity
      |intros (? & ? & ? & ?); (lia || discriminate)]]) ||
    (split;
     [vm_compute; repeat (first [by left | right])
     |split; [intros _; repeat split; lia|intros _; vm_compute; reflexivity]]).
Qed.

Lemma length_bracket_top text : 2 ≤ length_bracket text ↔ 100 < length text.
Proof.
  unfold length_bracket, len.
  destruct (Z.ltb_spec 100 (Z.of_nat (length text))); [split; lia|].
  destruct (Z.ltb_spec 50 (Z.of_nat (length text))); split; lia.
Qed.

(** X26.  The confidence score is one of twelve values between 0.1 and
    1.0, and it is 1.0 exactly when scoring ran without a fault, the text
    is longer than 100 characters, the summary is present and longer
    than 10 characters once trimmed, and neither the topics nor the
    keywords are empty. *)
Theorem confidence_score_values (text : list N) (llm_result : json)
  (keywords : list (list N)) :
  ∃ v, _calculate_confidence_score text llm_result keywords = Ok v
       ∧ v ∈ score_grid
       ∧ (v = 1%float
          ↔ is_ok (score_body text llm_result keywords) = true
            ∧ 100 < length text
            ∧ summary_holds llm_result = true
            ∧ topics_hold llm_result = true
            ∧ keywords ≠ []).
Proof.
  assert (Hk : keywords_hold keywords = true ↔ keywords ≠ [])
    by (by destruct keywords).
  destruct (calculate_cases text llm_result keywords) as [[Hf ->]|[Hok ->]].
  - exists 0.5%float. split; [done|]. split.
    + unfold score_grid. do 5 right. left.
    + split.
      * intros E. apply (f_equal (λ x, PrimFloat.eqb x 1)) in E.
        vm_compute in E. discriminate E.
      * intros (Hok & _). congruence.
  - eexists. split; [done|].
    destruct (score_of_grid (length_bracket text) (summary_holds llm_result)
                (topics_hold llm_result) (keywords_hold keywords))
      as [Hg Hone].
    split; [exact Hg|]. rewrite Hone, length_bracket_top, Hk. tauto.
Qed.

End ScoreValues.

(* ===================================================================== *)
(** ** The batch pass, step by step *)
(* ===================================================================== *)

Section BatchMore.
Context `{Runtime} `{Settings}.
Import TextAnalyzerApi.

(** The loop over [t1 ++ t2] is the loop over [t1] followed by the loop
    over [t2]. *)
Lemma process_texts_app service batch_id t1 t2 : ∀ a,
  process_texts service batch_id (t1 ++ t2) a
  = match process_texts service batch_id t1 a with
    | (Ok _, a') => process_texts service batch_id t2 a'
    | (Raise e, a') => (Raise e, a')
    end.
Proof.
  induction t1 as [|t t1 IH]; intros a; simpl; [done|].
  destruct (process_text service batch_id t a) as [[u|e] a1]; [apply IH|done].
Qed.

(** X19.  Progress of a batch: when the pass over a submitted batch has
    handled the first texts [done] and [todo] are still to come, a poll
    answers "processing" with the total of the submission and with
    success and failure counts that add up to the number of texts
    handled; the pass then goes on from that state. *)
Theorem batch_progress (batch_id : list N) (now : Z)
  (done todo : list (list N)) (a : app) :
  let submitted := snd (batch_analyze_texts batch_id now (done ++ todo) a) in
  ∃ (a1 : app) (polled : BatchResult),
    process_texts AnalysisService.init batch_id done submitted = (Ok tt, a1)
    ∧ get_batch_results batch_id a1 = Ok polled
    ∧ br_status polled = py "processing"
    ∧ br_total polled = Z.of_nat (length (done ++ todo))
    ∧ (br_success_count polled + br_failure_count polled)%Z
      = Z.of_nat (length done)
    ∧ process_batch batch_id (done ++ todo) submitted
      = match process_texts AnalysisService.init batch_id todo a1 with
        | (Ok _, a2) => set_status batch_id (py "completed") a2
        | (Raise e, a2) => (Raise e, a2)
        end.
Proof.
  cbv zeta. unfold batch_analyze_texts. cbn [snd].
  match goal with |- context [process_texts _ _ done ?a0] =>
    destruct (process_texts_run batch_id done a0
                {| status := py "processing"; successful := []; failed := [];
                   total := Z.of_nat (length (done ++ todo));
                   created_at := now |})
      as (rs & a1 & Hrun & Hrs & Hm & _)
  end.
  { apply lookup_insert_eq. }
  pose proof (successes_failures_length rs) as Hlen.
  rewrite <- (Forall2_length _ _ _ Hrs) in Hlen.
  exists a1. eexists. split; [exact Hrun|].
  split.
  { unfold get_batch_results. rewrite Hm. cbn [batch_results set_batch_results].
    rewrite lookup_insert_eq. reflexivity. }
  cbn [br_status br_total br_success_count br_failure_count with_results
       status successful failed total List.app].
  split; [done|]. split; [done|]. split; [lia|].
  unfold process_batch. by rewrite process_texts_app, Hrun.
Qed.

(** X20.  A pass for an id that [batch_results] does not hold ends with
    [KeyError] at its first write and leaves [batch_results] as it was.
    The first text, when it is not blank, has been analysed by then; no
    later text is looked at. *)
Theorem process_batch_unknown_id (batch_id : list N)
  (texts : list (list N)) (a : app) :
  batch_results a !! batch_id = None →
  fst (process_batch batch_id texts a) = Raise (key_error batch_id)
  ∧ batch_results (snd (process_batch batch_id texts a)) = batch_results a
  ∧ llm_requests (env (snd (process_batch batch_id texts a)))
    = llm_requests (env a)
      ++ match texts with
         | text :: _ => if blank text then [] else [analysis_request text]
         | [] => []
         end.
Proof.
  intros Hno. unfold process_batch. destruct texts as [|text rest].
  - simpl. unfold set_status. rewrite Hno. simpl. by rewrite app_nil_r.
  - cbn [process_texts]. unfold process_text, process_try.
    destruct (blank text) eqn:Hb.
    + pose proof Hb as Hs. apply strip_nil_iff in Hs. rewrite Hs. simpl.
      unfold append_failed. rewrite Hno. simpl. rewrite Hno. simpl.
      by rewrite app_nil_r.
    + pose proof (blank_false_strip text Hb) as Hs.
      destruct (strip text) as [|c l] eqn:Es; [done|]. simpl.
      pose proof (analyze_text_effect text (env a) Hb) as (Hlog & _).
      destruct (AnalysisService.analyze_text AnalysisService.init text (env a))
        as [[result|e] w]; simpl in Hlog.
      * unfold append_successful. simpl. rewrite Hno.
        unfold append_failed. simpl. rewrite Hno. by simpl.
      * unfold append_failed. simpl. rewrite Hno. by simpl.
Qed.

(** X21.  What one text of a batch leaves in the entry.  A text that is
    not blank and whose analysis returns is appended to [successful] as
    returned.  When its analysis raises, [failed] gets the message
    "Text '<first 50 characters>...': Analysis failed: <cause>"; the dots
    are there whether or not the text was cut. *)
Theorem batch_item_outcome (batch_id text : list N) (a : app)
  (j : batch_job) :
  batch_results a !! batch_id = Some j →
  blank text = false →
  ∃ a', process_text AnalysisService.init batch_id text a = (Ok tt, a')
    ∧ env a' = snd (AnalysisService.analyze_text AnalysisService.init text
                      (env a))
    ∧ match fst (AnalysisService.analyze_text AnalysisService.init text
                   (env a)) with
      | Ok result =>
          batch_results a' !! batch_id
          = Some {| status := status j;
                    successful := successful j ++ [result];
                    failed := failed j;
                    total := total j;
                    created_at := created_at j |}
      | Raise _ =>
          ∃ cause,
            batch_results a' !! batch_id
            = Some {| status := status j;
                      successful := successful j;
                      failed :=
                        failed j
                        ++ [py "Text '" ++ firstn 50 text
                            ++ py "...': Analysis failed: " ++ exn_str cause];
                      total := total j;
                      created_at := created_at j |}
      end.
Proof.
  intros Hj Hb. unfold process_text, process_try.
  pose proof (blank_false_strip text Hb) as Hs.
  destruct (strip text) as [|c l] eqn:Es; [done|]. cbn [truthy_str negb].
  pose proof (analyze_text_unfold AnalysisService.init text (env a) Hb) as Hu.
  destruct (AnalysisService.analyze_text AnalysisService.init text (env a))
    as [[result|e] w] eqn:Ea.
  - unfold append_successful. cbn [batch_results set_env]. rewrite Hj.
    eexists. split; [reflexivity|]. split; [done|].
    cbn [fst batch_results set_batch_results]. by rewrite lookup_insert_eq.
  - assert (∃ cause, e = AnalysisService.analysis_failed cause)
      as [cause ->].
    { destruct (AnalysisService.compose_record _ _ _) as [[data|c1] w1].
      - destruct (AnalysisService.create_analysis data w1) as [[row|c2] w2];
          [discriminate|]. injection Hu as -> _. by exists c2.
      - injection Hu as -> _. by exists c1. }
    unfold append_failed. cbn [batch_results set_env]. rewrite Hj.
    eexists. split; [reflexivity|]. split; [done|].
    cbn [fst]. exists cause.
    cbn [batch_results set_batch_results]. rewrite lookup_insert_eq.
    unfold failure_message, str_prefix, AnalysisService.analysis_failed.
    cbn [exn_str exn_msg]. reflexivity.
Qed.

End BatchMore.

(* ===================================================================== *)
(** ** Authentication *)
(* ===================================================================== *)

Section AuthFacts.
Context `{Runtime}.
Import Auth.

Lemma partition_space_app scheme token :
  32%N ∉ scheme →
  partition_space (scheme ++ (32%N :: token)) = (scheme, [32%N], token).
Proof.
  induction scheme as [|c scheme IH]; intros Hs; [done|].
  cbn [List.app partition_space].
  destruct (c =? 32)%N eqn:Ec.
  - apply N.eqb_eq in Ec. subst c. exfalso. apply Hs. left.
  - rewrite IH; [done|]. intros Hin. apply Hs. by right.
Qed.

Lemma partition_space_no_space s :
  32%N ∉ s → partition_space s = (s, [], []).
Proof.
  induction s as [|c s IH]; intros Hs; [done|]. cbn [partition_space].
  destruct (c =? 32)%N eqn:Ec.
  - apply N.eqb_eq in Ec. subst c. exfalso. apply Hs. left.
  - rewrite IH; [done|]. intros Hin. apply Hs. by right.
Qed.

(** X22.  Reading the [Authorization] header: a header "<scheme>
    <token>", the scheme holding no space, gives the token exactly when
    the scheme is "bearer" in any case of letters, and the token is all
    that follows the first space, unchanged; a header without a space
    whose text is a "bearer" gives the empty token; no header, an empty
    header or another scheme give [None]. *)
Theorem bearer_header_token (scheme token : list N) :
  32%N ∉ scheme →
  __call__ (Some (scheme ++ (32%N :: token)))
  = (if bool_decide (str_lower scheme = py "bearer") then Some token else None)
  ∧ (scheme ≠ [] →
     __call__ (Some scheme)
     = if bool_decide (str_lower scheme = py "bearer") then Some [] else None)
  ∧ __call__ (Some []) = None
  ∧ __call__ None = None.
Proof.
  intros Hs.
  assert (Hcase : ∀ r : option (list N),
            (if bool_decide (str_lower scheme ≠ py "bearer") then None else r)
            = (if bool_decide (str_lower scheme = py "bearer") then r
               else None)).
  { intros r. destruct (decide (str_lower scheme = py "bearer")) as [Hb|Hb].
    - rewrite bool_decide_eq_false_2 by (intros Hn; done).
      by rewrite bool_decide_eq_true_2.
    - rewrite bool_decide_eq_true_2 by done.
      by rewrite bool_decide_eq_false_2. }
  split; [|split; [|done]].
  - unfold __call__.
    assert (negb (truthy_str (scheme ++ (32%N :: token))) = false) as ->
      by (by destruct scheme).
    rewrite partition_space_app by done. apply Hcase.
  - intros Hne. unfold __call__.
    assert (negb (truthy_str scheme) = false) as -> by (by destruct scheme).
    rewrite partition_space_no_space by done. apply Hcase.
Qed.

Lemma split_dot_length s :
  length (split_dot s) = S (count_occ N.eq_dec s 46%N).
Proof.
  induction s as [|c s IH]; [done|]. cbn [split_dot count_occ].
  destruct (c =? 46)%N eqn:Ec.
  - apply N.eqb_eq in Ec. subst c. cbn [length]. rewrite IH.
    by destruct (N.eq_dec 46%N 46%N).
  - apply N.eqb_neq in Ec. destruct (N.eq_dec c 46%N); [done|].
    destruct (split_dot s); [done|]. by simpl in *.
Qed.

Section WithJose.
Context {User : Type}.
Variable decode : list N → outcome json.
Variable new_User : json → json → json → outcome User.

(** X23.  [verify_token] looks at the shape of the token before the
    decoder does: an empty token is answered 401 "Token is missing" and a
    token that does not hold exactly two dots 401 "Invalid token format",
    whatever the decoder would say; a token with two dots gets the
    decoder's payload, 401 "Could not validate credentials" when the
    decoder raises [JWTError], and the decoder's exception otherwise. *)
Theorem verify_token_format (token : list N) :
  (token = [] →
     verify_token decode token = Raise (unauthorized "Token is missing"))
  ∧ (token ≠ [] → count_occ N.eq_dec token 46%N ≠ 2 →
       verify_token decode token
       = Raise (unauthorized "Invalid token format"))
  ∧ (count_occ N.eq_dec token 46%N = 2 →
       verify_token decode token
       = match decode token with
         | Ok payload => Ok payload
         | Raise e =>
             if is_JWTError e
             then Raise (unauthorized "Could not validate credentials")
             else Raise e
         end).
Proof.
  unfold verify_token. rewrite split_dot_length. split; [|split].
  - by intros ->.
  - intros Hne Hc. destruct token; [done|]. cbn [truthy_str negb].
    destruct (Nat.eqb_spec (S (count_occ N.eq_dec (n :: token) 46%N)) 3)
      as [E|E]; [lia|]. by cbn.
  - intros Hc. destruct token; [done|]. cbn [truthy_str negb].
    by rewrite Hc.
Qed.

(** X24.  Whatever the token, the decoder and the [User] constructor do
    (as long as these two raise no [HTTPException] of their own),
    [get_current_user] raises only [HTTPException] with status 401 or
    500; without a token, or with an empty one, it is 401 "Not
    authenticated" and the decoder is not consulted. *)
Theorem get_current_user_errors (token : option (list N)) :
  (∀ t e, decode t = Raise e → AnalysisEndpoints.is_HTTPException e = false) →
  (∀ u m n e, new_User u m n = Raise e →
     AnalysisEndpoints.is_HTTPException e = false) →
  (∀ e, get_current_user decode new_User token = Raise e →
     exn_cls e = HTTPException 401 ∨ exn_cls e = HTTPException 500)
  ∧ (token = None ∨ token = Some [] →
       get_current_user decode new_User token
       = Raise (unauthorized "Not authenticated")).
Proof.
  intros Hd Hu. split.
  2:{ by intros [->| ->]. }
  intros e. unfold get_current_user.
  destruct (truthy_opt token); cbn [negb]; [|intros [= <-]; by left].
  set (t := default [] token).
  assert (Hv : ∀ x, verify_token decode t = Raise x →
            exn_cls x = HTTPException 401
            ∨ AnalysisEndpoints.is_HTTPException x = false).
  { intros x. unfold verify_token.
    destruct (truthy_str t); cbn [negb]; [|intros [= <-]; by left].
    destruct (length (split_dot t) =? 3); cbn [negb];
      [|intros [= <-]; by left].
    destruct (decode t) as [p|c] eqn:Ed; [discriminate|].
    destruct (is_JWTError c); intros [= <-]; [by left|right; eauto]. }
  destruct (verify_token decode t) as [payload|x].
  2:{ cbn [mbind outcome_bind]. destruct (Hv x eq_refl) as [Hx|Hx].
      - destruct x as [cls msg]. simpl in Hx. subst cls. cbn.
        intros [= <-]. by left.
      - rewrite Hx. intros [= <-]. by right. }
  cbn [mbind outcome_bind].
  destruct payload as [| | | | |l|d];
    try (cbn; intros [= <-]; by right).
  cbn [py_keys py_get mbind outcome_bind]. unfold py_or.
  assert (Huser : ∀ u m n,
            match new_User u m n with
            | Ok user => Ok user
            | Raise x =>
                if AnalysisEndpoints.is_HTTPException x then Raise x
                else Raise (Exn (HTTPException 500)
                              (py "Authentication system error"))
            end = Raise e →
            exn_cls e = HTTPException 401 ∨ exn_cls e = HTTPException 500).
  { intros u m n. destruct (new_User u m n) as [user|x] eqn:En;
      [discriminate|]. rewrite (Hu _ _ _ _ En). intros [= <-]. by right. }
  match goal with |- context [if truthy ?v then _ else _] =>
    destruct (truthy v) eqn:E1 end;
    cbn [mbind outcome_bind].
  { rewrite E1. apply Huser. }
  match goal with |- context [if truthy ?v then _ else _] =>
    destruct (truthy v) eqn:E2 end;
    cbn [mbind outcome_bind].
  { rewrite E2. apply Huser. }
  match goal with |- context [negb (truthy ?v)] =>
    destruct (truthy v) eqn:E3 end; cbn [negb].
  { apply Huser. }
  cbn. intros [= <-]. by left.
Qed.

(** X25.  Which claim names the user: for a token whose payload is the
    JSON object [d], the user id is the value of "sub" if that is truthy,
    else the value of "id" if that is truthy, else the value of "userId";
    when none is truthy (absent, [null], empty or zero) the answer is 401
    "Invalid token: missing user identifier" and no [User] is built.  An
    exception of the [User] constructor is answered 500. *)
Theorem user_id_precedence (t : list N) (d : list (list N * json)) :
  t ≠ [] →
  verify_token decode t = Ok (JDict d) →
  get_current_user decode new_User (Some t)
  = match List.find truthy
            [field_or JNull (py "sub") d; field_or JNull (py "id") d;
             field_or JNull (py "userId") d] with
    | Some user_id =>
        match new_User user_id (field_or JNull (py "email") d)
                (field_or JNull (py "name") d) with
        | Ok user => Ok user
        | Raise e =>
            if AnalysisEndpoints.is_HTTPException e then Raise e
            else Raise (Exn (HTTPException 500)
                          (py "Authentication system error"))
        end
    | None => Raise (unauthorized "Invalid token: missing user identifier")
    end.
Proof.
  intros Ht Hv. unfold get_current_user.
  assert (negb (truthy_opt (Some t)) = false) as -> by (by destruct t).
  cbn [default from_option id]. rewrite Hv.
  cbn [mbind outcome_bind py_keys py_get]. unfold py_or, field_or.
  cbn [List.find].
  destruct (truthy (match dict_lookup (py "sub") d with
                    | Some x => x | None => JNull end)) eqn:E1;
    cbn [mbind outcome_bind]; [by rewrite E1|].
  destruct (truthy (match dict_lookup (py "id") d with
                    | Some x => x | None => JNull end)) eqn:E2;
    cbn [mbind outcome_bind]; [by rewrite E2|].
  by destruct (truthy (match dict_lookup (py "userId") d with
                       | Some x => x | None => JNull end)) eqn:E3.
Qed.

End WithJose.

End AuthFacts.

(* ===================================================================== *)
(** ** The further properties at concrete inputs *)
(* ===================================================================== *)

Section MoreExamples.
#[local] Existing Instance ascii_runtime.
#[local] Existing Instance demo_settings.
Import NounExtractor AzureLLMClient AnalysisService TextAnalyzerApi.

Lemma extract_keywords_ranked_witness :
  extract_keywords (py "The cat saw the dog. The dog saw the cat.") 3
  = [py "cat"; py "saw"; py "dog"]
  ∧ occurrences (py "cat")
      (candidates (py "The cat saw the dog. The dog saw the cat."))
    = occurrences (py "dog")
        (candidates (py "The cat saw the dog. The dog saw the cat."))
  ∧ first_before (py "cat") (py "dog")
      (candidates (py "The cat saw the dog. The dog saw the cat.")).
Proof.
  assert (E : extract_keywords (py "The cat saw the dog. The dog saw the cat.") 3
              = [py "cat"; py "saw"; py "dog"]) by (vm_compute; reflexivity).
  assert (Hs : [py "cat"; py "dog"]
               `sublist_of` extract_keywords
                              (py "The cat saw the dog. The dog saw the cat.") 3).
  { rewrite E. apply sublist_skip, sublist_cons, sublist_skip, sublist_nil. }
  assert (Hc : occurrences (py "cat")
                 (candidates (py "The cat saw the dog. The dog saw the cat."))
               = occurrences (py "dog")
                   (candidates (py "The cat saw the dog. The dog saw the cat.")))
    by (vm_compute; reflexivity).
  split; [exact E|]. split; [exact Hc|].
  exact (proj2 (extract_keywords_ranked
                  (py "The cat saw the dog. The dog saw the cat.") 3
                  (py "cat") (py "dog") Hs) Hc).
Defined.

Lemma extract_keywords_prefix_witness :
  (1 ≤ 3)%Z
  ∧ extract_keywords (py "The cat saw Paris. Paris!") 1
    = take (Z.to_nat 1) (extract_keywords (py "The cat saw Paris. Paris!") 3).
Proof.
  assert (Hk : (1 ≤ 3)%Z) by lia.
  split; [exact Hk|].
  exact (extract_keywords_prefix (py "The cat saw Paris. Paris!") 1 3 Hk).
Defined.

Lemma call_llm_requires_system_prompt_witness :
  (0 ≤ 3)%Z
  ∧ ∃ msg, call_llm AzureLLMClient.init (py "hello") (Some []) 0%float 4000%Z
             None 3%Z None demo_world
           = (Raise (Exn ValueError msg), demo_world).
Proof.
  assert (Hn : (0 ≤ 3)%Z) by lia.
  split; [exact Hn|].
  exact (call_llm_requires_system_prompt AzureLLMClient.init (py "hello")
           (Some []) 0%float 4000%Z None 3%Z None demo_world
           (or_intror eq_refl) Hn).
Defined.

Lemma constructed_client_request_witness :
  ∃ self,
    ModelConfig.__init__ (py "gpt4o") 60%float (Ok tt) = Ok self
    ∧ default_timeout self = 60%float
    ∧ llm_requests
        (snd (call_llm self (py "hello") (Some (py "be brief")) 0%float 4000%Z
                (Some (py "json")) 3%Z None demo_world))
      = [{| rp_model := py "gpt-4o";
            rp_messages :=
              [system_message (py "be brief"); user_message (py "hello")];
            rp_max_tokens := 4000;
            rp_temperature := 0;
            rp_response_format := Some (py "json_object") |}].
Proof.
  eexists.
  assert (Hi : ModelConfig.__init__ (py "gpt4o") 60%float (Ok tt) = Ok _)
    by reflexivity.
  assert (Hsp : py "be brief" ≠ []) by discriminate.
  assert (Hn : (0 ≤ 3)%Z) by lia.
  split; [exact Hi|].
  destruct (constructed_client_request (py "gpt4o") 60%float (Ok tt) _
              (py "hello") (py "be brief") 0%float 4000%Z (Some (py "json"))
              3%Z None demo_world Hi Hsp Hn) as (_ & Ht & Hlog).
  split; [exact Ht|exact Hlog].
Defined.

Lemma ai_inference_json_instruction_witness :
  ∃ sent,
    llm_requests
      (snd (call_llm inference_client (py "hello") (Some (py "be brief"))
              0%float 4000%Z (Some (py "json")) 3%Z None demo_world))
    = [{| rp_model := py "phi";
          rp_messages := [system_message sent; user_message (py "hello")];
          rp_max_tokens := 4000;
          rp_temperature := 0;
          rp_response_format := None |}]
    ∧ py "be brief" `prefix_of` sent
    ∧ (contains sent (py "output JSON") = true
       ∨ py " Respond with a valid JSON object." `suffix_of` sent).
Proof.
  assert (Ha : api_type inference_client = azure_ai_inference) by reflexivity.
  assert (Hsp : py "be brief" ≠ []) by discriminate.
  assert (Hn : (0 ≤ 3)%Z) by lia.
  destruct (ai_inference_json_instruction inference_client (py "hello")
              (py "be brief") 0%float 4000%Z (Some (py "json")) 3%Z None
              demo_world Ha Hsp Hn) as (sent & Hlog & Hpre & Hjson & _).
  exists sent. split; [exact Hlog|]. split; [exact Hpre|].
  exact (Hjson eq_refl).
Defined.

Lemma call_llm_result_stripped_witness :
  ∃ w',
    call_llm AzureLLMClient.init (py "hello") (Some (py "be brief")) 0%float
      4000%Z None 3%Z None demo_world = (Ok (Some (py "{}")), w')
    ∧ strip (py "{}") = py "{}".
Proof.
  eexists.
  assert (E : call_llm AzureLLMClient.init (py "hello") (Some (py "be brief"))
                0%float 4000%Z None 3%Z None demo_world
              = (Ok (Some (py "{}")), _)) by (vm_compute; reflexivity).
  split; [exact E|].
  exact (proj1 (call_llm_result_stripped _ _ _ _ _ _ _ _ _ _ _ E)).
Defined.

Lemma call_llm_reads_first_choice_witness :
  (0 ≤ 3)%Z
  ∧ reply_result (llm_script demo_world (length (llm_requests demo_world)))
    = Ok [Some (py "{}")]
  ∧ fst (call_llm AzureLLMClient.init (py "hello") (Some (py "be brief"))
           0%float 4000%Z None 3%Z None demo_world)
    = Ok (Some (strip (py "{}"))).
Proof.
  assert (Hsp : py "be brief" ≠ []) by discriminate.
  assert (Hn : (0 ≤ 3)%Z) by lia.
  assert (Hr : reply_result
                 (llm_script demo_world (length (llm_requests demo_world)))
               = Ok [Some (py "{}")]) by reflexivity.
  split; [exact Hn|]. split; [exact Hr|].
  exact (call_llm_reads_first_choice AzureLLMClient.init (py "hello")
           (py "be brief") 0%float 4000%Z None 3%Z None demo_world
           [Some (py "{}")] Hsp Hn Hr).
Defined.

Lemma call_llm_timeout_error_witness :
  (0 ≤ 3)%Z
  ∧ reply_result (llm_script timeout_world (length (llm_requests timeout_world)))
    = Raise (Exn AsyncioTimeoutError [])
  ∧ fst (call_llm AzureLLMClient.init (py "hello") (Some (py "be brief"))
           0%float 4000%Z None 3%Z (Some 5%float) timeout_world)
    = Raise (Exn LLMTimeoutError
               (py "LLM call timed out after " ++ float_str 5
                ++ py " seconds")).
Proof.
  assert (Hsp : py "be brief" ≠ []) by discriminate.
  assert (Hn : (0 ≤ 3)%Z) by lia.
  assert (Hr : reply_result
                 (llm_script timeout_world (length (llm_requests timeout_world)))
               = Raise (Exn AsyncioTimeoutError [])) by reflexivity.
  split; [exact Hn|]. split; [exact Hr|].
  exact (call_llm_timeout_error AzureLLMClient.init (py "hello")
           (py "be brief") 0%float 4000%Z None 3%Z (Some 5%float)
           timeout_world _ Hsp Hn Hr eq_refl).
Defined.

Lemma analyze_text_wraps_failures_witness :
  blank (py "good text") = false
  ∧ ∃ err cause,
      fst (analyze_text AnalysisService.init (py "good text") failing_world)
      = Raise err
      ∧ err = Exn PlainException (py "Analysis failed: " ++ exn_str cause).
Proof.
  assert (Hb : blank (py "good text") = false) by reflexivity.
  assert (E : fst (analyze_text AnalysisService.init (py "good text")
                     failing_world)
              = Raise (Exn PlainException
                         (py "Analysis failed: Connection error.")))
    by (vm_compute; reflexivity).
  split; [exact Hb|].
  destruct (analyze_text_wraps_failures AnalysisService.init (py "good text")
              failing_world _ Hb E) as [cause Hc].
  eexists. exists cause. split; [exact E|exact Hc].
Defined.

Lemma analyze_text_timeout_witness :
  blank (py "good text") = false
  ∧ fst (analyze_text AnalysisService.init (py "good text") timeout_world)
    = Raise (Exn PlainException
               (py "Analysis failed: LLM call timed out after "
                ++ float_str 120 ++ py " seconds"))
  ∧ db_commits (snd (analyze_text AnalysisService.init (py "good text")
                       timeout_world)) = 0.
Proof.
  assert (Hb : blank (py "good text") = false) by reflexivity.
  split; [exact Hb|].
  destruct (analyze_text_timeout (py "good text") timeout_world
              (Exn AsyncioTimeoutError []) Hb eq_refl eq_refl)
    as (Hres & _ & Hcommits).
  split; [exact Hres|exact Hcommits].
Defined.


Lemma compose_record_defaults_witness :
  accepts_declared_types
  ∧ ∃ r w',
      compose_record AnalysisService.init (py "good text") positive_world
      = (Ok r, w')
      ∧ summary r = py "No summary available"
      ∧ title r = None
      ∧ topics r = []
      ∧ sentiment r = py "positive".
Proof.
  assert (Hacc : accepts_declared_types) by (by repeat split).
  split; [exact Hacc|]. eexists _, _.
  assert (E : compose_record AnalysisService.init (py "good text")
                positive_world = _) by (vm_compute; reflexivity).
  split; [exact E|].
  assert (Hj : json_loads (strip positive_json)
               = Ok (JDict [(py "sentiment", JStr (py "positive"))]))
    by (vm_compute; reflexivity).
  destruct (compose_record_defaults (py "good text") positive_world _ _
              positive_json [] _ Hacc E eq_refl Hj)
    as (Hs & _ & Ht & _ & _ & Hp & _ & Hn).
  split; [exact (Hs eq_refl)|]. split; [exact (Ht eq_refl)|].
  split; [exact (Hp eq_refl)|]. exact (Hn _ eq_refl).
Defined.

Lemma analysis_read_back_witness :
  ∃ response w',
    analyze_text AnalysisService.init (py "good text") demo_world
    = (Ok response, w')
    ∧ resp_id response = 1%Z
    ∧ AnalysisEndpoints.get_analysis None 1 w' = Ok response.
Proof.
  eexists _, _.
  assert (E : analyze_text AnalysisService.init (py "good text") demo_world
              = (Ok _, _)) by (vm_compute; reflexivity).
  split; [exact E|]. split; [reflexivity|].
  refine (proj2 (proj2 (analysis_read_back AnalysisService.init
                          (py "good text") demo_world _ _ E _))).
  intros r Hr. exfalso. exact (not_elem_of_nil r Hr).
Defined.

Lemma get_analysis_status_witness :
  AnalysisEndpoints.get_analysis None 7 demo_world
  = Raise (AnalysisEndpoints.http_error 404 (py "Analysis not found")).
Proof.
  refine (proj1 (get_analysis_status None 7 demo_world) eq_refl _).
  intros r Hr. exfalso. exact (not_elem_of_nil r Hr).
Defined.

Lemma text_validator_normalizes_witness :
  blank (py "  hi there ") = false
  ∧ ∃ t, TextAnalysisRequest.text_must_not_be_empty (py "  hi there ") = Ok t
         ∧ t = strip (py "  hi there ")
         ∧ TextAnalysisRequest.text_must_not_be_empty t = Ok t.
Proof.
  assert (Hb : blank (py "  hi there ") = false) by reflexivity.
  split; [exact Hb|].
  destruct (proj2 (text_validator_normalizes (py "  hi there ")) Hb)
    as (t & Hv & Ht & _ & _ & Hagain).
  exists t. split; [exact Hv|]. split; [exact Ht|exact Hagain].
Defined.

Lemma analyze_endpoint_status_witness :
  blank (py "   ") = true
  ∧ AnalysisEndpoints.analyze_text (py "   ") demo_world
    = (Raise (AnalysisEndpoints.http_error 400 (py "Text cannot be empty")),
       demo_world)
  ∧ TextAnalysisRequest.text_must_not_be_empty (py " good text ")
    = Ok (py "good text")
  ∧ ∃ cause,
      fst (AnalysisEndpoints.analyze_text (py "good text") failing_world)
      = Raise (AnalysisEndpoints.http_error 500
                 (py "Analysis failed: " ++ exn_str cause)).
Proof.
  assert (Hb : blank (py "   ") = true) by reflexivity.
  assert (Hv : TextAnalysisRequest.text_must_not_be_empty (py " good text ")
               = Ok (py "good text")) by reflexivity.
  assert (E : fst (AnalysisEndpoints.analyze_text (py "good text")
                     failing_world)
              = Raise (AnalysisEndpoints.http_error 500
                         (py "Analysis failed: Connection error.")))
    by (vm_compute; reflexivity).
  split; [exact Hb|].
  split; [exact (proj2 (proj2 (analyze_endpoint_status (py "   ") demo_world))
                   Hb)|].
  split; [exact Hv|].
  destruct (proj1 (analyze_endpoint_status (py " good text ") failing_world)
              _ _ Hv E) as [cause Hc].
  exists cause. rewrite E. f_equal. exact Hc.
Defined.

Lemma process_batch_unknown_id_witness :
  batch_results {| batch_results := ∅; env := demo_world |} !! py "b1" = None
  ∧ fst (process_batch (py "b1") [py "good text"; py "more text"]
           {| batch_results := ∅; env := demo_world |})
    = Raise (key_error (py "b1"))
  ∧ llm_requests
      (env (snd (process_batch (py "b1") [py "good text"; py "more text"]
                   {| batch_results := ∅; env := demo_world |})))
    = [analysis_request (py "good text")].
Proof.
  assert (Hno : batch_results {| batch_results := ∅; env := demo_world |}
                !! py "b1" = None) by reflexivity.
  split; [exact Hno|].
  destruct (process_batch_unknown_id (py "b1") [py "good text"; py "more text"]
              {| batch_results := ∅; env := demo_world |} Hno)
    as (Hres & _ & Hlog).
  split; [exact Hres|exact Hlog].
Defined.

Lemma batch_item_outcome_witness :
  blank (py "good text") = false
  ∧ ∃ a',
      process_text AnalysisService.init (py "b1") (py "good text")
        (snd (batch_analyze_texts (py "b1") 7 [py "good text"]
                {| batch_results := ∅; env := failing_world |}))
      = (Ok tt, a').
Proof.
  assert (Hb : blank (py "good text") = false) by reflexivity.
  split; [exact Hb|].
  destruct (batch_item_outcome (py "b1") (py "good text")
              (snd (batch_analyze_texts (py "b1") 7 [py "good text"]
                      {| batch_results := ∅; env := failing_world |}))
              {| status := py "processing"; successful := []; failed := [];
                 total := 1; created_at := 7 |}
              (lookup_insert_eq _ _ _) Hb) as (a' & Hrun & _).
  exists a'. exact Hrun.
Defined.

Lemma bearer_header_token_witness :
  (32%N ∉ py "Bearer")
  ∧ Auth.__call__ (Some (py "Bearer a.b.c")) = Some (py "a.b.c").
Proof.
  assert (Hs : 32%N ∉ py "Bearer").
  { apply (bool_decide_unpack _). vm_compute. exact I. }
  split; [exact Hs|].
  exact (proj1 (bearer_header_token (py "Bearer") (py "a.b.c") Hs)).
Defined.

Lemma verify_token_format_witness :
  py "a.b" ≠ []
  ∧ count_occ N.eq_dec (py "a.b") 46%N ≠ 2
  ∧ Auth.verify_token demo_decode (py "a.b")
    = Raise (Auth.unauthorized "Invalid token format").
Proof.
  assert (Hne : py "a.b" ≠ []) by discriminate.
  assert (Hc : count_occ N.eq_dec (py "a.b") 46%N ≠ 2) by discriminate.
  split; [exact Hne|]. split; [exact Hc|].
  exact (proj1 (proj2 (verify_token_format demo_decode (py "a.b"))) Hne Hc).
Defined.

Lemma demo_decode_raises t e :
  demo_decode t = Raise e → AnalysisEndpoints.is_HTTPException e = false.
Proof.
  unfold demo_decode. destruct (bool_decide _); [discriminate|].
  by intros [= <-].
Qed.

Lemma demo_new_User_raises u m n e :
  demo_new_User u m n = Raise e → AnalysisEndpoints.is_HTTPException e = false.
Proof. discriminate. Qed.

Lemma get_current_user_errors_witness :
  Auth.get_current_user demo_decode demo_new_User (Some [])
  = Raise (Auth.unauthorized "Not authenticated")
  ∧ Auth.get_current_user demo_decode demo_new_User (Some (py "x.y.z"))
    = Raise (Auth.unauthorized "Could not validate credentials")
  ∧ (exn_cls (Auth.unauthorized "Could not validate credentials")
     = HTTPException 401
     ∨ exn_cls (Auth.unauthorized "Could not validate credentials")
       = HTTPException 500).
Proof.
  assert (E : Auth.get_current_user demo_decode demo_new_User
                (Some (py "x.y.z"))
              = Raise (Auth.unauthorized "Could not validate credentials"))
    by (vm_compute; reflexivity).
  split.
  { exact (proj2 (get_current_user_errors demo_decode demo_new_User (Some [])
                    demo_decode_raises demo_new_User_raises)
             (or_intror eq_refl)). }
  split; [exact E|].
  exact (proj1 (get_current_user_errors demo_decode demo_new_User
                  (Some (py "x.y.z")) demo_decode_raises demo_new_User_raises)
           _ E).
Defined.

Lemma user_id_precedence_witness :
  py "a.b.c" ≠ []
  ∧ Auth.get_current_user demo_decode demo_new_User (Some (py "a.b.c"))
    = Ok (JStr (py "u1")).
Proof.
  assert (Hne : py "a.b.c" ≠ []) by discriminate.
  split; [exact Hne|].
  exact (user_id_precedence demo_decode demo_new_User (py "a.b.c")
           [(py "id", JStr (py "u1")); (py "sub", JStr [])] Hne eq_refl).
Defined.

End MoreExamples.
